(** * Scatter-gather list management of the XDmaChannel driver

    A shallow embedding of [xdma_channel_sg.c] (Xilinx DMA channel driver,
    v1.10b): the ring of buffer descriptors, the put / commit / get
    operations on it, and the start / stop operations on the engine's
    registers, followed by the properties of the protocol that the
    driver's specification states.

    Conventions.
    - A [u32] is a [Z] in [0, 2^32); arithmetic that can wrap around is
      written with [wrap32].  Pointers are 32-bit addresses, [0] is [NULL].
    - Memory is made of 32-bit words, each named by the byte address it
      starts at, and is read and written a whole word at a time.  A buffer
      descriptor is an array of such words indexed by the [XBD_*_OFFSET]
      constants: the word [f] of the descriptor at [p] is the word at
      [p + 4 * f], so two descriptors that overlap share words.  The
      driver is given addresses that are multiples of 4; what is said of
      the word at any address is said of a word that shares no byte with
      the words written.
    - The [XASSERT_*] argument checks are not part of the functions (they
      are compiled out of release builds); where a property needs one, it
      appears as a hypothesis.
    - Register reads are answered by the hardware, a function of the bus
      history; every access is appended to a trace. *)

From Stdlib Require Import ZArith Bool List Lia.
Import ListNotations.
Local Open Scope Z_scope.

(** ** Machine words *)

Definition wrap32 (z : Z) : Z := z mod 2 ^ 32.

Definition is_u32 (z : Z) : Prop := 0 <= z < 2 ^ 32.

(** [~x] on an [unsigned long] of 32 bits. *)
Definition not32 (x : Z) : Z := wrap32 (Z.lnot x).

(** The C test [(w & mask) != 0]. *)
Definition bits_set (w mask : Z) : bool := negb (Z.land w mask =? 0).

(** ** Status codes ([xstatus.h]) *)

(** Modelled from the spec: [xstatus.h] is missing; the codes the driver
    returns, told apart by name. *)

Inductive XStatus : Set :=
| XST_SUCCESS
| XST_DMA_SG_NO_LIST
| XST_DMA_SG_LIST_EMPTY
| XST_DMA_SG_LIST_FULL
| XST_DMA_SG_LIST_EXISTS
| XST_DMA_SG_BD_LOCKED
| XST_DMA_SG_NOTHING_TO_COMMIT
| XST_DMA_SG_IS_STARTED
| XST_DMA_SG_IS_STOPPED
| XST_DMA_SG_BD_NOT_COMMITTED
| XST_DMA_SG_NO_DATA.

Definition XStatus_eq_dec (a b : XStatus) : {a = b} + {a <> b}.
Proof. decide equality. Defined.

(** ** Buffer descriptors and descriptor memory *)

(** Modelled from the spec: the [XBD_*_OFFSET] constants of
    [xbuf_descriptor.h] are missing; these are the names the driver
    indexes the words of a buffer descriptor with, and their values are
    left open ([XBD_word] below). *)
Inductive XBD_Offset : Set :=
| XBD_DEVICE_STATUS_OFFSET
| XBD_CONTROL_OFFSET
| XBD_SOURCE_OFFSET
| XBD_DESTINATION_OFFSET
| XBD_LENGTH_OFFSET
| XBD_STATUS_OFFSET
| XBD_NEXT_PTR_OFFSET
| XBD_ID_OFFSET
| XBD_FLAGS_OFFSET
| XBD_RQSTED_LENGTH_OFFSET.

Definition XBD_Offset_eq_dec (f g : XBD_Offset) : {f = g} + {f <> g}.
Proof. decide equality. Defined.

(** The word that starts at each byte address. *)
Definition Mem : Type := Z -> Z.

(** ** What the driver takes from its headers

    [xdma_channel_i.h] and [xbuf_descriptor.h] are not part of the sources
    at hand.  Their constants are left open: the size of a descriptor, the
    index of each named word in it, the bit masks, the register offsets and
    the word values [XBufDescriptor_Initialize] stores.  A descriptor is an
    array of words: the named words are different words of it and lie
    within its size. *)

Class XDmaHeaders : Type := {
  sizeof_XBufDescriptor : Z;
  XBD_word : XBD_Offset -> Z;
  XBD_word_inj : forall f g, XBD_word f = XBD_word g -> f = g;
  XBD_word_range :
    forall f, 0 <= XBD_word f /\ 4 * XBD_word f + 4 <= sizeof_XBufDescriptor;
  XDC_DMACR_SG_DISABLE_MASK : Z;
  XDC_DMASR_BUSY_MASK : Z;
  XDC_DMASR_SG_BUSY_MASK : Z;
  XDC_CONTROL_LAST_BD_MASK : Z;
  XBD_FLAGS_LOCKED_MASK : Z;
  XDC_DMAS_REG_OFFSET : Z;
  XDC_DMAC_REG_OFFSET : Z;
  XDC_SWCR_REG_OFFSET : Z;
  XDC_BDA_REG_OFFSET : Z;
  XBD_INITIAL_WORD : XBD_Offset -> Z
}.

(** Defined in [xdma_channel_sg.c] itself. *)
Definition XDC_SWCR_SG_ENABLE_MASK : Z := 0x80000000.

(** ** The channel *)

(** Modelled from the spec: the declaration of the channel structure in
    [xdma_channel.h] is missing; these are the fields the driver uses.  The
    pointers are 32-bit addresses and the counts are [u32]. *)

Record XDmaChannel : Type := mkXDmaChannel {
  RegBaseAddress : Z;
  IsReady : Z;
  PutPtr : Z;
  GetPtr : Z;
  CommitPtr : Z;
  LastPtr : Z;
  VirtPtr : Z;
  PhyPtr : Z;
  TotalDescriptorCount : Z;
  ActiveDescriptorCount : Z;
  ActivePacketCount : Z;
  Committed : bool
}.

Definition set_PutPtr (v : Z) (c : XDmaChannel) : XDmaChannel :=
  mkXDmaChannel (RegBaseAddress c) (IsReady c) v (GetPtr c) (CommitPtr c)
    (LastPtr c) (VirtPtr c) (PhyPtr c) (TotalDescriptorCount c)
    (ActiveDescriptorCount c) (ActivePacketCount c) (Committed c).

Definition set_GetPtr (v : Z) (c : XDmaChannel) : XDmaChannel :=
  mkXDmaChannel (RegBaseAddress c) (IsReady c) (PutPtr c) v (CommitPtr c)
    (LastPtr c) (VirtPtr c) (PhyPtr c) (TotalDescriptorCount c)
    (ActiveDescriptorCount c) (ActivePacketCount c) (Committed c).

Definition set_CommitPtr (v : Z) (c : XDmaChannel) : XDmaChannel :=
  mkXDmaChannel (RegBaseAddress c) (IsReady c) (PutPtr c) (GetPtr c) v
    (LastPtr c) (VirtPtr c) (PhyPtr c) (TotalDescriptorCount c)
    (ActiveDescriptorCount c) (ActivePacketCount c) (Committed c).

Definition set_LastPtr (v : Z) (c : XDmaChannel) : XDmaChannel :=
  mkXDmaChannel (RegBaseAddress c) (IsReady c) (PutPtr c) (GetPtr c)
    (CommitPtr c) v (VirtPtr c) (PhyPtr c) (TotalDescriptorCount c)
    (ActiveDescriptorCount c) (ActivePacketCount c) (Committed c).

Definition set_VirtPtr (v : Z) (c : XDmaChannel) : XDmaChannel :=
  mkXDmaChannel (RegBaseAddress c) (IsReady c) (PutPtr c) (GetPtr c)
    (CommitPtr c) (LastPtr c) v (PhyPtr c) (TotalDescriptorCount c)
    (ActiveDescriptorCount c) (ActivePacketCount c) (Committed c).

Definition set_PhyPtr (v : Z) (c : XDmaChannel) : XDmaChannel :=
  mkXDmaChannel (RegBaseAddress c) (IsReady c) (PutPtr c) (GetPtr c)
    (CommitPtr c) (LastPtr c) (VirtPtr c) v (TotalDescriptorCount c)
    (ActiveDescriptorCount c) (ActivePacketCount c) (Committed c).

Definition set_TotalDescriptorCount (v : Z) (c : XDmaChannel) : XDmaChannel :=
  mkXDmaChannel (RegBaseAddress c) (IsReady c) (PutPtr c) (GetPtr c)
    (CommitPtr c) (LastPtr c) (VirtPtr c) (PhyPtr c) v
    (ActiveDescriptorCount c) (ActivePacketCount c) (Committed c).

Definition set_ActiveDescriptorCount (v : Z) (c : XDmaChannel) : XDmaChannel :=
  mkXDmaChannel (RegBaseAddress c) (IsReady c) (PutPtr c) (GetPtr c)
    (CommitPtr c) (LastPtr c) (VirtPtr c) (PhyPtr c) (TotalDescriptorCount c)
    v (ActivePacketCount c) (Committed c).

Definition set_ActivePacketCount (v : Z) (c : XDmaChannel) : XDmaChannel :=
  mkXDmaChannel (RegBaseAddress c) (IsReady c) (PutPtr c) (GetPtr c)
    (CommitPtr c) (LastPtr c) (VirtPtr c) (PhyPtr c) (TotalDescriptorCount c)
    (ActiveDescriptorCount c) v (Committed c).

Definition set_Committed (v : bool) (c : XDmaChannel) : XDmaChannel :=
  mkXDmaChannel (RegBaseAddress c) (IsReady c) (PutPtr c) (GetPtr c)
    (CommitPtr c) (LastPtr c) (VirtPtr c) (PhyPtr c) (TotalDescriptorCount c)
    (ActiveDescriptorCount c) (ActivePacketCount c) v.

(** ** Address translation: the macros [P_TO_V] and [V_TO_P] *)

(** [VirtPtr] and [PhyPtr] are byte pointers: the offset is added
    unscaled, on 32 bits. *)

Definition P_TO_V (InstancePtr : XDmaChannel) (p : Z) : Z :=
  if p =? 0 then 0
  else wrap32 (VirtPtr InstancePtr + wrap32 (p - PhyPtr InstancePtr)).

Definition V_TO_P (InstancePtr : XDmaChannel) (v : Z) : Z :=
  if v =? 0 then 0
  else wrap32 (PhyPtr InstancePtr + wrap32 (v - VirtPtr InstancePtr)).

Section Driver.

Context {H : XDmaHeaders}.

(** ** Reading and writing descriptor words *)

(** The address of [(u32 * )p + f]. *)
Definition word_at (p : Z) (f : XBD_Offset) : Z := p + 4 * XBD_word f.

(** [*((u32 * )p + f)] *)
Definition load (m : Mem) (p : Z) (f : XBD_Offset) : Z := m (word_at p f).

(** [*((u32 * )p + f) = v] *)
Definition store (m : Mem) (p : Z) (f : XBD_Offset) (v : Z) : Mem :=
  fun a => if a =? word_at p f then v else m a.

(** Two words that share no byte. *)
Definition words_apart (a b : Z) : Prop := a + 4 <= b \/ b + 4 <= a.

(** Two descriptors that share no byte. *)
Definition apart (p q : Z) : Prop :=
  p + sizeof_XBufDescriptor <= q \/ q + sizeof_XBufDescriptor <= p.

(** Two descriptors that are the same one or share no byte: neither starts
    inside the other. *)
Definition separate (p q : Z) : Prop := p = q \/ apart p q.

(** ** Descriptor accessors ([xbuf_descriptor.h]) *)

(** Modelled from the spec: the accessor macros of [xbuf_descriptor.h] are
    missing; each reads or writes the one descriptor word it is named
    after. *)
Definition XBufDescriptor_GetControl (m : Mem) (p : Z) : Z :=
  load m p XBD_CONTROL_OFFSET.

Definition XBufDescriptor_SetControl (m : Mem) (p : Z) (v : Z) : Mem :=
  store m p XBD_CONTROL_OFFSET v.

Definition XBufDescriptor_GetStatus (m : Mem) (p : Z) : Z :=
  load m p XBD_STATUS_OFFSET.

Definition XBufDescriptor_SetStatus (m : Mem) (p : Z) (v : Z) : Mem :=
  store m p XBD_STATUS_OFFSET v.

Definition XBufDescriptor_SetDeviceStatus (m : Mem) (p : Z) (v : Z) : Mem :=
  store m p XBD_DEVICE_STATUS_OFFSET v.

Definition XBufDescriptor_GetNextPtr (m : Mem) (p : Z) : Z :=
  load m p XBD_NEXT_PTR_OFFSET.

Definition XBufDescriptor_SetNextPtr (m : Mem) (p : Z) (v : Z) : Mem :=
  store m p XBD_NEXT_PTR_OFFSET v.

(** Modelled from the spec: [XBufDescriptor_IsLocked] is missing; it tests
    the locked bit of the flags word. *)
Definition XBufDescriptor_IsLocked (m : Mem) (p : Z) : bool :=
  bits_set (load m p XBD_FLAGS_OFFSET) XBD_FLAGS_LOCKED_MASK.

(** Modelled from the spec: [XBufDescriptor_IsLastControl] is missing; it
    tests the last-in-packet bit of the control word. *)
Definition XBufDescriptor_IsLastControl (m : Mem) (p : Z) : bool :=
  bits_set (load m p XBD_CONTROL_OFFSET) XDC_CONTROL_LAST_BD_MASK.

(** Modelled from the spec: [XBufDescriptor_Initialize] is missing; it
    gives every word of the descriptor its initial value (all zero in the
    plain configuration). *)
Definition XBufDescriptor_Initialize (m : Mem) (p : Z) : Mem :=
  let m := store m p XBD_CONTROL_OFFSET (XBD_INITIAL_WORD XBD_CONTROL_OFFSET) in
  let m := store m p XBD_SOURCE_OFFSET (XBD_INITIAL_WORD XBD_SOURCE_OFFSET) in
  let m := store m p XBD_DESTINATION_OFFSET
             (XBD_INITIAL_WORD XBD_DESTINATION_OFFSET) in
  let m := store m p XBD_LENGTH_OFFSET (XBD_INITIAL_WORD XBD_LENGTH_OFFSET) in
  let m := store m p XBD_STATUS_OFFSET (XBD_INITIAL_WORD XBD_STATUS_OFFSET) in
  let m := store m p XBD_DEVICE_STATUS_OFFSET
             (XBD_INITIAL_WORD XBD_DEVICE_STATUS_OFFSET) in
  let m := store m p XBD_NEXT_PTR_OFFSET
             (XBD_INITIAL_WORD XBD_NEXT_PTR_OFFSET) in
  let m := store m p XBD_ID_OFFSET (XBD_INITIAL_WORD XBD_ID_OFFSET) in
  let m := store m p XBD_FLAGS_OFFSET (XBD_INITIAL_WORD XBD_FLAGS_OFFSET) in
  store m p XBD_RQSTED_LENGTH_OFFSET
    (XBD_INITIAL_WORD XBD_RQSTED_LENGTH_OFFSET).

(** The macro [CopyBufferDescriptor(InstancePtr, DestinationPtr)]: nine
    word copies, in the order of the source. *)
Definition CopyBufferDescriptor (m : Mem) (InstancePtr DestinationPtr : Z)
  : Mem :=
  let m := store m DestinationPtr XBD_CONTROL_OFFSET
             (load m InstancePtr XBD_CONTROL_OFFSET) in
  let m := store m DestinationPtr XBD_SOURCE_OFFSET
             (load m InstancePtr XBD_SOURCE_OFFSET) in
  let m := store m DestinationPtr XBD_DESTINATION_OFFSET
             (load m InstancePtr XBD_DESTINATION_OFFSET) in
  let m := store m DestinationPtr XBD_LENGTH_OFFSET
             (load m InstancePtr XBD_LENGTH_OFFSET) in
  let m := store m DestinationPtr XBD_STATUS_OFFSET
             (load m InstancePtr XBD_STATUS_OFFSET) in
  let m := store m DestinationPtr XBD_DEVICE_STATUS_OFFSET
             (load m InstancePtr XBD_DEVICE_STATUS_OFFSET) in
  let m := store m DestinationPtr XBD_ID_OFFSET
             (load m InstancePtr XBD_ID_OFFSET) in
  let m := store m DestinationPtr XBD_FLAGS_OFFSET
             (load m InstancePtr XBD_FLAGS_OFFSET) in
  store m DestinationPtr XBD_RQSTED_LENGTH_OFFSET
    (load m InstancePtr XBD_RQSTED_LENGTH_OFFSET).

(** The stop bit of the descriptor at [p]: scatter gather disabled in its
    control word. *)
Definition stop_bit (m : Mem) (p : Z) : bool :=
  bits_set (load m p XBD_CONTROL_OFFSET) XDC_DMACR_SG_DISABLE_MASK.

(** The busy bit of the descriptor at [p]. *)
Definition busy_bit (m : Mem) (p : Z) : bool :=
  bits_set (load m p XBD_STATUS_OFFSET) XDC_DMASR_BUSY_MASK.

Definition copied_words : list XBD_Offset :=
  [XBD_CONTROL_OFFSET; XBD_SOURCE_OFFSET; XBD_DESTINATION_OFFSET;
   XBD_LENGTH_OFFSET; XBD_STATUS_OFFSET; XBD_DEVICE_STATUS_OFFSET;
   XBD_ID_OFFSET; XBD_FLAGS_OFFSET; XBD_RQSTED_LENGTH_OFFSET].

(** ** List operations *)

Definition XDmaChannel_IsSgListEmpty (InstancePtr : XDmaChannel) : bool :=
  ActiveDescriptorCount InstancePtr =? 0.

(** The descriptor after [p] in the list, as the driver computes it. *)
Definition next_in_list (InstancePtr : XDmaChannel) (m : Mem) (p : Z) : Z :=
  P_TO_V InstancePtr (XBufDescriptor_GetNextPtr m p).

(** The three writes [XDmaChannel_PutDescriptor] makes to the caller's
    descriptor before copying it. *)
Definition prepare_descriptor (m : Mem) (BufferDescriptorPtr : Z) : Mem :=
  let Control := XBufDescriptor_GetControl m BufferDescriptorPtr in
  let m := XBufDescriptor_SetControl m BufferDescriptorPtr
             (Z.lor Control XDC_DMACR_SG_DISABLE_MASK) in
  let m := XBufDescriptor_SetStatus m BufferDescriptorPtr
             XDC_DMASR_BUSY_MASK in
  XBufDescriptor_SetDeviceStatus m BufferDescriptorPtr 0.

(** The test of [XDmaChannel_PutDescriptor] that decides whether the
    previous tail lets the engine through. *)
Definition put_opens_tail (InstancePtr : XDmaChannel) : bool :=
  negb (CommitPtr InstancePtr =? LastPtr InstancePtr)
  && negb (CommitPtr InstancePtr =? 0).

Definition clear_stop (m : Mem) (p : Z) : Mem :=
  let Control := XBufDescriptor_GetControl m p in
  XBufDescriptor_SetControl m p
    (Z.land Control (not32 XDC_DMACR_SG_DISABLE_MASK)).

Definition XDmaChannel_PutDescriptor
  (InstancePtr : XDmaChannel) (m : Mem) (BufferDescriptorPtr : Z)
  : XStatus * XDmaChannel * Mem :=
  if TotalDescriptorCount InstancePtr =? 0 then
    (XST_DMA_SG_NO_LIST, InstancePtr, m)
  else if ActiveDescriptorCount InstancePtr
          =? TotalDescriptorCount InstancePtr then
    (XST_DMA_SG_LIST_FULL, InstancePtr, m)
  else if XBufDescriptor_IsLocked m (PutPtr InstancePtr) then
    (XST_DMA_SG_BD_LOCKED, InstancePtr, m)
  else
    let m := prepare_descriptor m BufferDescriptorPtr in
    let m := CopyBufferDescriptor m BufferDescriptorPtr (PutPtr InstancePtr) in
    let c := InstancePtr in
    let c :=
      if XBufDescriptor_IsLastControl m (PutPtr c)
      then set_ActivePacketCount (wrap32 (ActivePacketCount c + 1)) c
      else c in
    let m := if put_opens_tail c then clear_stop m (LastPtr c) else m in
    let c :=
      set_ActiveDescriptorCount (wrap32 (ActiveDescriptorCount c + 1)) c in
    let c := if CommitPtr c =? 0 then set_CommitPtr (LastPtr c) c else c in
    let c := set_LastPtr (PutPtr c) c in
    let c := set_PutPtr (next_in_list c m (PutPtr c)) c in
    (XST_SUCCESS, c, m).

Definition XDmaChannel_CommitPuts (InstancePtr : XDmaChannel) (m : Mem)
  : XStatus * XDmaChannel * Mem :=
  if (CommitPtr InstancePtr =? 0) || XDmaChannel_IsSgListEmpty InstancePtr
  then (XST_DMA_SG_NOTHING_TO_COMMIT, InstancePtr, m)
  else
    let m :=
      if negb (CommitPtr InstancePtr =? LastPtr InstancePtr)
      then clear_stop m (CommitPtr InstancePtr)
      else m in
    let c := set_Committed true InstancePtr in
    let c := set_CommitPtr 0 c in
    (XST_SUCCESS, c, m).

(** The second component is what the call stores through
    [BufDescriptorPtr]; [None] when it stores nothing. *)
Definition XDmaChannel_GetDescriptor (InstancePtr : XDmaChannel) (m : Mem)
  : XStatus * option Z * XDmaChannel * Mem :=
  if TotalDescriptorCount InstancePtr =? 0 then
    (XST_DMA_SG_NO_LIST, None, InstancePtr, m)
  else if XDmaChannel_IsSgListEmpty InstancePtr then
    (XST_DMA_SG_LIST_EMPTY, None, InstancePtr, m)
  else
    let out := GetPtr InstancePtr in
    let c :=
      set_GetPtr (next_in_list InstancePtr m (GetPtr InstancePtr))
        InstancePtr in
    let c :=
      set_ActiveDescriptorCount (wrap32 (ActiveDescriptorCount c - 1)) c in
    (XST_SUCCESS, Some out, c, m).

(** ** Sequences of list calls *)

Inductive Call : Set :=
| CallPut (BufferDescriptorPtr : Z)
| CallCommit
| CallGet.

(** One call on the channel and the descriptor memory; the status it
    returns and the state it leaves. *)
Definition call (k : Call) (s : XDmaChannel * Mem)
  : XStatus * (XDmaChannel * Mem) :=
  match k with
  | CallPut BufferDescriptorPtr =>
      let '(st, c, m) :=
        XDmaChannel_PutDescriptor (fst s) (snd s) BufferDescriptorPtr in
      (st, (c, m))
  | CallCommit =>
      let '(st, c, m) := XDmaChannel_CommitPuts (fst s) (snd s) in
      (st, (c, m))
  | CallGet =>
      let '(st, _, c, m) := XDmaChannel_GetDescriptor (fst s) (snd s) in
      (st, (c, m))
  end.

Definition calls (ks : list Call) (s : XDmaChannel * Mem)
  : XDmaChannel * Mem :=
  fold_left (fun s k => snd (call k s)) ks s.

(** Whether [k] is a put that succeeds in [s]. *)
Definition put_succeeds (k : Call) (s : XDmaChannel * Mem) : bool :=
  match k with
  | CallPut _ =>
      if XStatus_eq_dec (fst (call k s)) XST_SUCCESS then true else false
  | _ => false
  end.

(** The states the list calls lead to from [s0]; the flag tells whether a
    put has succeeded on the way. *)
Inductive reachable (s0 : XDmaChannel * Mem)
  : bool -> XDmaChannel * Mem -> Prop :=
| reach_start : reachable s0 false s0
| reach_call (b : bool) (s : XDmaChannel * Mem) (k : Call) :
    reachable s0 b s ->
    reachable s0 (b || put_succeeds k s) (snd (call k s)).

(** Whether a put has succeeded by the end of the calls [ks], given
    whether one had before them. *)
Fixpoint puts_succeeded (b : bool) (ks : list Call) (s : XDmaChannel * Mem)
  : bool :=
  match ks with
  | [] => b
  | k :: ks => puts_succeeded (b || put_succeeds k s) ks (snd (call k s))
  end.

(** The stop bits the protocol keeps set: on the descriptor at LastPtr,
    and on the one at CommitPtr while CommitPtr is not NULL. *)
Definition stop_bits_kept (s : XDmaChannel * Mem) : Prop :=
  stop_bit (snd s) (LastPtr (fst s)) = true /\
  (CommitPtr (fst s) <> 0 -> stop_bit (snd s) (CommitPtr (fst s)) = true).

(** ** Creating the list *)

(** The address of the [k]-th descriptor carved from a region at
    [MemoryPtr]. *)
Definition slot (MemoryPtr k : Z) : Z :=
  MemoryPtr + k * sizeof_XBufDescriptor.

(** A region the list can be created in: room for a descriptor (asserted
    by [XDmaChannel_CreateSgList]), lying within the 32-bit address space
    above address 0 under both its virtual and its physical address, and
    short enough for the byte count plus one descriptor to fit 32 bits. *)
Definition region_ok (MemoryPtr ByteCount PhyPtr : Z) : Prop :=
  0 < sizeof_XBufDescriptor /\
  sizeof_XBufDescriptor <= ByteCount /\
  ByteCount + sizeof_XBufDescriptor < 2 ^ 32 /\
  0 < MemoryPtr /\ MemoryPtr + ByteCount <= 2 ^ 32 /\
  0 < PhyPtr /\ PhyPtr + ByteCount <= 2 ^ 32.


(** The [while] loop of [XDmaChannel_CreateSgList].  The loop variables are
    passed along; the result holds the channel, the memory and the last
    value of [BufferDescriptorPtr].  [fuel] bounds the iterations: the
    guard is computed on 32 bits, as in the source, and a byte count near
    [2^32] makes it wrap. *)
Fixpoint create_loop (fuel : nat) (InstancePtr : XDmaChannel) (m : Mem)
  (MemoryPtr ByteCount : Z)
  (BufferDescriptorPtr PreviousDescriptorPtr UsedByteCount : Z)
  {struct fuel} : option (XDmaChannel * Mem * Z) :=
  if wrap32 (UsedByteCount + sizeof_XBufDescriptor) <=? ByteCount then
    match fuel with
    | O => None
    | S fuel =>
        let BufferDescriptorPtr := wrap32 (MemoryPtr + UsedByteCount) in
        let m := XBufDescriptor_Initialize m BufferDescriptorPtr in
        let m :=
          if negb (PreviousDescriptorPtr =? 0)
          then XBufDescriptor_SetNextPtr m PreviousDescriptorPtr
                 (V_TO_P InstancePtr BufferDescriptorPtr)
          else m in
        let PreviousDescriptorPtr := BufferDescriptorPtr in
        let c :=
          set_TotalDescriptorCount
            (wrap32 (TotalDescriptorCount InstancePtr + 1)) InstancePtr in
        let UsedByteCount := wrap32 (UsedByteCount + sizeof_XBufDescriptor) in
        create_loop fuel c m MemoryPtr ByteCount
          BufferDescriptorPtr PreviousDescriptorPtr UsedByteCount
    end
  else Some (InstancePtr, m, BufferDescriptorPtr).

Definition XDmaChannel_CreateSgList (fuel : nat)
  (InstancePtr : XDmaChannel) (m : Mem) (MemoryPtr ByteCount PhyPtr : Z)
  : option (XStatus * XDmaChannel * Mem) :=
  let StartOfListPtr := MemoryPtr in
  if negb (TotalDescriptorCount InstancePtr =? 0) then
    Some (XST_DMA_SG_LIST_EXISTS, InstancePtr, m)
  else
    let c := set_VirtPtr MemoryPtr InstancePtr in
    let c := set_PhyPtr PhyPtr c in
    match create_loop fuel c m MemoryPtr ByteCount MemoryPtr 0 0 with
    | None => None
    | Some (c, m, BufferDescriptorPtr) =>
        let m := XBufDescriptor_SetNextPtr m BufferDescriptorPtr
                   (V_TO_P c StartOfListPtr) in
        let c := set_PutPtr BufferDescriptorPtr c in
        let c := set_GetPtr BufferDescriptorPtr c in
        let c := set_CommitPtr 0 c in
        let c := set_LastPtr BufferDescriptorPtr c in
        let c := set_ActiveDescriptorCount 0 c in
        let c := set_ActivePacketCount 0 c in
        let c := set_Committed false c in
        Some (XST_SUCCESS, c, m)
    end.

(** The state in the result of a creation, [d] when it has none. *)
Definition created_state (o : option (XStatus * XDmaChannel * Mem))
  (d : XDmaChannel * Mem) : XDmaChannel * Mem :=
  match o with
  | Some (_, c, m) => (c, m)
  | None => d
  end.

Definition created_status (o : option (XStatus * XDmaChannel * Mem))
  : option XStatus :=
  match o with
  | Some (st, _, _) => Some st
  | None => None
  end.

(** The channel a successful creation leaves, whatever the channel was
    before. *)
Definition created_channel (c0 : XDmaChannel) (MemoryPtr ByteCount PhyPtr : Z)
  : XDmaChannel :=
  let N := ByteCount / sizeof_XBufDescriptor in
  let last := slot MemoryPtr (N - 1) in
  mkXDmaChannel (RegBaseAddress c0) (IsReady c0) last last 0 last
    MemoryPtr PhyPtr N 0 0 false.

(** The skeleton of the list: the descriptors are the [slot]s of the
    region at [VirtPtr], and following the next pointer of one leads to
    the one after it, from the last back to the first. *)
Definition ring_ok (c : XDmaChannel) (m : Mem) : Prop :=
  0 < sizeof_XBufDescriptor /\ 0 < VirtPtr c /\
  1 <= TotalDescriptorCount c /\
  forall k, 0 <= k < TotalDescriptorCount c ->
    next_in_list c m (slot (VirtPtr c) k)
    = slot (VirtPtr c) ((k + 1) mod TotalDescriptorCount c).

(** Where the cursors can be: LastPtr on a descriptor of the list, PutPtr
    on the one after it (or still on it while nothing is staged), and
    CommitPtr NULL or on a descriptor of the list. *)
Definition cursors_ok (c : XDmaChannel) : Prop :=
  (exists j, 0 <= j < TotalDescriptorCount c /\
     LastPtr c = slot (VirtPtr c) j /\
     (PutPtr c = slot (VirtPtr c) ((j + 1) mod TotalDescriptorCount c) \/
      (PutPtr c = LastPtr c /\ CommitPtr c = 0))) /\
  (CommitPtr c = 0 \/
   exists k, 0 <= k < TotalDescriptorCount c /\
     CommitPtr c = slot (VirtPtr c) k).

(** The invariant of the list calls; [b] tells whether a put has
    succeeded. *)
Definition list_inv (b : bool) (s : XDmaChannel * Mem) : Prop :=
  ring_ok (fst s) (snd s) /\ cursors_ok (fst s) /\
  if b then stop_bits_kept s
  else PutPtr (fst s) = LastPtr (fst s) /\ CommitPtr (fst s) = 0.

(** ** Where the caller's descriptors lie *)

(** The caller's descriptor at [p] is one of the descriptors of the list
    or shares no byte with any of them: it does not start inside one, nor
    one inside it. *)
Definition source_ok (c : XDmaChannel) (p : Z) : Prop :=
  forall k, 0 <= k < TotalDescriptorCount c ->
    separate p (slot (VirtPtr c) k).

(** A call that, when it is a put, is given such a descriptor. *)
Definition call_ok (c : XDmaChannel) (k : Call) : Prop :=
  match k with
  | CallPut BufferDescriptorPtr => source_ok c BufferDescriptorPtr
  | _ => True
  end.

(** The descriptor at [q] does not partly overlap a descriptor the call
    [k] can write on the channel [c]: for a put the caller's descriptor and
    the descriptors at PutPtr and at LastPtr, for a commit the descriptor
    at CommitPtr. *)
Definition call_spares (c : XDmaChannel) (k : Call) (q : Z) : Prop :=
  match k with
  | CallPut BufferDescriptorPtr =>
      separate q BufferDescriptorPtr /\ separate q (PutPtr c) /\
      separate q (LastPtr c)
  | CallCommit => separate q (CommitPtr c)
  | CallGet => True
  end.

(** The states such calls lead to from [s0]; the flag tells whether a put
    has succeeded on the way. *)
Inductive reachable_ok (s0 : XDmaChannel * Mem)
  : bool -> XDmaChannel * Mem -> Prop :=
| reach_ok_start : reachable_ok s0 false s0
| reach_ok_call (b : bool) (s : XDmaChannel * Mem) (k : Call) :
    reachable_ok s0 b s -> call_ok (fst s0) k ->
    reachable_ok s0 (b || put_succeeds k s) (snd (call k s)).

(** ** The register bus *)

Inductive IoEvent : Set :=
| IoIn (address value : Z)
| IoOut (address value : Z).

Definition Trace : Type := list IoEvent.

(** The engine: what a read of [address] returns after the accesses made
    so far. *)
Definition Hardware : Type := Trace -> Z -> Z.

Section Bus.

Variable hw : Hardware.

(** Modelled from the spec: the register access primitives of [xio.h]
    are missing; a read asks the engine and a write is put on record. *)
Definition XIo_In32 (t : Trace) (address : Z) : Z * Trace :=
  let v := hw t address in (v, t ++ [IoIn address v]).

Definition XIo_Out32 (t : Trace) (address value : Z) : Trace :=
  t ++ [IoOut address value].

(** [InstancePtr->RegBaseAddress + offset] *)
Definition reg (InstancePtr : XDmaChannel) (offset : Z) : Z :=
  wrap32 (RegBaseAddress InstancePtr + offset).

(** [P_TO_V(XIo_In32(address))].  [P_TO_V] is a macro and names its
    argument twice: the register is read for the test against zero and,
    when that read is not zero, read again for the translation. *)
Definition P_TO_V_In32 (InstancePtr : XDmaChannel) (t : Trace) (address : Z)
  : Z * Trace :=
  let (p, t) := XIo_In32 t address in
  if p =? 0 then (0, t)
  else
    let (p, t) := XIo_In32 t address in
    (wrap32 (VirtPtr InstancePtr + wrap32 (p - PhyPtr InstancePtr)), t).

(** The two read-modify-write accesses that end a successful
    [XDmaChannel_SgStart], software control register first. *)
Definition enable_sg (InstancePtr : XDmaChannel) (t : Trace) : Trace :=
  let (Register, t) := XIo_In32 t (reg InstancePtr XDC_SWCR_REG_OFFSET) in
  let t := XIo_Out32 t (reg InstancePtr XDC_SWCR_REG_OFFSET)
             (Z.lor Register XDC_SWCR_SG_ENABLE_MASK) in
  let (Register, t) := XIo_In32 t (reg InstancePtr XDC_DMAC_REG_OFFSET) in
  XIo_Out32 t (reg InstancePtr XDC_DMAC_REG_OFFSET)
    (Z.land Register (not32 XDC_DMACR_SG_DISABLE_MASK)).

Definition XDmaChannel_SgStart
  (InstancePtr : XDmaChannel) (m : Mem) (t : Trace)
  : XStatus * XDmaChannel * Mem * Trace :=
  if TotalDescriptorCount InstancePtr =? 0 then
    (XST_DMA_SG_NO_LIST, InstancePtr, m, t)
  else if XDmaChannel_IsSgListEmpty InstancePtr then
    (XST_DMA_SG_LIST_EMPTY, InstancePtr, m, t)
  else
    let (Register, t) := XIo_In32 t (reg InstancePtr XDC_DMAS_REG_OFFSET) in
    if bits_set Register XDC_DMASR_SG_BUSY_MASK then
      (XST_DMA_SG_IS_STARTED, InstancePtr, m, t)
    else
      let (LastDescriptorPtr, t) :=
        P_TO_V_In32 InstancePtr t (reg InstancePtr XDC_BDA_REG_OFFSET) in
      if LastDescriptorPtr =? 0 then
        let t := XIo_Out32 t (reg InstancePtr XDC_BDA_REG_OFFSET)
                   (V_TO_P InstancePtr (GetPtr InstancePtr)) in
        (XST_SUCCESS, InstancePtr, m, enable_sg InstancePtr t)
      else
        let NextDescriptorPtr :=
          P_TO_V InstancePtr (XBufDescriptor_GetNextPtr m LastDescriptorPtr) in
        if Z.land (XBufDescriptor_GetStatus m NextDescriptorPtr)
             XDC_DMASR_BUSY_MASK =? 0 then
          (XST_DMA_SG_NO_DATA, InstancePtr, m, t)
        else if NextDescriptorPtr =? CommitPtr InstancePtr then
          (XST_DMA_SG_BD_NOT_COMMITTED, InstancePtr, m, t)
        else
          (XST_SUCCESS, InstancePtr, m, enable_sg InstancePtr t).

(** The trace after [n] reads of [address] in a row. *)
Fixpoint poll_trace (address : Z) (n : nat) (t : Trace) : Trace :=
  match n with
  | O => t
  | S n => poll_trace address n (snd (XIo_In32 t address))
  end.

(** The [do ... while] loop of [XDmaChannel_SgStop]: read the status
    register until scatter gather is no longer busy.  The source polls
    without bound; [fuel] bounds the number of reads, and [None] means the
    engine was still busy after that many. *)
Fixpoint wait_sg_idle (fuel : nat) (InstancePtr : XDmaChannel) (t : Trace)
  {struct fuel} : option Trace :=
  match fuel with
  | O => None
  | S fuel =>
      let (Register, t) := XIo_In32 t (reg InstancePtr XDC_DMAS_REG_OFFSET) in
      if bits_set Register XDC_DMASR_SG_BUSY_MASK
      then wait_sg_idle fuel InstancePtr t
      else Some t
  end.

(** The second component is what the call stores through
    [BufDescriptorPtr]; [None] when it stores nothing. *)
Definition XDmaChannel_SgStop (fuel : nat)
  (InstancePtr : XDmaChannel) (m : Mem) (t : Trace)
  : option (XStatus * option Z * XDmaChannel * Mem * Trace) :=
  let (Register, t) := XIo_In32 t (reg InstancePtr XDC_SWCR_REG_OFFSET) in
  if Z.land Register XDC_SWCR_SG_ENABLE_MASK =? 0 then
    Some (XST_DMA_SG_IS_STOPPED, None, InstancePtr, m, t)
  else
    let t := XIo_Out32 t (reg InstancePtr XDC_SWCR_REG_OFFSET)
               (Z.land Register (not32 XDC_SWCR_SG_ENABLE_MASK)) in
    match wait_sg_idle fuel InstancePtr t with
    | None => None
    | Some t =>
        let (BufDescriptor, t) :=
          P_TO_V_In32 InstancePtr t (reg InstancePtr XDC_BDA_REG_OFFSET) in
        Some (XST_SUCCESS, Some BufDescriptor, InstancePtr, m, t)
    end.

End Bus.

End Driver.


(** ** A sample configuration

    One choice of the header constants, a channel on which no list exists
    yet, and a list of four descriptors at virtual address [0x1000],
    physical address [0x8000].  The examples run on these. *)

(** The words of a descriptor in the order [XBD_Offset] lists them. *)
Definition sample_word (f : XBD_Offset) : Z :=
  match f with
  | XBD_DEVICE_STATUS_OFFSET => 0
  | XBD_CONTROL_OFFSET => 1
  | XBD_SOURCE_OFFSET => 2
  | XBD_DESTINATION_OFFSET => 3
  | XBD_LENGTH_OFFSET => 4
  | XBD_STATUS_OFFSET => 5
  | XBD_NEXT_PTR_OFFSET => 6
  | XBD_ID_OFFSET => 7
  | XBD_FLAGS_OFFSET => 8
  | XBD_RQSTED_LENGTH_OFFSET => 9
  end.

Definition sample_word_inj (f g : XBD_Offset) :
  sample_word f = sample_word g -> f = g.
Proof. destruct f, g; cbn; intros E; (reflexivity || discriminate E). Qed.

Definition sample_word_range (f : XBD_Offset) :
  0 <= sample_word f /\ 4 * sample_word f + 4 <= 40.
Proof. destruct f; cbn; lia. Qed.

Definition sample_headers : XDmaHeaders := {|
  sizeof_XBufDescriptor := 40;
  XBD_word := sample_word;
  XBD_word_inj := sample_word_inj;
  XBD_word_range := sample_word_range;
  XDC_DMACR_SG_DISABLE_MASK := 0x08000000;
  XDC_DMASR_BUSY_MASK := 0x80000000;
  XDC_DMASR_SG_BUSY_MASK := 0x08000000;
  XDC_CONTROL_LAST_BD_MASK := 0x02000000;
  XBD_FLAGS_LOCKED_MASK := 1;
  XDC_DMAS_REG_OFFSET := 20;
  XDC_DMAC_REG_OFFSET := 4;
  XDC_SWCR_REG_OFFSET := 28;
  XDC_BDA_REG_OFFSET := 24;
  XBD_INITIAL_WORD := fun _ => 0
|}.

Definition new_channel : XDmaChannel :=
  mkXDmaChannel 0x40000000 1 0 0 0 0 0 0 0 0 0 false.

Definition zero_mem : Mem := fun _ => 0.

Section Sample.

Local Existing Instance sample_headers.

Definition sample_created : option (XStatus * XDmaChannel * Mem) :=
  XDmaChannel_CreateSgList 4 new_channel zero_mem 0x1000 160 0x8000.

Definition sample_ring : XDmaChannel * Mem :=
  created_state sample_created (new_channel, zero_mem).

(** The sample list after one put. *)
Definition sample_after_put : XDmaChannel * Mem :=
  calls [CallPut 0x100] sample_ring.

(** An engine with scatter gather enabled that shows busy on the first two
    reads of its status register and idle afterwards, and whose BDA
    register holds the physical address of the second descriptor. *)
Definition sample_engine : Hardware :=
  fun t address =>
    if address =? reg new_channel XDC_SWCR_REG_OFFSET then 0x80000001
    else if address =? reg new_channel XDC_DMAS_REG_OFFSET then
      if (length t <? 4)%nat then XDC_DMASR_SG_BUSY_MASK else 0
    else if address =? reg new_channel XDC_BDA_REG_OFFSET then 0x8028
    else 0.

End Sample.

(** ** The active descriptors *)

Section Active.

Context {H : XDmaHeaders}.

(** The [n] descriptors of the list from the [g]-th on, going round. *)
Definition window (c : XDmaChannel) (g : Z) (n : nat) : list Z :=
  map (fun i => slot (VirtPtr c)
                  ((g + Z.of_nat i) mod TotalDescriptorCount c))
    (seq 0 n).

(** What the list calls keep true of the counts and the cursors: the
    active count is within the total, GetPtr is a descriptor of the list,
    PutPtr is the descriptor ActiveDescriptorCount places after it, and
    LastPtr is a descriptor of the list. *)
Definition active_ok (c : XDmaChannel) : Prop :=
  0 <= ActiveDescriptorCount c <= TotalDescriptorCount c /\
  TotalDescriptorCount c < 2 ^ 32 /\
  (exists g, 0 <= g < TotalDescriptorCount c /\
     GetPtr c = slot (VirtPtr c) g /\
     PutPtr c = slot (VirtPtr c)
                  ((g + ActiveDescriptorCount c) mod TotalDescriptorCount c)) /\
  (exists j, 0 <= j < TotalDescriptorCount c /\
     LastPtr c = slot (VirtPtr c) j).

(** The descriptors the successful puts among the calls [ks] have written
    and the descriptors the successful gets have handed out, each in
    order, added to [puts] and [gets]. *)
Fixpoint journal (ks : list Call) (s : XDmaChannel * Mem)
  (puts gets : list Z) : list Z * list Z :=
  match ks with
  | [] => (puts, gets)
  | k :: ks =>
      let s' := snd (call k s) in
      match k with
      | CallPut _ =>
          journal ks s'
            (if put_succeeds k s then puts ++ [PutPtr (fst s)] else puts)
            gets
      | CallCommit => journal ks s' puts gets
      | CallGet =>
          journal ks s' puts
            (match snd (fst (fst (XDmaChannel_GetDescriptor (fst s) (snd s))))
             with
             | Some p => gets ++ [p]
             | None => gets
             end)
      end
  end.

End Active.

(** ** Interrupt coalescing *)

(** Modelled from the spec: the offsets of the three coalescing registers
    ([xdma_channel_i.h]) are missing; they are left open. *)
Class XDmaCoalescingHeaders : Type := {
  XDC_UPC_REG_OFFSET : Z;
  XDC_PCT_REG_OFFSET : Z;
  XDC_PWB_REG_OFFSET : Z
}.

Section Coalescing.

Context {K : XDmaCoalescingHeaders}.

Variable hw : Hardware.

(** The value returned and the trace. *)
Definition XDmaChannel_GetPktCount (InstancePtr : XDmaChannel) (t : Trace)
  : Z * Trace :=
  XIo_In32 hw t (reg InstancePtr XDC_UPC_REG_OFFSET).

Definition XDmaChannel_DecrementPktCount (InstancePtr : XDmaChannel)
  (t : Trace) : Trace :=
  let (Register, t) := XIo_In32 hw t (reg InstancePtr XDC_UPC_REG_OFFSET) in
  if 0 <? Register
  then XIo_Out32 t (reg InstancePtr XDC_UPC_REG_OFFSET) 1
  else t.

(** [Threshold] is a [u8]; the cast to [u32] keeps its value. *)
Definition XDmaChannel_SetPktThreshold (InstancePtr : XDmaChannel)
  (t : Trace) (Threshold : Z) : XStatus * Trace :=
  (XST_SUCCESS, XIo_Out32 t (reg InstancePtr XDC_PCT_REG_OFFSET) Threshold).

(** The cast to [u8] keeps the low eight bits of the register. *)
Definition XDmaChannel_GetPktThreshold (InstancePtr : XDmaChannel)
  (t : Trace) : Z * Trace :=
  let (Register, t) := XIo_In32 hw t (reg InstancePtr XDC_PCT_REG_OFFSET) in
  (Register mod 2 ^ 8, t).

(** The function asserts [WaitBound < 1024]. *)
Definition XDmaChannel_SetPktWaitBound (InstancePtr : XDmaChannel)
  (t : Trace) (WaitBound : Z) : Trace :=
  XIo_Out32 t (reg InstancePtr XDC_PWB_REG_OFFSET) WaitBound.

Definition XDmaChannel_GetPktWaitBound (InstancePtr : XDmaChannel)
  (t : Trace) : Z * Trace :=
  XIo_In32 hw t (reg InstancePtr XDC_PWB_REG_OFFSET).

(** [n] calls of [XDmaChannel_DecrementPktCount] in a row. *)
Fixpoint decrement_times (n : nat) (InstancePtr : XDmaChannel) (t : Trace)
  : Trace :=
  match n with
  | O => t
  | S n =>
      decrement_times n InstancePtr
        (XDmaChannel_DecrementPktCount InstancePtr t)
  end.

End Coalescing.

(** ** Registers as the driver expects them *)

(** The value last written to [address], if any. *)
Fixpoint last_written (address : Z) (t : Trace) : option Z :=
  match t with
  | [] => None
  | e :: t =>
      match last_written address t with
      | Some v => Some v
      | None =>
          match e with
          | IoOut a v => if a =? address then Some v else None
          | IoIn _ _ => None
          end
      end
  end.

(** The number of writes to [address]. *)
Fixpoint writes_to (address : Z) (t : Trace) : Z :=
  match t with
  | [] => 0
  | IoOut a _ :: t =>
      (if a =? address then 1 else 0) + writes_to address t
  | IoIn _ _ :: t => writes_to address t
  end.

(** The register at [address] reads back the value last written to it. *)
Definition reads_back (hw : Hardware) (address : Z) : Prop :=
  forall t v, last_written address t = Some v -> hw t address = v.

(** The register at [address] is a count that starts at [n0] and that
    every write lowers by one, as long as it has not gone below zero. *)
Definition counts_down (hw : Hardware) (address n0 : Z) : Prop :=
  forall t, writes_to address t <= n0 ->
            hw t address = n0 - writes_to address t.

(** An engine whose registers read back the value last written, zero
    before any write. *)
Definition register_file : Hardware :=
  fun t address =>
    match last_written address t with
    | Some v => v
    | None => 0
    end.

(** An engine whose registers all count down from 3. *)
Definition countdown_engine : Hardware :=
  fun t address => 3 - writes_to address t.

Definition sample_coalescing_headers : XDmaCoalescingHeaders := {|
  XDC_UPC_REG_OFFSET := 32;
  XDC_PCT_REG_OFFSET := 36;
  XDC_PWB_REG_OFFSET := 40
|}.

(** An idle engine whose BDA register holds [bda]; every other register
    reads zero. *)
Definition idle_engine (bda : Z) : Hardware :=
  fun _ address =>
    if address =? reg new_channel (@XDC_BDA_REG_OFFSET sample_headers)
    then bda else 0.

(** A channel with a list of one descriptor at [0x1000], which is active. *)
Definition one_active_channel : XDmaChannel :=
  mkXDmaChannel 0x40000000 1 0x1000 0x1000 0 0x1000 0x1000 0x8000 1 1 0 false.

(** ** Runs of puts *)

Section Runs.

Context {H : XDmaHeaders}.

(** The statuses the calls [ks] return, in order. *)
Fixpoint statuses (ks : list Call) (s : XDmaChannel * Mem) : list XStatus :=
  match ks with
  | [] => []
  | k :: ks => fst (call k s) :: statuses ks (snd (call k s))
  end.

(** The descriptor at [p] shares no byte with a descriptor of the list. *)
Definition outside_list (c : XDmaChannel) (p : Z) : Prop :=
  forall k, 0 <= k < TotalDescriptorCount c -> apart p (slot (VirtPtr c) k).

(** A run of [j] puts staged behind the descriptor number [l]: CommitPtr
    is still on that descriptor, LastPtr is [j] places after it on the
    descriptor written last, which has its stop bit set, and the
    descriptors of the run before that one have it clear. *)
Definition run_staged (l j : Z) (s : XDmaChannel * Mem) : Prop :=
  let c := fst s in
  let N := TotalDescriptorCount c in
  1 <= j <= N /\ j <= ActiveDescriptorCount c /\
  CommitPtr c = slot (VirtPtr c) l /\
  LastPtr c = slot (VirtPtr c) ((l + j) mod N) /\
  PutPtr c = slot (VirtPtr c) ((l + j + 1) mod N) /\
  stop_bit (snd s) (LastPtr c) = true /\
  forall i, 1 <= i < j ->
    stop_bit (snd s) (slot (VirtPtr c) ((l + i) mod N)) = false.

End Runs.
(** * Properties *)

(** ** Words and memory *)

Lemma land_lor_mask (w k : Z) : Z.land (Z.lor w k) k = k.
Proof.
  apply Z.bits_inj'; intros n _.
  rewrite Z.land_spec, Z.lor_spec.
  destruct (Z.testbit w n), (Z.testbit k n); reflexivity.
Qed.

Lemma not32_spec (k n : Z) :
  0 <= n ->
  Z.testbit (not32 k) n = (n <? 32) && negb (Z.testbit k n).
Proof.
  intros Hn. unfold not32, wrap32.
  destruct (Z.ltb_spec n 32).
  - rewrite Z.mod_pow2_bits_low by lia.
    rewrite Z.lnot_spec by lia. reflexivity.
  - rewrite Z.mod_pow2_bits_high by lia. reflexivity.
Qed.

Lemma land_not32_mask (w k : Z) : Z.land (Z.land w (not32 k)) k = 0.
Proof.
  apply Z.bits_inj'; intros n Hn.
  rewrite !Z.land_spec, not32_spec, Z.bits_0 by assumption.
  destruct (Z.testbit w n), (Z.testbit k n), (n <? 32); reflexivity.
Qed.

Lemma bits_set_lor (w k : Z) : k <> 0 -> bits_set (Z.lor w k) k = true.
Proof.
  intros Hk. unfold bits_set. rewrite land_lor_mask.
  destruct (Z.eqb_spec k 0); [contradiction | reflexivity].
Qed.

Lemma bits_set_cleared (w k : Z) : bits_set (Z.land w (not32 k)) k = false.
Proof. unfold bits_set. rewrite land_not32_mask. reflexivity. Qed.

Lemma bits_set_nonzero (w k : Z) : bits_set w k = true -> k <> 0.
Proof.
  unfold bits_set. intros Hs ->. rewrite Z.land_0_r in Hs. discriminate.
Qed.

Section MemoryProperties.

Context {H : XDmaHeaders}.

Lemma word_at_inj (p : Z) (f g : XBD_Offset) :
  word_at p f = word_at p g -> f = g.
Proof. unfold word_at. intros E. apply XBD_word_inj. lia. Qed.

Lemma word_at_other (p : Z) (f g : XBD_Offset) :
  g <> f -> words_apart (word_at p g) (word_at p f).
Proof.
  intros Hg. unfold words_apart, word_at.
  assert (XBD_word g <> XBD_word f)
    by (intros E; apply Hg, XBD_word_inj, E).
  lia.
Qed.

Lemma word_at_apart (p q : Z) (f g : XBD_Offset) :
  apart p q -> words_apart (word_at p f) (word_at q g).
Proof.
  unfold apart, words_apart, word_at.
  pose proof (XBD_word_range f). pose proof (XBD_word_range g). lia.
Qed.

Lemma words_apart_neq (a b : Z) : words_apart a b -> a <> b.
Proof. unfold words_apart. lia. Qed.

Lemma apart_sym (p q : Z) : apart p q -> apart q p.
Proof. unfold apart. tauto. Qed.

Lemma apart_neq (p q : Z) : apart p q -> p <> q.
Proof.
  unfold apart. pose proof (XBD_word_range XBD_CONTROL_OFFSET). lia.
Qed.

Lemma separate_sym (p q : Z) : separate p q -> separate q p.
Proof. intros [->|Ha]; [left; reflexivity | right; apply apart_sym, Ha]. Qed.

Lemma separate_refl (p : Z) : separate p p.
Proof. left. reflexivity. Qed.

Lemma separate_neq (p q : Z) : separate p q -> p <> q -> apart p q.
Proof. intros [->|Ha] Hne; [contradiction | exact Ha]. Qed.

(** Two different slots of a region share no byte. *)
Lemma slots_apart (M j k : Z) :
  0 < sizeof_XBufDescriptor -> j <> k -> apart (slot M j) (slot M k).
Proof. unfold apart, slot. intros HS Hne. nia. Qed.

Lemma slots_separate (M j k : Z) :
  0 < sizeof_XBufDescriptor -> separate (slot M j) (slot M k).
Proof.
  intros HS. destruct (Z.eq_dec j k) as [->|Hne].
  - apply separate_refl.
  - right. apply slots_apart; assumption.
Qed.

Lemma store_same (m : Mem) (p : Z) (f : XBD_Offset) (v : Z) :
  store m p f v (word_at p f) = v.
Proof. unfold store. rewrite Z.eqb_refl. reflexivity. Qed.

Lemma store_other (m : Mem) (p : Z) (f : XBD_Offset) (v a : Z) :
  a <> word_at p f -> store m p f v a = m a.
Proof.
  intros Ha. unfold store.
  destruct (Z.eqb_spec a (word_at p f)); [contradiction | reflexivity].
Qed.

Lemma load_store (m : Mem) (p q : Z) (f g : XBD_Offset) (v : Z) :
  load (store m p f v) q g =
  if word_at q g =? word_at p f then v else load m q g.
Proof. reflexivity. Qed.

Lemma load_store_same (m : Mem) (p : Z) (f : XBD_Offset) (v : Z) :
  load (store m p f v) p f = v.
Proof. apply store_same. Qed.

Lemma load_store_other_word (m : Mem) (p : Z) (f g : XBD_Offset) (v : Z) :
  g <> f -> load (store m p f v) p g = load m p g.
Proof.
  intros Hg. apply store_other. apply words_apart_neq, word_at_other, Hg.
Qed.

Lemma load_store_apart (m : Mem) (p q : Z) (f g : XBD_Offset) (v : Z) :
  apart q p -> load (store m p f v) q g = load m q g.
Proof.
  intros Ha. apply store_other. apply words_apart_neq, word_at_apart, Ha.
Qed.

End MemoryProperties.

(** Rewrites a read after writes to the same descriptor or to one that
    shares no byte with it. *)
Ltac loads :=
  repeat first
    [ rewrite load_store_same
    | rewrite load_store_other_word by (discriminate || congruence)
    | rewrite load_store_apart
        by (assumption || (apply apart_sym; assumption)) ].

(** Rewrites a word of memory after writes to other words. *)
Ltac stores :=
  repeat (rewrite store_other by (apply words_apart_neq; auto)).

Section DriverProperties.

Context {H : XDmaHeaders}.

(** *** The field-wise copy *)

(** The copy leaves every word but the nine it writes. *)
Lemma copy_frame (m : Mem) (src dst a : Z) :
  (forall f, In f copied_words -> words_apart a (word_at dst f)) ->
  CopyBufferDescriptor m src dst a = m a.
Proof.
  intros Ha. unfold CopyBufferDescriptor. cbv zeta.
  repeat (rewrite store_other
            by (apply words_apart_neq, Ha; cbn; tauto)).
  reflexivity.
Qed.

Lemma copy_keeps_next (m : Mem) (src dst q : Z) :
  separate q dst ->
  load (CopyBufferDescriptor m src dst) q XBD_NEXT_PTR_OFFSET
  = load m q XBD_NEXT_PTR_OFFSET.
Proof.
  intros [->|Ha]; unfold CopyBufferDescriptor; cbv zeta; loads; reflexivity.
Qed.

Lemma copy_other_bd (m : Mem) (src dst q : Z) (f : XBD_Offset) :
  apart q dst -> load (CopyBufferDescriptor m src dst) q f = load m q f.
Proof.
  intros Hq. unfold CopyBufferDescriptor. cbv zeta. loads. reflexivity.
Qed.

(** The control word is copied first, whatever the two descriptors
    share. *)
Lemma copy_control (m : Mem) (src dst : Z) :
  load (CopyBufferDescriptor m src dst) dst XBD_CONTROL_OFFSET
  = load m src XBD_CONTROL_OFFSET.
Proof. unfold CopyBufferDescriptor. cbv zeta. loads. reflexivity. Qed.

Lemma copy_transfers (m : Mem) (src dst : Z) (f : XBD_Offset) :
  separate src dst ->
  f <> XBD_NEXT_PTR_OFFSET ->
  load (CopyBufferDescriptor m src dst) dst f = load m src f.
Proof.
  intros [->|Ha] Hf; unfold CopyBufferDescriptor; cbv zeta;
    destruct f; try congruence; loads; reflexivity.
Qed.

(** *** The writes to the caller's descriptor *)

Lemma prepare_frame (m : Mem) (src a : Z) :
  words_apart a (word_at src XBD_CONTROL_OFFSET) ->
  words_apart a (word_at src XBD_STATUS_OFFSET) ->
  words_apart a (word_at src XBD_DEVICE_STATUS_OFFSET) ->
  prepare_descriptor m src a = m a.
Proof.
  intros H1 H2 H3. unfold prepare_descriptor, XBufDescriptor_SetControl,
    XBufDescriptor_SetStatus, XBufDescriptor_SetDeviceStatus. cbv zeta.
  stores. reflexivity.
Qed.

Lemma prepare_keeps_word (m : Mem) (src q : Z) (f : XBD_Offset) :
  separate q src ->
  f <> XBD_CONTROL_OFFSET -> f <> XBD_STATUS_OFFSET ->
  f <> XBD_DEVICE_STATUS_OFFSET ->
  load (prepare_descriptor m src) q f = load m q f.
Proof.
  intros [->|Ha] H1 H2 H3; unfold prepare_descriptor,
    XBufDescriptor_SetControl, XBufDescriptor_SetStatus,
    XBufDescriptor_SetDeviceStatus; cbv zeta; loads; reflexivity.
Qed.

Lemma prepare_other_bd (m : Mem) (src q : Z) (f : XBD_Offset) :
  apart q src -> load (prepare_descriptor m src) q f = load m q f.
Proof.
  intros Hq. unfold prepare_descriptor, XBufDescriptor_SetControl,
    XBufDescriptor_SetStatus, XBufDescriptor_SetDeviceStatus. cbv zeta.
  loads. reflexivity.
Qed.

Lemma prepare_control (m : Mem) (src : Z) :
  load (prepare_descriptor m src) src XBD_CONTROL_OFFSET
  = Z.lor (load m src XBD_CONTROL_OFFSET) XDC_DMACR_SG_DISABLE_MASK.
Proof.
  unfold prepare_descriptor, XBufDescriptor_SetControl,
    XBufDescriptor_SetStatus, XBufDescriptor_SetDeviceStatus,
    XBufDescriptor_GetControl. cbv zeta.
  loads. reflexivity.
Qed.

Lemma prepare_status (m : Mem) (src : Z) :
  load (prepare_descriptor m src) src XBD_STATUS_OFFSET = XDC_DMASR_BUSY_MASK.
Proof.
  unfold prepare_descriptor, XBufDescriptor_SetControl,
    XBufDescriptor_SetStatus, XBufDescriptor_SetDeviceStatus. cbv zeta.
  loads. reflexivity.
Qed.

Lemma prepare_device_status (m : Mem) (src : Z) :
  load (prepare_descriptor m src) src XBD_DEVICE_STATUS_OFFSET = 0.
Proof.
  unfold prepare_descriptor, XBufDescriptor_SetControl,
    XBufDescriptor_SetStatus, XBufDescriptor_SetDeviceStatus. cbv zeta.
  loads. reflexivity.
Qed.

(** *** Clearing a stop bit *)

Lemma clear_stop_frame (m : Mem) (p a : Z) :
  a <> word_at p XBD_CONTROL_OFFSET -> clear_stop m p a = m a.
Proof.
  intros Ha. unfold clear_stop, XBufDescriptor_SetControl. cbv zeta.
  apply store_other. exact Ha.
Qed.

Lemma clear_stop_keeps_word (m : Mem) (p q : Z) (f : XBD_Offset) :
  separate q p ->
  f <> XBD_CONTROL_OFFSET -> load (clear_stop m p) q f = load m q f.
Proof.
  intros [->|Ha] Hf; unfold clear_stop, XBufDescriptor_SetControl;
    cbv zeta; loads; reflexivity.
Qed.

Lemma clear_stop_other_bd (m : Mem) (p q : Z) (f : XBD_Offset) :
  apart q p -> load (clear_stop m p) q f = load m q f.
Proof.
  intros Hq. unfold clear_stop, XBufDescriptor_SetControl. cbv zeta.
  loads. reflexivity.
Qed.

Lemma clear_stop_clears (m : Mem) (p : Z) : stop_bit (clear_stop m p) p = false.
Proof.
  unfold stop_bit, clear_stop, XBufDescriptor_SetControl,
    XBufDescriptor_GetControl. cbv zeta.
  loads. apply bits_set_cleared.
Qed.

(** *** Put *)

(** The memory a successful put leaves, and the channel. *)
Lemma put_success (c : XDmaChannel) (m : Mem) (src : Z) :
  TotalDescriptorCount c <> 0 ->
  ActiveDescriptorCount c <> TotalDescriptorCount c ->
  XBufDescriptor_IsLocked m (PutPtr c) = false ->
  XDmaChannel_PutDescriptor c m src =
  let m1 := CopyBufferDescriptor (prepare_descriptor m src) src (PutPtr c) in
  let m2 := if put_opens_tail c then clear_stop m1 (LastPtr c) else m1 in
  (XST_SUCCESS,
   mkXDmaChannel (RegBaseAddress c) (IsReady c)
     (next_in_list c m2 (PutPtr c)) (GetPtr c)
     (if CommitPtr c =? 0 then LastPtr c else CommitPtr c)
     (PutPtr c) (VirtPtr c) (PhyPtr c) (TotalDescriptorCount c)
     (wrap32 (ActiveDescriptorCount c + 1))
     (if XBufDescriptor_IsLastControl m1 (PutPtr c)
      then wrap32 (ActivePacketCount c + 1) else ActivePacketCount c)
     (Committed c),
   m2).
Proof.
  intros HN HA HL. unfold XDmaChannel_PutDescriptor.
  destruct (Z.eqb_spec (TotalDescriptorCount c) 0); [contradiction|].
  destruct (Z.eqb_spec (ActiveDescriptorCount c) (TotalDescriptorCount c));
    [contradiction|].
  rewrite HL. cbv zeta.
  destruct (XBufDescriptor_IsLastControl _ _), (put_opens_tail c) eqn:Ho,
    (CommitPtr c =? 0) eqn:Hc;
    unfold put_opens_tail in *; cbn; rewrite ?Ho, ?Hc; reflexivity.
Qed.

(** Which of the four outcomes a put has. *)
Lemma put_status (c : XDmaChannel) (m : Mem) (src : Z) :
  let st := fst (fst (XDmaChannel_PutDescriptor c m src)) in
  (st = XST_DMA_SG_NO_LIST <-> TotalDescriptorCount c = 0) /\
  (st = XST_DMA_SG_LIST_FULL <->
     TotalDescriptorCount c <> 0 /\
     ActiveDescriptorCount c = TotalDescriptorCount c) /\
  (st = XST_DMA_SG_BD_LOCKED <->
     TotalDescriptorCount c <> 0 /\
     ActiveDescriptorCount c <> TotalDescriptorCount c /\
     XBufDescriptor_IsLocked m (PutPtr c) = true) /\
  (st = XST_SUCCESS <->
     TotalDescriptorCount c <> 0 /\
     ActiveDescriptorCount c <> TotalDescriptorCount c /\
     XBufDescriptor_IsLocked m (PutPtr c) = false).
Proof.
  unfold XDmaChannel_PutDescriptor.
  destruct (Z.eqb_spec (TotalDescriptorCount c) 0) as [HN|HN].
  { cbn. repeat split; intros; try tauto; try discriminate. }
  destruct (Z.eqb_spec (ActiveDescriptorCount c) (TotalDescriptorCount c))
    as [HA|HA].
  { cbn. repeat split; intros; try tauto; try discriminate. }
  destruct (XBufDescriptor_IsLocked m (PutPtr c)) eqn:HL.
  { cbn. repeat split; intros; try tauto; try discriminate;
      try (destruct H0 as (_ & _ & ?); discriminate). }
  cbn. repeat split; intros; try tauto; try discriminate;
    try (destruct H0 as (_ & _ & ?); discriminate).
Qed.

Lemma put_inv (c : XDmaChannel) (m : Mem) (src : Z) c' m' :
  XDmaChannel_PutDescriptor c m src = (XST_SUCCESS, c', m') ->
  TotalDescriptorCount c <> 0 /\
  ActiveDescriptorCount c <> TotalDescriptorCount c /\
  XBufDescriptor_IsLocked m (PutPtr c) = false.
Proof.
  intros E. apply (put_status c m src). rewrite E. reflexivity.
Qed.

Lemma put_failure (c : XDmaChannel) (m : Mem) (src : Z) :
  fst (fst (XDmaChannel_PutDescriptor c m src)) <> XST_SUCCESS ->
  XDmaChannel_PutDescriptor c m src
  = (fst (fst (XDmaChannel_PutDescriptor c m src)), c, m).
Proof.
  unfold XDmaChannel_PutDescriptor.
  destruct (TotalDescriptorCount c =? 0); [reflexivity|].
  destruct (ActiveDescriptorCount c =? TotalDescriptorCount c); [reflexivity|].
  destruct (XBufDescriptor_IsLocked m (PutPtr c)); [reflexivity|].
  cbn. congruence.
Qed.

(** A put leaves the next pointer of every descriptor that does not partly
    overlap the caller's descriptor or the two descriptors of the list the
    put can write. *)
Lemma put_keeps_next (c : XDmaChannel) (m : Mem) (src q : Z) :
  separate q src -> separate q (PutPtr c) -> separate q (LastPtr c) ->
  load (snd (XDmaChannel_PutDescriptor c m src)) q XBD_NEXT_PTR_OFFSET
  = load m q XBD_NEXT_PTR_OFFSET.
Proof.
  intros Hs Hp Hl.
  destruct (put_status c m src) as (_ & _ & _ & Hst).
  destruct (XStatus_eq_dec (fst (fst (XDmaChannel_PutDescriptor c m src)))
              XST_SUCCESS) as [E|E].
  - apply Hst in E. destruct E as (HN & HA & HL).
    rewrite put_success by assumption. cbv zeta. cbn [snd].
    destruct (put_opens_tail c).
    + rewrite clear_stop_keeps_word by (assumption || discriminate).
      rewrite copy_keeps_next by assumption.
      apply prepare_keeps_word; (assumption || discriminate).
    + rewrite copy_keeps_next by assumption.
      apply prepare_keeps_word; (assumption || discriminate).
  - rewrite put_failure by assumption. reflexivity.
Qed.

(** C9.  A put that fails changes nothing.  It returns NoList exactly when
    no list exists, ListFull exactly when the list exists and every
    descriptor is active, BdLocked exactly when neither holds and the
    descriptor at PutPtr is locked; with any of the three the channel and
    the whole descriptor memory, the caller's descriptor included, are the
    ones passed in: all three checks come before the first write. *)
Theorem put_descriptor_atomic_on_error (c : XDmaChannel) (m : Mem) (src : Z) :
  let '(st, c', m') := XDmaChannel_PutDescriptor c m src in
  (st = XST_DMA_SG_NO_LIST <-> TotalDescriptorCount c = 0) /\
  (st = XST_DMA_SG_LIST_FULL <->
     TotalDescriptorCount c <> 0 /\
     ActiveDescriptorCount c = TotalDescriptorCount c) /\
  (st = XST_DMA_SG_BD_LOCKED <->
     TotalDescriptorCount c <> 0 /\
     ActiveDescriptorCount c <> TotalDescriptorCount c /\
     XBufDescriptor_IsLocked m (PutPtr c) = true) /\
  (st = XST_DMA_SG_NO_LIST \/ st = XST_DMA_SG_LIST_FULL \/
   st = XST_DMA_SG_BD_LOCKED -> c' = c /\ m' = m).
Proof.
  pose proof (put_status c m src) as (H1 & H2 & H3 & _).
  pose proof (put_failure c m src) as Hf.
  destruct (XDmaChannel_PutDescriptor c m src) as [[st c'] m'].
  cbn in *. repeat split; try tauto.
  - assert (E : (st, c', m') = (st, c, m))
      by (apply Hf; intuition congruence).
    congruence.
  - assert (E : (st, c', m') = (st, c, m))
      by (apply Hf; intuition congruence).
    congruence.
Qed.



(** C4 (amended).  A successful put on a channel whose active count is
    within the total adds one to ActiveDescriptorCount, makes LastPtr the
    old PutPtr and PutPtr the translation of the next pointer the
    descriptor at the old PutPtr holds after the put; that is the
    descriptor that followed the old PutPtr before the put when neither
    the caller's descriptor nor the one at LastPtr partly overlaps the one
    at PutPtr.  When CommitPtr was NULL it becomes the old LastPtr, and
    otherwise it stays.  The old LastPtr is not the descriptor just written
    when it differs from the old PutPtr; when the two are equal, CommitPtr
    ends on the descriptor just written, where LastPtr now is. *)
Theorem put_descriptor_cursors (c : XDmaChannel) (m : Mem) (src : Z)
  (c' : XDmaChannel) (m' : Mem) :
  XDmaChannel_PutDescriptor c m src = (XST_SUCCESS, c', m') ->
  0 <= ActiveDescriptorCount c <= TotalDescriptorCount c ->
  is_u32 (TotalDescriptorCount c) ->
  ActiveDescriptorCount c' = ActiveDescriptorCount c + 1 /\
  LastPtr c' = PutPtr c /\
  PutPtr c' = next_in_list c m' (PutPtr c) /\
  (separate src (PutPtr c) -> separate (LastPtr c) (PutPtr c) ->
   PutPtr c' = next_in_list c m (PutPtr c)) /\
  (CommitPtr c = 0 -> CommitPtr c' = LastPtr c) /\
  (CommitPtr c <> 0 -> CommitPtr c' = CommitPtr c) /\
  (CommitPtr c = 0 -> LastPtr c <> PutPtr c -> CommitPtr c' <> LastPtr c') /\
  (CommitPtr c = 0 -> LastPtr c = PutPtr c -> CommitPtr c' = LastPtr c').
Proof.
  intros E HA HN.
  destruct (put_inv _ _ _ _ _ E) as (H1 & H2 & H3).
  pose proof (put_keeps_next c m src (PutPtr c)) as Hnext.
  rewrite E in Hnext. cbn [snd] in Hnext.
  rewrite put_success in E by assumption. cbv zeta in E.
  injection E as Ec Em. subst c'. cbn.
  split; [|split; [|split; [|split]]].
  - unfold wrap32, is_u32 in *. apply Z.mod_small. lia.
  - reflexivity.
  - rewrite Em. reflexivity.
  - intros Hs Hl. unfold next_in_list, XBufDescriptor_GetNextPtr.
    rewrite Em, Hnext; [reflexivity | | |].
    + apply separate_sym, Hs.
    + apply separate_refl.
    + apply separate_sym, Hl.
  - repeat split.
    + intros ->. reflexivity.
    + intros Hc. destruct (Z.eqb_spec (CommitPtr c) 0); congruence.
    + intros -> Hne. exact Hne.
    + intros -> He. exact He.
Qed.

(** What the writes of a put before the tail test do to stop bits: the
    descriptor written has it set, and no descriptor that is clear of
    partial overlaps has it lowered. *)
Lemma copy_prepare_keeps_stop (m : Mem) (src p q : Z) :
  separate q p -> separate q src ->
  stop_bit m q = true ->
  stop_bit (CopyBufferDescriptor (prepare_descriptor m src) src p) q = true.
Proof.
  intros Hp Hsrc Hs. pose proof (bits_set_nonzero _ _ Hs) as Hk.
  unfold stop_bit in *.
  destruct Hp as [->|Hqp].
  - rewrite copy_control, prepare_control. apply bits_set_lor. exact Hk.
  - rewrite copy_other_bd by assumption.
    destruct Hsrc as [->|Hqs].
    + rewrite prepare_control. apply bits_set_lor. exact Hk.
    + rewrite prepare_other_bd by assumption. exact Hs.
Qed.

Lemma copy_prepare_sets_stop (m : Mem) (src p : Z) :
  XDC_DMACR_SG_DISABLE_MASK <> 0 ->
  stop_bit (CopyBufferDescriptor (prepare_descriptor m src) src p) p = true.
Proof.
  intros Hk. unfold stop_bit.
  rewrite copy_control, prepare_control. apply bits_set_lor. exact Hk.
Qed.

Lemma put_opens_tail_true (c : XDmaChannel) :
  put_opens_tail c = true <-> CommitPtr c <> 0 /\ CommitPtr c <> LastPtr c.
Proof.
  unfold put_opens_tail.
  destruct (Z.eqb_spec (CommitPtr c) (LastPtr c)),
    (Z.eqb_spec (CommitPtr c) 0); cbn; intuition congruence.
Qed.


(** *** Commit *)

(** C2.  A commit returns NothingToCommit exactly when CommitPtr is NULL
    or no descriptor is active, and then changes nothing.  Otherwise it
    succeeds, sets Committed, resets CommitPtr to NULL and changes no other
    channel field; when CommitPtr differs from LastPtr it clears the stop
    bit of the descriptor at CommitPtr and writes no other word (every
    word that shares no byte with that control word is as before), and
    when they are equal it writes nothing to memory. *)
Theorem commit_puts_outcomes (c : XDmaChannel) (m : Mem) :
  let '(st, c', m') := XDmaChannel_CommitPuts c m in
  (st = XST_DMA_SG_NOTHING_TO_COMMIT <->
     CommitPtr c = 0 \/ ActiveDescriptorCount c = 0) /\
  (st = XST_DMA_SG_NOTHING_TO_COMMIT -> c' = c /\ m' = m) /\
  (st <> XST_DMA_SG_NOTHING_TO_COMMIT ->
     st = XST_SUCCESS /\
     Committed c' = true /\ CommitPtr c' = 0 /\
     c' = set_CommitPtr 0 (set_Committed true c) /\
     (CommitPtr c <> LastPtr c ->
        stop_bit m' (CommitPtr c) = false /\
        m' = clear_stop m (CommitPtr c) /\
        forall a,
          words_apart a (word_at (CommitPtr c) XBD_CONTROL_OFFSET) ->
          m' a = m a) /\
     (CommitPtr c = LastPtr c -> m' = m)).
Proof.
  unfold XDmaChannel_CommitPuts, XDmaChannel_IsSgListEmpty.
  destruct (Z.eqb_spec (CommitPtr c) 0) as [Hc|Hc]; cbn [orb].
  { split; [|split]; [tauto | tauto | congruence]. }
  destruct (Z.eqb_spec (ActiveDescriptorCount c) 0) as [Ha|Ha].
  { split; [|split]; [tauto | tauto | congruence]. }
  cbv zeta. split; [|split].
  - split; [discriminate | tauto].
  - discriminate.
  - intros _. do 4 (split; [reflexivity|]). split.
    + intros Hne.
      destruct (Z.eqb_spec (CommitPtr c) (LastPtr c)); [contradiction|].
      cbn [negb]. split; [apply clear_stop_clears|].
      split; [reflexivity|].
      intros a Ha'. apply clear_stop_frame, words_apart_neq, Ha'.
    + intros ->. rewrite Z.eqb_refl. reflexivity.
Qed.

(** The two things a commit can do. *)
Lemma commit_puts_effect (c : XDmaChannel) (m : Mem) :
  let '(st, c', m') := XDmaChannel_CommitPuts c m in
  (c' = c /\ m' = m) \/
  (CommitPtr c <> 0 /\ ActiveDescriptorCount c <> 0 /\
   c' = set_CommitPtr 0 (set_Committed true c) /\
   ((CommitPtr c <> LastPtr c /\ m' = clear_stop m (CommitPtr c)) \/
    (CommitPtr c = LastPtr c /\ m' = m))).
Proof.
  unfold XDmaChannel_CommitPuts, XDmaChannel_IsSgListEmpty.
  destruct (Z.eqb_spec (CommitPtr c) 0) as [Hc|Hc]; cbn [orb];
    [left; tauto|].
  destruct (Z.eqb_spec (ActiveDescriptorCount c) 0) as [Ha|Ha];
    [left; tauto|].
  right. cbv zeta.
  destruct (Z.eqb_spec (CommitPtr c) (LastPtr c)); cbn [negb]; tauto.
Qed.

(** *** Get *)

(** C10.  Get looks at nothing but the two counts.  Whenever a list exists
    and a descriptor is active it succeeds, hands out GetPtr, moves GetPtr
    to the next descriptor and takes one off ActiveDescriptorCount,
    whatever the busy bit and the locked bit of that descriptor are, and
    writes nothing to memory.  The only other outcomes are NoList (no list)
    and ListEmpty (a list, nothing active), which change nothing. *)
Theorem get_descriptor_no_ownership_check (c : XDmaChannel) (m : Mem) :
  0 < TotalDescriptorCount c ->
  0 < ActiveDescriptorCount c ->
  is_u32 (ActiveDescriptorCount c) ->
  XDmaChannel_GetDescriptor c m =
    (XST_SUCCESS, Some (GetPtr c),
     set_ActiveDescriptorCount (ActiveDescriptorCount c - 1)
       (set_GetPtr (next_in_list c m (GetPtr c)) c),
     m) /\
  (forall c0 m0,
     let '(st, out, c', m') := XDmaChannel_GetDescriptor c0 m0 in
     (st = XST_DMA_SG_NO_LIST <-> TotalDescriptorCount c0 = 0) /\
     (st = XST_DMA_SG_LIST_EMPTY <->
        TotalDescriptorCount c0 <> 0 /\ ActiveDescriptorCount c0 = 0) /\
     (st = XST_SUCCESS <->
        TotalDescriptorCount c0 <> 0 /\ ActiveDescriptorCount c0 <> 0) /\
     (st <> XST_SUCCESS -> out = None /\ c' = c0 /\ m' = m0)).
Proof.
  intros HN HA HU. split.
  - unfold XDmaChannel_GetDescriptor, XDmaChannel_IsSgListEmpty.
    destruct (Z.eqb_spec (TotalDescriptorCount c) 0); [lia|].
    destruct (Z.eqb_spec (ActiveDescriptorCount c) 0); [lia|].
    cbv zeta. cbn [ActiveDescriptorCount set_GetPtr].
    replace (wrap32 (ActiveDescriptorCount c - 1))
      with (ActiveDescriptorCount c - 1); [reflexivity|].
    unfold wrap32, is_u32 in *. symmetry. apply Z.mod_small. lia.
  - intros c0 m0.
    unfold XDmaChannel_GetDescriptor, XDmaChannel_IsSgListEmpty.
    destruct (Z.eqb_spec (TotalDescriptorCount c0) 0);
      destruct (Z.eqb_spec (ActiveDescriptorCount c0) 0); cbn;
      repeat split; intros; try tauto; try congruence; try discriminate.
Qed.

(** *** Start and stop *)

Section BusProperties.

Variable hw : Hardware.

Lemma enable_sg_trace (c : XDmaChannel) (t : Trace) :
  let swcr := hw t (reg c XDC_SWCR_REG_OFFSET) in
  let t1 := t ++ [IoIn (reg c XDC_SWCR_REG_OFFSET) swcr;
                  IoOut (reg c XDC_SWCR_REG_OFFSET)
                    (Z.lor swcr XDC_SWCR_SG_ENABLE_MASK)] in
  let dmac := hw t1 (reg c XDC_DMAC_REG_OFFSET) in
  enable_sg hw c t =
  t1 ++ [IoIn (reg c XDC_DMAC_REG_OFFSET) dmac;
         IoOut (reg c XDC_DMAC_REG_OFFSET)
           (Z.land dmac (not32 XDC_DMACR_SG_DISABLE_MASK))].
Proof.
  cbv zeta. unfold enable_sg, XIo_In32, XIo_Out32.
  rewrite <- !app_assoc. reflexivity.
Qed.

(** The translated read of a register: one read when it is zero, two
    otherwise, and the usual translation when both reads agree. *)
Lemma p_to_v_in32 (c : XDmaChannel) (t : Trace) (a : Z) :
  let b1 := hw t a in
  let t1 := t ++ [IoIn a b1] in
  let b2 := hw t1 a in
  (b1 = 0 -> P_TO_V_In32 hw c t a = (0, t1)) /\
  (b1 <> 0 ->
     P_TO_V_In32 hw c t a
     = (wrap32 (VirtPtr c + wrap32 (b2 - PhyPtr c)), t1 ++ [IoIn a b2])) /\
  (b1 <> 0 -> b2 = b1 ->
     wrap32 (VirtPtr c + wrap32 (b2 - PhyPtr c)) = P_TO_V c b1).
Proof.
  cbv zeta. unfold P_TO_V_In32, XIo_In32. cbv zeta.
  split; [|split].
  - intros ->. reflexivity.
  - intros Hb. destruct (Z.eqb_spec (hw t a) 0); [contradiction|].
    reflexivity.
  - intros Hb ->. unfold P_TO_V.
    destruct (Z.eqb_spec (hw t a) 0); [contradiction|]. reflexivity.
Qed.

(** C5.  The checks of start, in order: NoList when no list exists;
    ListEmpty when no descriptor is active; then the status register is
    read and IsStarted returned when scatter gather is busy.  Otherwise the
    BDA register is read and translated to L (read once when it is NULL,
    which makes L NULL, and once more for the translation when it is not).
    With L NULL the physical address of GetPtr is written to BDA and the
    engine enabled.  With L not NULL, the descriptor after L decides:
    NoData when its busy bit is clear, BdNotCommitted when it is busy and
    is CommitPtr, and otherwise the engine is enabled.  Enabling reads the
    software control register, writes it back with the enable bit set,
    then reads the control register and writes it back with scatter gather
    disable cleared; the call then returns Success.  The channel and the
    descriptors are never written. *)
Theorem sg_start_outcomes (c : XDmaChannel) (m : Mem) (t : Trace) :
  let a_bda := reg c XDC_BDA_REG_OFFSET in
  let dmas := hw t (reg c XDC_DMAS_REG_OFFSET) in
  let t1 := t ++ [IoIn (reg c XDC_DMAS_REG_OFFSET) dmas] in
  let L := fst (P_TO_V_In32 hw c t1 a_bda) in
  let t2 := snd (P_TO_V_In32 hw c t1 a_bda) in
  let nxt := next_in_list c m L in
  let r := XDmaChannel_SgStart hw c m t in
  (TotalDescriptorCount c = 0 -> r = (XST_DMA_SG_NO_LIST, c, m, t)) /\
  (TotalDescriptorCount c <> 0 -> ActiveDescriptorCount c = 0 ->
     r = (XST_DMA_SG_LIST_EMPTY, c, m, t)) /\
  (TotalDescriptorCount c <> 0 -> ActiveDescriptorCount c <> 0 ->
     (bits_set dmas XDC_DMASR_SG_BUSY_MASK = true ->
        r = (XST_DMA_SG_IS_STARTED, c, m, t1)) /\
     (bits_set dmas XDC_DMASR_SG_BUSY_MASK = false ->
        (L = 0 ->
           r = (XST_SUCCESS, c, m,
                enable_sg hw c
                  (t2 ++ [IoOut a_bda (V_TO_P c (GetPtr c))]))) /\
        (L <> 0 ->
           (busy_bit m nxt = false -> r = (XST_DMA_SG_NO_DATA, c, m, t2)) /\
           (busy_bit m nxt = true -> nxt = CommitPtr c ->
              r = (XST_DMA_SG_BD_NOT_COMMITTED, c, m, t2)) /\
           (busy_bit m nxt = true -> nxt <> CommitPtr c ->
              r = (XST_SUCCESS, c, m, enable_sg hw c t2))))) /\
  (let b1 := hw t1 a_bda in
   let t1' := t1 ++ [IoIn a_bda b1] in
   let b2 := hw t1' a_bda in
   (b1 = 0 -> L = 0 /\ t2 = t1') /\
   (b1 <> 0 ->
      L = wrap32 (VirtPtr c + wrap32 (b2 - PhyPtr c)) /\
      t2 = t1' ++ [IoIn a_bda b2] /\
      (b2 = b1 -> L = P_TO_V c b1))) /\
  (forall t0,
     let swcr := hw t0 (reg c XDC_SWCR_REG_OFFSET) in
     let t3 := t0 ++ [IoIn (reg c XDC_SWCR_REG_OFFSET) swcr;
                      IoOut (reg c XDC_SWCR_REG_OFFSET)
                        (Z.lor swcr XDC_SWCR_SG_ENABLE_MASK)] in
     let dmac := hw t3 (reg c XDC_DMAC_REG_OFFSET) in
     enable_sg hw c t0 =
     t3 ++ [IoIn (reg c XDC_DMAC_REG_OFFSET) dmac;
            IoOut (reg c XDC_DMAC_REG_OFFSET)
              (Z.land dmac (not32 XDC_DMACR_SG_DISABLE_MASK))]).
Proof.
  cbv zeta. split; [|split; [|split; [|split]]].
  - intros HN. unfold XDmaChannel_SgStart. rewrite HN. reflexivity.
  - intros HN HA. unfold XDmaChannel_SgStart, XDmaChannel_IsSgListEmpty.
    destruct (Z.eqb_spec (TotalDescriptorCount c) 0); [contradiction|].
    rewrite HA. reflexivity.
  - intros HN HA. unfold XDmaChannel_SgStart, XDmaChannel_IsSgListEmpty.
    destruct (Z.eqb_spec (TotalDescriptorCount c) 0); [contradiction|].
    destruct (Z.eqb_spec (ActiveDescriptorCount c) 0); [contradiction|].
    unfold XIo_In32. cbv zeta. split.
    + intros ->. reflexivity.
    + intros ->.
      destruct (P_TO_V_In32 hw c _ _) as [L t2]. cbn [fst snd].
      unfold XIo_Out32. split.
      * intros ->. reflexivity.
      * intros HL. destruct (Z.eqb_spec L 0); [contradiction|].
        unfold busy_bit, bits_set, next_in_list, XBufDescriptor_GetStatus.
        split; [|split].
        -- intros Hb. apply negb_false_iff in Hb. rewrite Hb. reflexivity.
        -- intros Hb Hc. apply negb_true_iff in Hb. rewrite Hb.
           rewrite Hc, Z.eqb_refl. reflexivity.
        -- intros Hb Hc. apply negb_true_iff in Hb. rewrite Hb.
           match goal with |- context [?a =? CommitPtr c] =>
             destruct (Z.eqb_spec a (CommitPtr c)); [contradiction|] end.
           reflexivity.
  - pose proof (p_to_v_in32 c
                  (t ++ [IoIn (reg c XDC_DMAS_REG_OFFSET)
                           (hw t (reg c XDC_DMAS_REG_OFFSET))])
                  (reg c XDC_BDA_REG_OFFSET)) as (P1 & P2 & P3).
    split.
    + intros Hb. rewrite (P1 Hb). split; reflexivity.
    + intros Hb. rewrite (P2 Hb). cbn [fst snd].
      split; [reflexivity|]. split; [reflexivity|].
      apply P3. exact Hb.
  - intros t0. apply enable_sg_trace.
Qed.

Lemma poll_trace_S (a : Z) (n : nat) (t : Trace) :
  poll_trace hw a (S n) t
  = poll_trace hw a n t ++ [IoIn a (hw (poll_trace hw a n t) a)].
Proof.
  revert t. induction n as [|n IH]; intros t.
  - reflexivity.
  - change (poll_trace hw a (S (S n)) t)
      with (poll_trace hw a (S n) (snd (XIo_In32 hw t a))).
    rewrite IH. reflexivity.
Qed.

(** The wait returns at the first read that shows the engine idle. *)
Lemma wait_sg_idle_first (c : XDmaChannel) (k : nat) :
  forall (t : Trace) (fuel : nat),
  (forall j, (j < k)%nat ->
     bits_set (hw (poll_trace hw (reg c XDC_DMAS_REG_OFFSET) j t)
                 (reg c XDC_DMAS_REG_OFFSET))
       XDC_DMASR_SG_BUSY_MASK = true) ->
  bits_set (hw (poll_trace hw (reg c XDC_DMAS_REG_OFFSET) k t)
              (reg c XDC_DMAS_REG_OFFSET))
    XDC_DMASR_SG_BUSY_MASK = false ->
  (k < fuel)%nat ->
  wait_sg_idle hw fuel c t
  = Some (poll_trace hw (reg c XDC_DMAS_REG_OFFSET) (S k) t).
Proof.
  induction k as [|k IH]; intros t fuel Hbusy Hidle Hf.
  - destruct fuel as [|fuel]; [lia|].
    cbn in Hidle. cbn. rewrite Hidle. reflexivity.
  - destruct fuel as [|fuel]; [lia|].
    cbn [wait_sg_idle]. unfold XIo_In32 at 1. cbv zeta.
    pose proof (Hbusy 0%nat ltac:(lia)) as H0. cbn [poll_trace] in H0.
    rewrite H0. rewrite (IH _ fuel).
    + reflexivity.
    + intros j Hj. apply (Hbusy (S j)). lia.
    + exact Hidle.
    + lia.
Qed.

(** The wait gives up only when every read showed the engine busy. *)
Lemma wait_sg_idle_busy (c : XDmaChannel) (fuel : nat) :
  forall (t : Trace),
  (forall j, (j < fuel)%nat ->
     bits_set (hw (poll_trace hw (reg c XDC_DMAS_REG_OFFSET) j t)
                 (reg c XDC_DMAS_REG_OFFSET))
       XDC_DMASR_SG_BUSY_MASK = true) ->
  wait_sg_idle hw fuel c t = None.
Proof.
  induction fuel as [|fuel IH]; intros t Hbusy.
  - reflexivity.
  - cbn [wait_sg_idle]. unfold XIo_In32 at 1. cbv zeta.
    pose proof (Hbusy 0%nat ltac:(lia)) as H0. cbn [poll_trace] in H0.
    rewrite H0. apply IH. intros j Hj. apply (Hbusy (S j)). lia.
Qed.

Lemma clear_enable_bits (w n : Z) :
  0 <= n ->
  Z.testbit (Z.land w (not32 XDC_SWCR_SG_ENABLE_MASK)) n
  = Z.testbit w n && (n <? 31).
Proof.
  intros Hn. rewrite Z.land_spec, not32_spec by assumption.
  change XDC_SWCR_SG_ENABLE_MASK with (2 ^ 31).
  rewrite Z.pow2_bits_eqb by lia.
  destruct (Z.ltb_spec n 32), (Z.eqb_spec 31 n), (Z.ltb_spec n 31);
    try lia; cbn; rewrite ?andb_true_r, ?andb_false_r; reflexivity.
Qed.

Lemma enable_bit_test (w : Z) :
  Z.land w XDC_SWCR_SG_ENABLE_MASK = 0 <-> Z.testbit w 31 = false.
Proof.
  change XDC_SWCR_SG_ENABLE_MASK with (2 ^ 31). split.
  - intros E.
    assert (Hb : Z.testbit (Z.land w (2 ^ 31)) 31 = false)
      by (rewrite E; apply Z.bits_0).
    rewrite Z.land_spec, Z.pow2_bits_true, andb_true_r in Hb by lia.
    exact Hb.
  - intros Hb. apply Z.bits_inj'. intros n Hn.
    rewrite Z.land_spec, Z.bits_0, Z.pow2_bits_eqb by lia.
    destruct (Z.eqb_spec 31 n) as [<-|]; [rewrite Hb|];
      rewrite ?andb_false_r; reflexivity.
Qed.

(** C8.  Stop reads the software control register.  With its enable bit
    (bit 31) clear it returns IsStopped: the trace holds that one read and
    no write, and nothing is stored through the out-parameter.  With the
    bit set it writes the register back with bit 31 cleared and every other
    bit as read, then reads the status register until scatter gather is no
    longer busy: when read number k is the first to show it idle, the call
    returns Success after exactly k+1 reads, having then read BDA and
    stored its virtual translation through the out-parameter (BDA is read
    once when it is NULL and once more for the translation when it is
    not); while every read shows it busy the call does not return.  In
    every case the channel and the descriptors are the ones passed in. *)
Theorem sg_stop_outcomes (c : XDmaChannel) (m : Mem) (t : Trace) :
  let a_swcr := reg c XDC_SWCR_REG_OFFSET in
  let a_dmas := reg c XDC_DMAS_REG_OFFSET in
  let a_bda := reg c XDC_BDA_REG_OFFSET in
  let swcr := hw t a_swcr in
  let t1 := t ++ [IoIn a_swcr swcr] in
  let written := Z.land swcr (not32 XDC_SWCR_SG_ENABLE_MASK) in
  let t2 := t1 ++ [IoOut a_swcr written] in
  let busy_at j :=
    bits_set (hw (poll_trace hw a_dmas j t2) a_dmas) XDC_DMASR_SG_BUSY_MASK in
  (Z.testbit swcr 31 = false ->
     forall fuel,
       XDmaChannel_SgStop hw fuel c m t
       = Some (XST_DMA_SG_IS_STOPPED, None, c, m, t1)) /\
  (Z.testbit swcr 31 = true ->
     (forall n, 0 <= n ->
        Z.testbit written n = Z.testbit swcr n && (n <? 31)) /\
     (forall k fuel,
        (forall j, (j < k)%nat -> busy_at j = true) ->
        busy_at k = false -> (k < fuel)%nat ->
        let t3 := poll_trace hw a_dmas (S k) t2 in
        let b1 := hw t3 a_bda in
        let t4 := t3 ++ [IoIn a_bda b1] in
        let b2 := hw t4 a_bda in
        (b1 = 0 ->
           XDmaChannel_SgStop hw fuel c m t
           = Some (XST_SUCCESS, Some 0, c, m, t4)) /\
        (b1 <> 0 ->
           XDmaChannel_SgStop hw fuel c m t
           = Some (XST_SUCCESS,
                   Some (wrap32 (VirtPtr c + wrap32 (b2 - PhyPtr c))), c, m,
                   t4 ++ [IoIn a_bda b2])) /\
        (b1 <> 0 -> b2 = b1 ->
           wrap32 (VirtPtr c + wrap32 (b2 - PhyPtr c)) = P_TO_V c b1)) /\
     (forall fuel,
        (forall j, (j < fuel)%nat -> busy_at j = true) ->
        XDmaChannel_SgStop hw fuel c m t = None) /\
     (forall fuel st out c' m' t',
        XDmaChannel_SgStop hw fuel c m t = Some (st, out, c', m', t') ->
        st = XST_SUCCESS /\ c' = c /\ m' = m)).
Proof.
  cbv zeta. split.
  - intros Hb fuel. unfold XDmaChannel_SgStop, XIo_In32. cbv zeta.
    apply enable_bit_test in Hb. rewrite Hb. reflexivity.
  - intros Hb.
    assert (Hne : (Z.land (hw t (reg c XDC_SWCR_REG_OFFSET))
                     XDC_SWCR_SG_ENABLE_MASK =? 0) = false).
    { apply Z.eqb_neq. intros E. apply enable_bit_test in E. congruence. }
    split; [|split; [|split]].
    + intros n Hn. apply clear_enable_bits. exact Hn.
    + intros k fuel Hbusy Hidle Hk.
      assert (Estop :
        XDmaChannel_SgStop hw fuel c m t =
        let (bd, t') :=
          P_TO_V_In32 hw c
            (poll_trace hw (reg c XDC_DMAS_REG_OFFSET) (S k)
               ((t ++ [IoIn (reg c XDC_SWCR_REG_OFFSET)
                         (hw t (reg c XDC_SWCR_REG_OFFSET))])
                ++ [IoOut (reg c XDC_SWCR_REG_OFFSET)
                      (Z.land (hw t (reg c XDC_SWCR_REG_OFFSET))
                         (not32 XDC_SWCR_SG_ENABLE_MASK))]))
            (reg c XDC_BDA_REG_OFFSET) in
        Some (XST_SUCCESS, Some bd, c, m, t')).
      { unfold XDmaChannel_SgStop, XIo_In32 at 1. cbv zeta.
        rewrite Hne. unfold XIo_Out32.
        rewrite (wait_sg_idle_first c k) by assumption. reflexivity. }
      rewrite Estop.
      match goal with |- context [P_TO_V_In32 hw c ?t3 ?a] =>
        pose proof (p_to_v_in32 c t3 a) as (P1 & P2 & P3) end.
      split; [|split].
      * intros Hz. rewrite (P1 Hz). reflexivity.
      * intros Hz. rewrite (P2 Hz). reflexivity.
      * exact P3.
    + intros fuel Hbusy.
      unfold XDmaChannel_SgStop, XIo_In32 at 1. cbv zeta.
      rewrite Hne. unfold XIo_Out32.
      rewrite wait_sg_idle_busy by assumption. reflexivity.
    + intros fuel st out c' m' t'.
      unfold XDmaChannel_SgStop, XIo_In32 at 1. cbv zeta.
      rewrite Hne. destruct (wait_sg_idle hw fuel c _); [|discriminate].
      destruct (P_TO_V_In32 hw c _ _). intros E.
      injection E as <- _ <- <- _. auto.
Qed.

End BusProperties.


(** *** Creating the list *)

Lemma initialize_same (m : Mem) (p : Z) (f : XBD_Offset) :
  load (XBufDescriptor_Initialize m p) p f = XBD_INITIAL_WORD f.
Proof.
  unfold XBufDescriptor_Initialize. cbv zeta.
  destruct f; loads; reflexivity.
Qed.

Lemma initialize_other_bd (m : Mem) (p q : Z) (f : XBD_Offset) :
  apart q p -> load (XBufDescriptor_Initialize m p) q f = load m q f.
Proof.
  intros Hq. unfold XBufDescriptor_Initialize. cbv zeta.
  loads. reflexivity.
Qed.

Lemma initialize_frame (m : Mem) (p a : Z) :
  (forall f, a <> word_at p f) -> XBufDescriptor_Initialize m p a = m a.
Proof.
  intros Ha. unfold XBufDescriptor_Initialize. cbv zeta.
  repeat (rewrite store_other by apply Ha). reflexivity.
Qed.

Section Region.

Variables MemoryPtr ByteCount PhysPtr : Z.
Hypothesis Hregion : region_ok MemoryPtr ByteCount PhysPtr.

Local Abbreviation N := (ByteCount / sizeof_XBufDescriptor).

Lemma region_count :
  1 <= N /\ N * sizeof_XBufDescriptor <= ByteCount
  /\ ByteCount < N * sizeof_XBufDescriptor + sizeof_XBufDescriptor.
Proof.
  destruct Hregion as (HS & HB & _).
  assert (Hnz : sizeof_XBufDescriptor <> 0) by lia.
  pose proof (Z.div_mod ByteCount sizeof_XBufDescriptor Hnz) as Hd.
  pose proof (Z.mod_pos_bound ByteCount sizeof_XBufDescriptor HS) as Hm.
  assert (1 <= ByteCount / sizeof_XBufDescriptor).
  { apply Z.div_le_lower_bound; lia. }
  nia.
Qed.

Lemma slot_bounds (k : Z) :
  0 <= k < N ->
  0 < slot MemoryPtr k /\
  slot MemoryPtr k + sizeof_XBufDescriptor <= MemoryPtr + ByteCount /\
  0 <= k * sizeof_XBufDescriptor
  /\ k * sizeof_XBufDescriptor + sizeof_XBufDescriptor <= ByteCount.
Proof.
  intros Hk. pose proof region_count as (H1 & H2 & H3).
  destruct Hregion as (HS & HB & HO & HM & HMB & HP & HPB).
  unfold slot. nia.
Qed.

Lemma slot_inj (j k : Z) : slot MemoryPtr j = slot MemoryPtr k -> j = k.
Proof.
  destruct Hregion as (HS & _). unfold slot. intros E. nia.
Qed.

Lemma v_to_p_slot (c : XDmaChannel) (k : Z) :
  VirtPtr c = MemoryPtr -> PhyPtr c = PhysPtr -> 0 <= k < N ->
  V_TO_P c (slot MemoryPtr k) = PhysPtr + k * sizeof_XBufDescriptor.
Proof.
  intros HV HP Hk. pose proof (slot_bounds k Hk) as (H1 & H2 & H3 & H4).
  destruct Hregion as (HS & HB & HO & HM & HMB & HPP & HPB).
  unfold V_TO_P. destruct (Z.eqb_spec (slot MemoryPtr k) 0); [lia|].
  rewrite HV, HP. unfold slot, wrap32.
  replace (MemoryPtr + k * sizeof_XBufDescriptor - MemoryPtr)
    with (k * sizeof_XBufDescriptor) by lia.
  rewrite (Z.mod_small (k * sizeof_XBufDescriptor)) by lia.
  apply Z.mod_small. lia.
Qed.

Lemma p_to_v_slot (c : XDmaChannel) (k : Z) :
  VirtPtr c = MemoryPtr -> PhyPtr c = PhysPtr -> 0 <= k < N ->
  P_TO_V c (PhysPtr + k * sizeof_XBufDescriptor) = slot MemoryPtr k.
Proof.
  intros HV HP Hk. pose proof (slot_bounds k Hk) as (H1 & H2 & H3 & H4).
  destruct Hregion as (HS & HB & HO & HM & HMB & HPP & HPB).
  unfold P_TO_V.
  destruct (Z.eqb_spec (PhysPtr + k * sizeof_XBufDescriptor) 0); [lia|].
  rewrite HV, HP. unfold slot, wrap32.
  replace (PhysPtr + k * sizeof_XBufDescriptor - PhysPtr)
    with (k * sizeof_XBufDescriptor) by lia.
  rewrite (Z.mod_small (k * sizeof_XBufDescriptor)) by lia.
  apply Z.mod_small. unfold slot in *. lia.
Qed.

(** A word of one slot is no word of another. *)
Lemma slot_words_differ (j k : Z) (f g : XBD_Offset) :
  j <> k -> word_at (slot MemoryPtr j) f <> word_at (slot MemoryPtr k) g.
Proof.
  intros Hne. apply words_apart_neq, word_at_apart, slots_apart.
  - destruct Hregion as (HS & _). exact HS.
  - exact Hne.
Qed.

(** The loop, from the state before iteration [i] with [n] iterations to
    go: the words it writes are the words of the descriptors still to
    carve and the next pointer of the one carved last. *)
Lemma create_loop_runs (n : nat) :
  forall (i : Z) (fuel : nat) (c : XDmaChannel) (m : Mem)
         (BufferDescriptorPtr PreviousDescriptorPtr UsedByteCount : Z),
  0 <= i -> i + Z.of_nat n = N -> (n <= fuel)%nat ->
  VirtPtr c = MemoryPtr -> PhyPtr c = PhysPtr ->
  TotalDescriptorCount c = i ->
  UsedByteCount = i * sizeof_XBufDescriptor ->
  (i = 0 -> PreviousDescriptorPtr = 0) ->
  (0 < i -> PreviousDescriptorPtr = slot MemoryPtr (i - 1) /\
            BufferDescriptorPtr = slot MemoryPtr (i - 1)) ->
  exists m',
    create_loop fuel c m MemoryPtr ByteCount
      BufferDescriptorPtr PreviousDescriptorPtr UsedByteCount
    = Some (set_TotalDescriptorCount N c, m', slot MemoryPtr (N - 1)) /\
    (forall a,
       (forall k f, i <= k < N -> a <> word_at (slot MemoryPtr k) f) ->
       (0 < i -> N <> i ->
        a <> word_at (slot MemoryPtr (i - 1)) XBD_NEXT_PTR_OFFSET) ->
       m' a = m a) /\
    (forall k f, i <= k < N -> f <> XBD_NEXT_PTR_OFFSET ->
       load m' (slot MemoryPtr k) f = XBD_INITIAL_WORD f) /\
    (forall k, 0 <= k -> i - 1 <= k < N - 1 ->
       load m' (slot MemoryPtr k) XBD_NEXT_PTR_OFFSET
       = PhysPtr + (k + 1) * sizeof_XBufDescriptor).
Proof.
  pose proof region_count as (HN1 & HN2 & HN3).
  pose proof Hregion as (HS & HB & HO & HM & HMB & HPP & HPB).
  induction n as [|n IH];
    intros i fuel c m BD Prev Used Hi Hin Hfuel HV HP HT HU Hfirst Hlater.
  - assert (i = N) by lia. subst i.
    exists m. split; [|split; [|split]].
    + destruct fuel; cbn [create_loop];
        (destruct (Z.leb_spec (wrap32 (Used + sizeof_XBufDescriptor))
                     ByteCount) as [Hle|Hgt];
         [ exfalso; unfold wrap32 in Hle;
           rewrite Z.mod_small in Hle by lia; lia
         | destruct (Hlater ltac:(lia)) as (_ & ->);
           destruct c; cbn in *; subst; reflexivity ]).
    + reflexivity.
    + intros k f Hk. lia.
    + intros k Hk Hk'. lia.
  - assert (Hi' : 0 <= i < N) by lia.
    pose proof (slot_bounds i Hi') as (Hs1 & Hs2 & Hs3 & Hs4).
    destruct fuel as [|fuel]; [lia|].
    cbn [create_loop].
    assert (Hused : wrap32 (Used + sizeof_XBufDescriptor)
                    = (i + 1) * sizeof_XBufDescriptor).
    { unfold wrap32. rewrite Z.mod_small by lia. lia. }
    rewrite Hused.
    destruct (Z.leb_spec ((i + 1) * sizeof_XBufDescriptor) ByteCount);
      [|lia].
    assert (Hbd : wrap32 (MemoryPtr + Used) = slot MemoryPtr i).
    { unfold wrap32, slot. rewrite Z.mod_small by (unfold slot in *; lia).
      lia. }
    rewrite Hbd.
    assert (Htot : wrap32 (TotalDescriptorCount c + 1) = i + 1).
    { unfold wrap32. rewrite Z.mod_small; nia. }
    rewrite Htot.
    set (m1 := if negb (Prev =? 0)
               then XBufDescriptor_SetNextPtr
                      (XBufDescriptor_Initialize m (slot MemoryPtr i)) Prev
                      (V_TO_P c (slot MemoryPtr i))
               else XBufDescriptor_Initialize m (slot MemoryPtr i)).
    edestruct (IH (i + 1) fuel
                 (set_TotalDescriptorCount (i + 1) c) m1)
      as (m' & E & F1 & F3 & F4);
      [lia | lia | lia | exact HV | exact HP | reflexivity | reflexivity
      | lia
      | intros _; replace (i + 1 - 1) with i by lia; split; reflexivity
      | ].
    exists m'. split; [exact E|].
    replace (i + 1 - 1) with i in * by lia.
    (* the step writes the words of slot i and the next pointer of the
       slot before it *)
    assert (Hstep : forall a,
              (forall f, a <> word_at (slot MemoryPtr i) f) ->
              (0 < i ->
               a <> word_at (slot MemoryPtr (i - 1)) XBD_NEXT_PTR_OFFSET) ->
              m1 a = m a).
    { intros a Ha Hprev. unfold m1.
      destruct (Z.eqb_spec Prev 0) as [HP0|HP0]; cbn [negb].
      - apply initialize_frame. exact Ha.
      - assert (0 < i) by (destruct (Z.eq_dec i 0); [tauto | lia]).
        destruct (Hlater ltac:(lia)) as (-> & _).
        unfold XBufDescriptor_SetNextPtr.
        rewrite store_other by (apply Hprev; lia).
        apply initialize_frame. exact Ha. }
    (* what the later iterations leave of the words of slot i and of the
       next pointer of the slot before it *)
    assert (Hlate_i : forall f,
              f <> XBD_NEXT_PTR_OFFSET ->
              m' (word_at (slot MemoryPtr i) f)
              = m1 (word_at (slot MemoryPtr i) f)).
    { intros f Hf. apply F1.
      - intros k g Hk. apply slot_words_differ. lia.
      - intros _ _. apply words_apart_neq, word_at_other. exact Hf. }
    assert (Hlate_prev :
              0 < i ->
              m' (word_at (slot MemoryPtr (i - 1)) XBD_NEXT_PTR_OFFSET)
              = m1 (word_at (slot MemoryPtr (i - 1)) XBD_NEXT_PTR_OFFSET)).
    { intros Hpos. apply F1.
      - intros k g Hk. apply slot_words_differ. lia.
      - intros _ _. apply slot_words_differ. lia. }
    split; [|split].
    + intros a Ha Hprev.
      destruct (Z.eq_dec (i + 1) N) as [Elast|Hmore].
      * (* slot i is the last one *)
        rewrite F1.
        -- apply Hstep; [intros f; apply Ha; lia|].
           intros Hpos. apply Hprev; lia.
        -- intros k f Hk. lia.
        -- intros _ Hne. congruence.
      * rewrite F1.
        -- apply Hstep; [intros f; apply Ha; lia|].
           intros Hpos. apply Hprev; lia.
        -- intros k f Hk. apply Ha. lia.
        -- intros _ _. apply Ha. lia.
    + intros k f Hk Hf.
      destruct (Z.eq_dec k i) as [->|Hki].
      * unfold load. rewrite Hlate_i by exact Hf.
        change (m1 (word_at (slot MemoryPtr i) f))
          with (load m1 (slot MemoryPtr i) f).
        unfold m1.
        destruct (Z.eqb_spec Prev 0) as [HP0|HP0]; cbn [negb].
        -- apply initialize_same.
        -- assert (0 < i) by (destruct (Z.eq_dec i 0); [tauto | lia]).
           destruct (Hlater ltac:(lia)) as (-> & _).
           unfold XBufDescriptor_SetNextPtr.
           rewrite load_store_apart by (apply slots_apart; lia).
           apply initialize_same.
      * apply F3; [lia | exact Hf].
    + intros k Hk0 Hk.
      destruct (Z.eq_dec k (i - 1)) as [->|Hki].
      * assert (Hpos : 0 < i) by lia.
        unfold load. rewrite Hlate_prev by exact Hpos.
        change (m1 (word_at (slot MemoryPtr (i - 1)) XBD_NEXT_PTR_OFFSET))
          with (load m1 (slot MemoryPtr (i - 1)) XBD_NEXT_PTR_OFFSET).
        unfold m1.
        destruct (Hlater Hpos) as (-> & _).
        destruct (Z.eqb_spec (slot MemoryPtr (i - 1)) 0) as [E0|_].
        { pose proof (slot_bounds (i - 1) ltac:(lia)). lia. }
        cbn [negb]. unfold XBufDescriptor_SetNextPtr.
        rewrite load_store_same.
        rewrite (v_to_p_slot c i HV HP Hi'). f_equal. lia.
      * apply F4; lia.
Qed.

End Region.

Lemma create_loop_more_fuel (fuel : nat) :
  forall c m M B BD Prev Used r,
  create_loop fuel c m M B BD Prev Used = Some r ->
  create_loop (S fuel) c m M B BD Prev Used = Some r.
Proof.
  induction fuel as [|fuel IH]; intros c m M B BD Prev Used r E.
  - cbn [create_loop] in *.
    destruct (wrap32 (Used + sizeof_XBufDescriptor) <=? B);
      [discriminate | exact E].
  - change (create_loop (S fuel) c m M B BD Prev Used) with
      (if wrap32 (Used + sizeof_XBufDescriptor) <=? B
       then create_loop fuel
              (set_TotalDescriptorCount
                 (wrap32 (TotalDescriptorCount c + 1)) c)
              (if negb (Prev =? 0)
               then XBufDescriptor_SetNextPtr
                      (XBufDescriptor_Initialize m (wrap32 (M + Used))) Prev
                      (V_TO_P c (wrap32 (M + Used)))
               else XBufDescriptor_Initialize m (wrap32 (M + Used)))
              M B (wrap32 (M + Used)) (wrap32 (M + Used))
              (wrap32 (Used + sizeof_XBufDescriptor))
       else Some (c, m, BD)) in E.
    change (create_loop (S (S fuel)) c m M B BD Prev Used) with
      (if wrap32 (Used + sizeof_XBufDescriptor) <=? B
       then create_loop (S fuel)
              (set_TotalDescriptorCount
                 (wrap32 (TotalDescriptorCount c + 1)) c)
              (if negb (Prev =? 0)
               then XBufDescriptor_SetNextPtr
                      (XBufDescriptor_Initialize m (wrap32 (M + Used))) Prev
                      (V_TO_P c (wrap32 (M + Used)))
               else XBufDescriptor_Initialize m (wrap32 (M + Used)))
              M B (wrap32 (M + Used)) (wrap32 (M + Used))
              (wrap32 (Used + sizeof_XBufDescriptor))
       else Some (c, m, BD)).
    destruct (wrap32 (Used + sizeof_XBufDescriptor) <=? B);
      [|exact E].
    apply IH. exact E.
Qed.

Lemma create_more_fuel (fuel extra : nat) c0 m0 M B P r :
  XDmaChannel_CreateSgList fuel c0 m0 M B P = Some r ->
  XDmaChannel_CreateSgList (extra + fuel) c0 m0 M B P = Some r.
Proof.
  intros E. induction extra as [|extra IH]; [exact E|].
  cbn [Nat.add]. revert IH. unfold XDmaChannel_CreateSgList.
  destruct (negb (TotalDescriptorCount c0 =? 0)); [auto|].
  destruct (create_loop (extra + fuel) _ _ _ _ _ _ _) as [r'|] eqn:El;
    [|discriminate].
  rewrite (create_loop_more_fuel _ _ _ _ _ _ _ _ _ El). auto.
Qed.

(** What a creation on a proper region gives, with enough fuel for its
    loop. *)
Lemma create_on_region (c0 : XDmaChannel) (m0 : Mem) (M B P : Z) (fuel : nat) :
  region_ok M B P ->
  TotalDescriptorCount c0 = 0 ->
  (Z.to_nat (B / sizeof_XBufDescriptor) <= fuel)%nat ->
  let N := B / sizeof_XBufDescriptor in
  let c := created_channel c0 M B P in
  exists m,
    XDmaChannel_CreateSgList fuel c0 m0 M B P = Some (XST_SUCCESS, c, m) /\
    (forall k, 0 <= k < N - 1 ->
       load m (slot M k) XBD_NEXT_PTR_OFFSET = V_TO_P c (slot M (k + 1))) /\
    load m (slot M (N - 1)) XBD_NEXT_PTR_OFFSET = V_TO_P c M /\
    (forall k, 0 <= k < N ->
       next_in_list c m (slot M k) = slot M ((k + 1) mod N)) /\
    (forall k f, 0 <= k < N -> f <> XBD_NEXT_PTR_OFFSET ->
       load m (slot M k) f = XBD_INITIAL_WORD f) /\
    (forall a, (forall k f, 0 <= k < N -> a <> word_at (slot M k) f) ->
       m a = m0 a).
Proof.
  intros Hreg HT Hfuel N c.
  pose proof (region_count M B P Hreg) as (HN1 & HN2 & HN3).
  pose proof Hreg as (HS & HB & HO & HM & HMB & HPP & HPB).
  fold N in HN1, HN2, HN3.
  destruct (create_loop_runs M B P Hreg (Z.to_nat N) 0 fuel
              (set_PhyPtr P (set_VirtPtr M c0)) m0 M 0 0)
    as (m1 & E & F1 & F3 & F4);
    try reflexivity; try lia; try exact HT.
  fold N in E, F1, F3, F4.
  assert (Hv : forall k, 0 <= k < N ->
            V_TO_P c (slot M k) = P + k * sizeof_XBufDescriptor).
  { intros k Hk. apply (v_to_p_slot M B P Hreg); [reflexivity.. | exact Hk]. }
  assert (Hv0 : V_TO_P c M = P).
  { assert (Hs0 : slot M 0 = M) by (unfold slot; lia).
    assert (H0 : 0 <= 0 < N) by lia.
    pose proof (Hv 0 H0) as Hv0. rewrite Hs0 in Hv0. lia. }
  assert (Hnext : forall k, 0 <= k < N ->
            load (XBufDescriptor_SetNextPtr m1 (slot M (N - 1)) (V_TO_P c M))
              (slot M k) XBD_NEXT_PTR_OFFSET
            = P + ((k + 1) mod N) * sizeof_XBufDescriptor).
  { intros k Hk. unfold XBufDescriptor_SetNextPtr.
    destruct (Z.eq_dec k (N - 1)) as [->|Hne].
    - rewrite load_store_same, Hv0.
      replace (N - 1 + 1) with N by lia. rewrite Z.mod_same by lia. lia.
    - rewrite load_store_apart by (apply slots_apart; lia).
      rewrite F4 by lia. rewrite Z.mod_small by lia. reflexivity. }
  exists (XBufDescriptor_SetNextPtr m1 (slot M (N - 1)) (V_TO_P c M)).
  split; [|split; [|split; [|split; [|split]]]].
  - unfold XDmaChannel_CreateSgList. rewrite HT. cbn [Z.eqb negb].
    rewrite E. reflexivity.
  - intros k Hk. rewrite Hnext by lia. rewrite Hv by lia.
    rewrite Z.mod_small by lia. reflexivity.
  - rewrite Hnext by lia. rewrite Hv0.
    replace (N - 1 + 1) with N by lia. rewrite Z.mod_same by lia. lia.
  - intros k Hk. unfold next_in_list, XBufDescriptor_GetNextPtr.
    rewrite Hnext by assumption.
    apply (p_to_v_slot M B P Hreg); [reflexivity.. |].
    apply Z.mod_pos_bound. lia.
  - intros k f Hk Hf. unfold XBufDescriptor_SetNextPtr.
    destruct (Z.eq_dec k (N - 1)) as [->|Hne].
    + rewrite load_store_other_word by assumption.
      apply F3; [lia | exact Hf].
    + rewrite load_store_apart by (apply slots_apart; lia).
      apply F3; [lia | exact Hf].
  - intros a Ha. unfold XBufDescriptor_SetNextPtr.
    rewrite store_other by (apply Ha; lia).
    apply F1.
    + intros k f Hk. apply Ha. lia.
    + intros Hpos. lia.
Qed.

(** A creation that succeeds, with whatever fuel, gives that result. *)
Lemma create_success_inv (c0 : XDmaChannel) (m0 : Mem) (M B P : Z)
  (fuel : nat) (c : XDmaChannel) (m : Mem) :
  region_ok M B P ->
  XDmaChannel_CreateSgList fuel c0 m0 M B P = Some (XST_SUCCESS, c, m) ->
  TotalDescriptorCount c0 = 0 /\
  XDmaChannel_CreateSgList
    (Z.to_nat (B / sizeof_XBufDescriptor) + fuel) c0 m0 M B P
  = Some (XST_SUCCESS, c, m).
Proof.
  intros Hreg E. split.
  - unfold XDmaChannel_CreateSgList in E.
    destruct (Z.eqb_spec (TotalDescriptorCount c0) 0); [assumption|].
    cbn in E. discriminate.
  - apply create_more_fuel. exact E.
Qed.

(** C6 (amended).  On a proper region and a channel without a list,
    creation succeeds once its loop has fuel for floor(ByteCount /
    sizeof(BD)) iterations.  TotalDescriptorCount is that quotient; the
    next pointer of each descriptor holds the physical address of the one
    carved after it and that of the last one carved holds the physical
    address of the first, so that following next pointers goes round the
    list; PutPtr, GetPtr and LastPtr are all the last descriptor carved;
    CommitPtr is NULL, both active counts are 0 and Committed is false.  On
    a channel that has a list, creation returns ListExists and changes
    nothing. *)
Theorem create_sg_list_result (c0 : XDmaChannel) (m0 : Mem)
  (MemoryPtr ByteCount PhysPtr : Z) (fuel : nat) :
  region_ok MemoryPtr ByteCount PhysPtr ->
  (Z.to_nat (ByteCount / sizeof_XBufDescriptor) <= fuel)%nat ->
  let N := ByteCount / sizeof_XBufDescriptor in
  let last := slot MemoryPtr (N - 1) in
  let r := XDmaChannel_CreateSgList fuel c0 m0 MemoryPtr ByteCount PhysPtr in
  (TotalDescriptorCount c0 <> 0 ->
     r = Some (XST_DMA_SG_LIST_EXISTS, c0, m0)) /\
  (TotalDescriptorCount c0 = 0 ->
     exists c m,
       r = Some (XST_SUCCESS, c, m) /\
       TotalDescriptorCount c = N /\
       PutPtr c = last /\ GetPtr c = last /\ LastPtr c = last /\
       CommitPtr c = 0 /\
       ActiveDescriptorCount c = 0 /\ ActivePacketCount c = 0 /\
       Committed c = false /\
       VirtPtr c = MemoryPtr /\ PhyPtr c = PhysPtr /\
       (forall k, 0 <= k < N - 1 ->
          load m (slot MemoryPtr k) XBD_NEXT_PTR_OFFSET
          = V_TO_P c (slot MemoryPtr (k + 1))) /\
       load m (slot MemoryPtr (N - 1)) XBD_NEXT_PTR_OFFSET
       = V_TO_P c MemoryPtr /\
       (forall k, 0 <= k < N ->
          next_in_list c m (slot MemoryPtr k)
          = slot MemoryPtr ((k + 1) mod N))).
Proof.
  intros Hreg Hfuel N last r. split.
  - intros HT. subst r. unfold XDmaChannel_CreateSgList.
    destruct (Z.eqb_spec (TotalDescriptorCount c0) 0); [contradiction|].
    reflexivity.
  - intros HT.
    destruct (create_on_region c0 m0 MemoryPtr ByteCount PhysPtr fuel
                Hreg HT Hfuel) as (m & E & Ha & Hb & Hc & _).
    exists (created_channel c0 MemoryPtr ByteCount PhysPtr), m.
    split; [exact E|]. do 10 (split; [reflexivity|]).
    split; [exact Ha|]. split; [exact Hb | exact Hc].
Qed.

(** *** Calls *)

Lemma call_put (s : XDmaChannel * Mem) (src : Z) :
  call (CallPut src) s
  = (fst (fst (XDmaChannel_PutDescriptor (fst s) (snd s) src)),
     (snd (fst (XDmaChannel_PutDescriptor (fst s) (snd s) src)),
      snd (XDmaChannel_PutDescriptor (fst s) (snd s) src))).
Proof.
  unfold call.
  destruct (XDmaChannel_PutDescriptor (fst s) (snd s) src) as [[st c] m].
  reflexivity.
Qed.

Lemma call_commit (s : XDmaChannel * Mem) :
  call CallCommit s
  = (fst (fst (XDmaChannel_CommitPuts (fst s) (snd s))),
     (snd (fst (XDmaChannel_CommitPuts (fst s) (snd s))),
      snd (XDmaChannel_CommitPuts (fst s) (snd s)))).
Proof.
  unfold call.
  destruct (XDmaChannel_CommitPuts (fst s) (snd s)) as [[st c] m].
  reflexivity.
Qed.

Lemma call_get (s : XDmaChannel * Mem) :
  call CallGet s
  = (fst (fst (fst (XDmaChannel_GetDescriptor (fst s) (snd s)))),
     (snd (fst (XDmaChannel_GetDescriptor (fst s) (snd s))),
      snd (XDmaChannel_GetDescriptor (fst s) (snd s)))).
Proof.
  unfold call.
  destruct (XDmaChannel_GetDescriptor (fst s) (snd s)) as [[[st o] c] m].
  reflexivity.
Qed.

(** A put either succeeds, with the state [put_success] gives, or returns
    the state it was given. *)
Lemma put_cases (c : XDmaChannel) (m : Mem) (src : Z) :
  (fst (fst (XDmaChannel_PutDescriptor c m src)) = XST_SUCCESS /\
   TotalDescriptorCount c <> 0 /\
   ActiveDescriptorCount c <> TotalDescriptorCount c /\
   XBufDescriptor_IsLocked m (PutPtr c) = false) \/
  (fst (fst (XDmaChannel_PutDescriptor c m src)) <> XST_SUCCESS /\
   XDmaChannel_PutDescriptor c m src
   = (fst (fst (XDmaChannel_PutDescriptor c m src)), c, m)).
Proof.
  destruct (XStatus_eq_dec (fst (fst (XDmaChannel_PutDescriptor c m src)))
              XST_SUCCESS) as [E|E].
  - left. split; [exact E|]. apply (put_status c m src). exact E.
  - right. split; [exact E|]. apply put_failure. exact E.
Qed.

(** No call changes the size of the list, its two base pointers, the
    register base or the ready flag. *)
Lemma call_fields (k : Call) (s : XDmaChannel * Mem) :
  TotalDescriptorCount (fst (snd (call k s))) = TotalDescriptorCount (fst s) /\
  VirtPtr (fst (snd (call k s))) = VirtPtr (fst s) /\
  PhyPtr (fst (snd (call k s))) = PhyPtr (fst s) /\
  RegBaseAddress (fst (snd (call k s))) = RegBaseAddress (fst s) /\
  IsReady (fst (snd (call k s))) = IsReady (fst s).
Proof.
  destruct s as [c m]. destruct k as [src| |].
  - rewrite call_put. cbn [fst snd].
    destruct (put_cases c m src) as [(_ & H1 & H2 & H3)|(_ & E)].
    + rewrite put_success by assumption. cbv zeta. cbn.
      repeat split; reflexivity.
    + rewrite E. cbn. repeat split; reflexivity.
  - rewrite call_commit. cbn [fst snd].
    pose proof (commit_puts_effect c m) as Hc.
    destruct (XDmaChannel_CommitPuts c m) as [[st c'] m']. cbn [fst snd].
    destruct Hc as [(-> & _)|(_ & _ & -> & _)]; cbn;
      repeat split; reflexivity.
  - rewrite call_get. cbn [fst snd]. unfold XDmaChannel_GetDescriptor.
    destruct (TotalDescriptorCount c =? 0);
      [cbn; repeat split; reflexivity|].
    destruct (XDmaChannel_IsSgListEmpty c); cbn; repeat split; reflexivity.
Qed.

Lemma fields_reachable (s0 s : XDmaChannel * Mem) (b : bool) :
  reachable s0 b s ->
  TotalDescriptorCount (fst s) = TotalDescriptorCount (fst s0) /\
  VirtPtr (fst s) = VirtPtr (fst s0) /\
  PhyPtr (fst s) = PhyPtr (fst s0) /\
  RegBaseAddress (fst s) = RegBaseAddress (fst s0) /\
  IsReady (fst s) = IsReady (fst s0).
Proof.
  intros Hreach. induction Hreach as [|b s k _ IH].
  - repeat split; reflexivity.
  - destruct (call_fields k s) as (H1 & H2 & H3 & H4 & H5).
    destruct IH as (I1 & I2 & I3 & I4 & I5).
    repeat split; congruence.
Qed.

Lemma reachable_ok_reachable (s0 s : XDmaChannel * Mem) (b : bool) :
  reachable_ok s0 b s -> reachable s0 b s.
Proof.
  intros Hreach. induction Hreach as [|b s k _ IH _].
  - constructor.
  - constructor. exact IH.
Qed.

Lemma source_ok_fields (c c' : XDmaChannel) (p : Z) :
  VirtPtr c' = VirtPtr c -> TotalDescriptorCount c' = TotalDescriptorCount c ->
  source_ok c p -> source_ok c' p.
Proof. unfold source_ok. intros -> ->. auto. Qed.

Lemma call_ok_fields (c c' : XDmaChannel) (k : Call) :
  VirtPtr c' = VirtPtr c -> TotalDescriptorCount c' = TotalDescriptorCount c ->
  call_ok c k -> call_ok c' k.
Proof.
  intros EV ET. destruct k; cbn; [apply source_ok_fields; assumption | ..];
    auto.
Qed.

(** *** The stop bits the protocol keeps *)

Lemma succ_mod_fixed (j n : Z) : 0 <= j < n -> (j + 1) mod n = j -> n = 1.
Proof.
  intros Hj E. destruct (Z.eq_dec (j + 1) n) as [En|En].
  - rewrite En, Z.mod_same in E by lia. lia.
  - rewrite Z.mod_small in E by lia. lia.
Qed.

Lemma ring_slot_inj (c : XDmaChannel) (j k : Z) :
  0 < sizeof_XBufDescriptor ->
  slot (VirtPtr c) j = slot (VirtPtr c) k -> j = k.
Proof. unfold slot. intros HS E. nia. Qed.

(** Two descriptors of the list that are not the same one share no
    byte. *)
Lemma slot_ne_apart (M j k : Z) :
  0 < sizeof_XBufDescriptor ->
  slot M j <> slot M k -> apart (slot M j) (slot M k).
Proof.
  intros HS Hne. apply slots_apart; [exact HS|]. congruence.
Qed.

(** When a put clears the stop bit of the tail, the tail is not the
    descriptor being written. *)
Lemma opens_tail_last_ne_put (c : XDmaChannel) :
  0 < sizeof_XBufDescriptor -> cursors_ok c ->
  put_opens_tail c = true -> LastPtr c <> PutPtr c.
Proof.
  intros HS ((j & Hj & HL & HP) & HC) Ho.
  apply put_opens_tail_true in Ho. destruct Ho as (Hc0 & Hcl).
  destruct HP as [HP|(_ & HP)]; [|contradiction].
  intros E. rewrite HL, HP in E. apply (ring_slot_inj c) in E; [|exact HS].
  symmetry in E. apply succ_mod_fixed in E; [|exact Hj].
  destruct HC as [HC|(k & Hk & HC)]; [contradiction|].
  apply Hcl. rewrite HC, HL. f_equal. lia.
Qed.

Lemma ring_ok_transfer (c c' : XDmaChannel) (m m' : Mem) :
  ring_ok c m ->
  VirtPtr c' = VirtPtr c -> PhyPtr c' = PhyPtr c ->
  TotalDescriptorCount c' = TotalDescriptorCount c ->
  (forall k, 0 <= k < TotalDescriptorCount c ->
     load m' (slot (VirtPtr c) k) XBD_NEXT_PTR_OFFSET
     = load m (slot (VirtPtr c) k) XBD_NEXT_PTR_OFFSET) ->
  ring_ok c' m'.
Proof.
  intros (HS & HV & HN & Hnext) EV EP ET Em. unfold ring_ok.
  rewrite EV, ET. repeat split; try assumption.
  intros k Hk. rewrite <- (Hnext k Hk).
  unfold next_in_list, XBufDescriptor_GetNextPtr, P_TO_V.
  rewrite (Em k Hk), EV, EP. reflexivity.
Qed.

(** The cursors are descriptors of the list. *)
Lemma cursors_are_slots (c : XDmaChannel) :
  1 <= TotalDescriptorCount c -> cursors_ok c ->
  (exists j, 0 <= j < TotalDescriptorCount c /\
     LastPtr c = slot (VirtPtr c) j) /\
  (exists j, 0 <= j < TotalDescriptorCount c /\
     PutPtr c = slot (VirtPtr c) j) /\
  (CommitPtr c = 0 \/
   exists j, 0 <= j < TotalDescriptorCount c /\
     CommitPtr c = slot (VirtPtr c) j).
Proof.
  intros HN ((j & Hj & HL & HP) & HC).
  split; [exists j; tauto|]. split; [|exact HC].
  destruct HP as [HP|(HP & _)].
  - exists ((j + 1) mod TotalDescriptorCount c). split; [|exact HP].
    apply Z.mod_pos_bound. lia.
  - exists j. split; [exact Hj | congruence].
Qed.

(** A put given a descriptor that fits the list leaves the next pointers
    of the list. *)
Lemma put_keeps_slot_next (c : XDmaChannel) (m : Mem) (src k : Z) :
  0 < sizeof_XBufDescriptor -> 1 <= TotalDescriptorCount c ->
  cursors_ok c -> source_ok c src ->
  0 <= k < TotalDescriptorCount c ->
  load (snd (XDmaChannel_PutDescriptor c m src)) (slot (VirtPtr c) k)
    XBD_NEXT_PTR_OFFSET
  = load m (slot (VirtPtr c) k) XBD_NEXT_PTR_OFFSET.
Proof.
  intros HS HN Hcur Hsrc Hk.
  destruct (cursors_are_slots c HN Hcur)
    as ((j & _ & HL) & (j' & _ & HP) & _).
  apply put_keeps_next.
  - apply separate_sym, Hsrc, Hk.
  - rewrite HP. apply slots_separate, HS.
  - rewrite HL. apply slots_separate, HS.
Qed.

Lemma list_inv_put (b : bool) (c : XDmaChannel) (m : Mem) (src : Z)
  (c' : XDmaChannel) (m' : Mem) :
  XDC_DMACR_SG_DISABLE_MASK <> 0 ->
  list_inv b (c, m) ->
  source_ok c src ->
  XDmaChannel_PutDescriptor c m src = (XST_SUCCESS, c', m') ->
  list_inv true (c', m').
Proof.
  intros Hk (Hring & Hcur & Hb) Hsrc E. cbn [fst snd] in *.
  pose proof Hring as (HS & HV & HN & Hnext).
  pose proof (fun k => put_keeps_slot_next c m src k HS HN Hcur Hsrc)
    as Hkeep.
  rewrite E in Hkeep. cbn [snd] in Hkeep.
  destruct (put_inv _ _ _ _ _ E) as (H1 & H2 & H3).
  rewrite put_success in E by assumption. cbv zeta in E.
  injection E as Ec Em.
  set (m1 := CopyBufferDescriptor (prepare_descriptor m src) src (PutPtr c))
    in *.
  destruct (cursors_are_slots c HN Hcur)
    as ((j & Hj & HL) & (j' & Hj' & HP') & HCs).
  assert (Hsl : separate (LastPtr c) src)
    by (rewrite HL; apply separate_sym, Hsrc, Hj).
  assert (Hpl : separate (LastPtr c) (PutPtr c))
    by (rewrite HL, HP'; apply slots_separate, HS).
  assert (Hc_sep : CommitPtr c <> 0 ->
            separate (CommitPtr c) src /\
            separate (CommitPtr c) (PutPtr c) /\
            separate (CommitPtr c) (LastPtr c)).
  { intros Hc0. destruct HCs as [HCs|(kc & Hkc & HCs)]; [contradiction|].
    rewrite HCs, HL, HP'. split; [apply separate_sym, Hsrc, Hkc|].
    split; apply slots_separate, HS. }
  assert (Hput : stop_bit m1 (PutPtr c) = true)
    by (apply copy_prepare_sets_stop; exact Hk).
  assert (Hlast : stop_bit m1 (LastPtr c) = true).
  { destruct b.
    - apply copy_prepare_keeps_stop; [exact Hpl | exact Hsl | apply Hb].
    - destruct Hb as (<- & _). exact Hput. }
  assert (Hne : put_opens_tail c = true -> LastPtr c <> PutPtr c)
    by (apply opens_tail_last_ne_put; assumption).
  assert (Hring' : ring_ok c' m').
  { apply (ring_ok_transfer c c' m m' Hring); subst c'; try reflexivity.
    exact Hkeep. }
  destruct Hcur as ((j0 & Hj0 & HL0 & HP0) & HC).
  split; [exact Hring'|]. split.
  - unfold cursors_ok. subst c'.
    cbn [fst snd LastPtr PutPtr CommitPtr VirtPtr TotalDescriptorCount].
    split.
    + exists j'. split; [exact Hj'|]. split; [exact HP'|]. left.
      rewrite <- (Hnext j' Hj'), <- HP'.
      unfold next_in_list, XBufDescriptor_GetNextPtr, P_TO_V.
      cbn [VirtPtr PhyPtr]. rewrite Em.
      assert (Hkeep' : load m' (PutPtr c) XBD_NEXT_PTR_OFFSET
                       = load m (PutPtr c) XBD_NEXT_PTR_OFFSET)
        by (rewrite HP'; apply Hkeep; exact Hj').
      rewrite Hkeep'. reflexivity.
    + destruct (Z.eqb_spec (CommitPtr c) 0).
      * right. exists j. split; [exact Hj | exact HL].
      * exact HC.
  - unfold stop_bits_kept. subst c'. cbn [fst snd LastPtr CommitPtr].
    destruct (put_opens_tail c) eqn:Ho.
    + pose proof (Hne eq_refl) as Hlp.
      apply put_opens_tail_true in Ho. destruct Ho as (Hc0 & Hcl).
      destruct (Hc_sep Hc0) as (Hcs & Hcp & Hcl').
      destruct (Z.eqb_spec (CommitPtr c) 0); [contradiction|].
      subst m'. unfold stop_bit in *. split.
      * rewrite clear_stop_other_bd
          by (apply apart_sym, separate_neq; assumption).
        exact Hput.
      * intros _.
        rewrite clear_stop_other_bd by (apply separate_neq; assumption).
        destruct b.
        -- apply copy_prepare_keeps_stop; [exact Hcp | exact Hcs|].
           apply Hb. assumption.
        -- destruct Hb as (_ & Hb). contradiction.
    + subst m'. split; [exact Hput|].
      destruct (Z.eqb_spec (CommitPtr c) 0) as [Hc0|Hc0].
      * intros _. exact Hlast.
      * intros _. destruct (Hc_sep Hc0) as (Hcs & Hcp & _). destruct b.
        -- apply copy_prepare_keeps_stop; [exact Hcp | exact Hcs|].
           apply Hb. assumption.
        -- destruct Hb as (_ & Hb). contradiction.
Qed.

Lemma list_inv_call (b : bool) (s : XDmaChannel * Mem) (k : Call) :
  XDC_DMACR_SG_DISABLE_MASK <> 0 ->
  list_inv b s -> call_ok (fst s) k ->
  list_inv (b || put_succeeds k s) (snd (call k s)).
Proof.
  intros Hk Hinv Hok. destruct s as [c m]. destruct k as [src| |].
  - unfold put_succeeds, call. cbn [fst snd].
    destruct (XDmaChannel_PutDescriptor c m src) as [[st c'] m'] eqn:E.
    cbn [fst snd].
    destruct (XStatus_eq_dec st XST_SUCCESS) as [->|Hst].
    + rewrite orb_true_r. apply (list_inv_put b c m src); assumption.
    + rewrite orb_false_r.
      pose proof (put_failure c m src) as Hf. rewrite E in Hf.
      cbn [fst] in Hf. specialize (Hf Hst). injection Hf as -> ->.
      exact Hinv.
  - cbn [put_succeeds]. rewrite orb_false_r. unfold call. cbn [fst snd].
    pose proof (commit_puts_effect c m) as Hc.
    destruct (XDmaChannel_CommitPuts c m) as [[st c'] m'].
    cbn [fst snd]. destruct Hc as [(-> & ->)|(Hc0 & Ha & -> & Hm)];
      [exact Hinv|].
    destruct Hinv as (Hring & Hcur & Hb). cbn [fst snd] in *.
    pose proof Hring as (HS & HV & HN & _).
    destruct (cursors_are_slots c HN Hcur)
      as ((j & Hj & HL) & _ & HCs).
    destruct HCs as [HCs|(kc & Hkc & HCs)]; [contradiction|].
    assert (Hnext : forall k, 0 <= k < TotalDescriptorCount c ->
              load m' (slot (VirtPtr c) k) XBD_NEXT_PTR_OFFSET
              = load m (slot (VirtPtr c) k) XBD_NEXT_PTR_OFFSET).
    { intros k Hk'. destruct Hm as [(_ & ->)|(_ & ->)]; [|reflexivity].
      apply clear_stop_keeps_word; [|discriminate].
      rewrite HCs. apply slots_separate, HS. }
    split; [|split].
    + apply (ring_ok_transfer c _ m m' Hring); try reflexivity. exact Hnext.
    + destruct Hcur as ((j0 & Hj0 & HL0 & HP) & HC). split.
      * exists j0. cbn. split; [exact Hj0|]. split; [exact HL0|].
        destruct HP as [HP|(HP & HP0)]; [left; exact HP | contradiction].
      * left. reflexivity.
    + destruct b.
      * destruct Hb as (Hl & Hcm). split; cbn; [|congruence].
        destruct Hm as [(Hne & ->)|(_ & ->)]; [|exact Hl].
        unfold stop_bit in *.
        rewrite clear_stop_other_bd; [exact Hl|].
        rewrite HL, HCs. apply slot_ne_apart; [exact HS | congruence].
      * destruct Hb as (_ & Hb). contradiction.
  - cbn [put_succeeds]. rewrite orb_false_r. unfold call. cbn [fst snd].
    unfold XDmaChannel_GetDescriptor.
    destruct (TotalDescriptorCount c =? 0); [exact Hinv|].
    destruct (XDmaChannel_IsSgListEmpty c); [exact Hinv|].
    cbn [fst snd]. destruct Hinv as (Hring & Hcur & Hb).
    cbn [fst snd] in *. split; [|split].
    + apply (ring_ok_transfer c _ m m Hring); reflexivity.
    + exact Hcur.
    + exact Hb.
Qed.

Lemma list_inv_reachable (s0 s : XDmaChannel * Mem) (b : bool) :
  XDC_DMACR_SG_DISABLE_MASK <> 0 ->
  list_inv false s0 -> reachable_ok s0 b s -> list_inv b s.
Proof.
  intros Hk H0 Hr. induction Hr as [|b s k Hr IH Hok].
  - exact H0.
  - apply list_inv_call; [exact Hk | exact IH |].
    destruct (fields_reachable s0 s b (reachable_ok_reachable _ _ _ Hr))
      as (HT & HV & _).
    apply (call_ok_fields (fst s0)); assumption.
Qed.

Lemma list_inv_created (c0 : XDmaChannel) (m0 : Mem) (M B P : Z)
  (fuel : nat) (c : XDmaChannel) (m : Mem) :
  region_ok M B P ->
  XDmaChannel_CreateSgList fuel c0 m0 M B P = Some (XST_SUCCESS, c, m) ->
  list_inv false (c, m).
Proof.
  intros Hreg E.
  destruct (create_success_inv _ _ _ _ _ _ _ _ Hreg E) as (HT & E').
  destruct (create_on_region c0 m0 M B P
              (Z.to_nat (B / sizeof_XBufDescriptor) + fuel) Hreg HT)
    as (m1 & E1 & _ & _ & Hnext & _); [lia|].
  rewrite E1 in E'. injection E' as <- <-.
  pose proof (region_count M B P Hreg) as (HN1 & _).
  pose proof Hreg as (HS & _ & _ & HM & _).
  split; [|split]; cbn [fst snd].
  - unfold ring_ok. cbn. repeat split; try assumption.
  - split.
    + exists (B / sizeof_XBufDescriptor - 1). cbn.
      split; [lia|]. split; [reflexivity|]. right. tauto.
    + left. reflexivity.
  - cbn. tauto.
Qed.

(** Until a put succeeds nothing changes: on a list with nothing staged
    and nothing active, commit and get have nothing to do. *)
Lemma unchanged_until_put (s0 s : XDmaChannel * Mem) (b : bool) :
  CommitPtr (fst s0) = 0 -> ActiveDescriptorCount (fst s0) = 0 ->
  reachable s0 b s -> b = false -> s = s0.
Proof.
  intros HC HA Hr. induction Hr as [|b s k Hr IH].
  - reflexivity.
  - intros Hb. apply orb_false_elim in Hb. destruct Hb as (Hb & Hp).
    rewrite (IH Hb) in *. clear IH Hr. destruct s0 as [c m].
    cbn [fst snd] in *. destruct k as [src| |].
    + unfold put_succeeds in Hp. rewrite call_put in *. cbn [fst snd] in *.
      destruct (XStatus_eq_dec _ _) as [|Hne]; [discriminate|].
      rewrite (put_failure c m src Hne). reflexivity.
    + rewrite call_commit. cbn [fst snd].
      unfold XDmaChannel_CommitPuts. rewrite HC. reflexivity.
    + rewrite call_get. cbn [fst snd].
      unfold XDmaChannel_GetDescriptor, XDmaChannel_IsSgListEmpty.
      rewrite HA. destruct (TotalDescriptorCount c =? 0); reflexivity.
Qed.

(** C1 (amended).  Take a list created on a proper region, with a stop-bit
    mask that is not zero, and put, commit and get calls in which every
    put is given a descriptor that is one of the list's or shares no byte
    with any of them.  In every state these calls lead to in which some
    put has succeeded, the descriptor at LastPtr has its stop bit set, and
    so has the descriptor at CommitPtr whenever CommitPtr is not NULL.
    Until a put succeeds the state is the one creation left, in which the
    descriptor at LastPtr holds the control word the initializer
    stored. *)
Theorem stop_bits_kept_once_put (c0 : XDmaChannel) (m0 : Mem)
  (MemoryPtr ByteCount PhysPtr : Z) (fuel : nat)
  (c : XDmaChannel) (m : Mem) (b : bool) (s : XDmaChannel * Mem) :
  XDC_DMACR_SG_DISABLE_MASK <> 0 ->
  region_ok MemoryPtr ByteCount PhysPtr ->
  XDmaChannel_CreateSgList fuel c0 m0 MemoryPtr ByteCount PhysPtr
  = Some (XST_SUCCESS, c, m) ->
  reachable_ok (c, m) b s ->
  if b then stop_bits_kept s
  else s = (c, m) /\
       load m (LastPtr c) XBD_CONTROL_OFFSET
       = XBD_INITIAL_WORD XBD_CONTROL_OFFSET.
Proof.
  intros Hk Hreg E Hr.
  pose proof (list_inv_created c0 m0 MemoryPtr ByteCount PhysPtr fuel
                c m Hreg E) as Hinv.
  destruct b.
  - apply (list_inv_reachable (c, m) s true Hk Hinv Hr).
  - destruct (create_success_inv _ _ _ _ _ _ _ _ Hreg E) as (HT & E').
    destruct (create_on_region c0 m0 MemoryPtr ByteCount PhysPtr
                (Z.to_nat (ByteCount / sizeof_XBufDescriptor) + fuel)
                Hreg HT)
      as (m1 & E1 & _ & _ & _ & Hinit & _); [lia|].
    rewrite E1 in E'. injection E' as Ec Em.
    pose proof (region_count _ _ _ Hreg) as (HN1 & _).
    split.
    + apply (unchanged_until_put (c, m) s false);
        [subst c; reflexivity | subst c; reflexivity | | reflexivity].
      apply reachable_ok_reachable, Hr.
    + subst c m. cbn [LastPtr created_channel].
      apply Hinit; [lia | discriminate].
Qed.

(** *** Reading results off *)

Lemma put_result (c : XDmaChannel) (m : Mem) (src : Z) :
  fst (fst (XDmaChannel_PutDescriptor c m src)) = XST_SUCCESS ->
  XDmaChannel_PutDescriptor c m src
  = (XST_SUCCESS, snd (fst (XDmaChannel_PutDescriptor c m src)),
     snd (XDmaChannel_PutDescriptor c m src)).
Proof.
  destruct (XDmaChannel_PutDescriptor c m src) as [[st c'] m'].
  cbn. intros ->. reflexivity.
Qed.

Lemma commit_result (c : XDmaChannel) (m : Mem) :
  fst (fst (XDmaChannel_CommitPuts c m)) = XST_SUCCESS ->
  XDmaChannel_CommitPuts c m
  = (XST_SUCCESS, snd (fst (XDmaChannel_CommitPuts c m)),
     snd (XDmaChannel_CommitPuts c m)).
Proof.
  destruct (XDmaChannel_CommitPuts c m) as [[st c'] m'].
  cbn. intros ->. reflexivity.
Qed.

Lemma created_result (o : option (XStatus * XDmaChannel * Mem))
  (d : XDmaChannel * Mem) :
  created_status o = Some XST_SUCCESS ->
  o = Some (XST_SUCCESS, fst (created_state o d), snd (created_state o d)).
Proof.
  destruct o as [[[st c] m]|]; cbn; [|discriminate].
  intros E. injection E as ->. reflexivity.
Qed.

Lemma reachable_calls (s0 : XDmaChannel * Mem) (ks : list Call) :
  forall (b : bool) (s : XDmaChannel * Mem),
  reachable s0 b s -> reachable s0 (puts_succeeded b ks s) (calls ks s).
Proof.
  induction ks as [|k ks IH]; intros b s Hr.
  - exact Hr.
  - cbn [puts_succeeded calls fold_left].
    apply (IH (b || put_succeeds k s) (snd (call k s))).
    constructor. exact Hr.
Qed.

Lemma reachable_ok_calls (s0 : XDmaChannel * Mem) (ks : list Call) :
  Forall (call_ok (fst s0)) ks ->
  forall (b : bool) (s : XDmaChannel * Mem),
  reachable_ok s0 b s -> reachable_ok s0 (puts_succeeded b ks s) (calls ks s).
Proof.
  induction ks as [|k ks IH]; intros Hok b s Hr.
  - exact Hr.
  - cbn [puts_succeeded calls fold_left].
    apply (IH (Forall_inv_tail Hok) (b || put_succeeds k s)
             (snd (call k s))).
    constructor; [exact Hr | exact (Forall_inv Hok)].
Qed.

End DriverProperties.

(** * Further properties of the list operations *)

Section ListProperties.

Context {H : XDmaHeaders}.

Lemma next_in_list_shape (c c' : XDmaChannel) (m m' : Mem) (q : Z) :
  VirtPtr c' = VirtPtr c -> PhyPtr c' = PhyPtr c ->
  load m' q XBD_NEXT_PTR_OFFSET = load m q XBD_NEXT_PTR_OFFSET ->
  next_in_list c' m' q = next_in_list c m q.
Proof.
  intros EV EP En. unfold next_in_list, XBufDescriptor_GetNextPtr, P_TO_V.
  rewrite En, EV, EP. reflexivity.
Qed.

(** X1.  No put, commit or get changes the shape of the list.  After any
    call TotalDescriptorCount, VirtPtr, PhyPtr, RegBaseAddress and IsReady
    are as before.  A descriptor keeps its next pointer, and so the
    descriptor that follows it is the same, provided it does not partly
    overlap a descriptor the call can write: for a put the caller's
    descriptor and the descriptors at PutPtr and LastPtr, for a commit the
    descriptor at CommitPtr.  (A descriptor that starts inside one of
    these can have its next pointer overwritten.) *)
Theorem list_calls_keep_ring_shape (k : Call) (s : XDmaChannel * Mem) :
  let s' := snd (call k s) in
  TotalDescriptorCount (fst s') = TotalDescriptorCount (fst s) /\
  VirtPtr (fst s') = VirtPtr (fst s) /\
  PhyPtr (fst s') = PhyPtr (fst s) /\
  RegBaseAddress (fst s') = RegBaseAddress (fst s) /\
  IsReady (fst s') = IsReady (fst s) /\
  (forall q, call_spares (fst s) k q ->
     load (snd s') q XBD_NEXT_PTR_OFFSET
     = load (snd s) q XBD_NEXT_PTR_OFFSET /\
     next_in_list (fst s') (snd s') q = next_in_list (fst s) (snd s) q).
Proof.
  cbv zeta. destruct (call_fields k s) as (HT & HV & HP & HR & HI).
  do 5 (split; [assumption|]).
  intros q Hq.
  assert (Hn : load (snd (snd (call k s))) q XBD_NEXT_PTR_OFFSET
               = load (snd s) q XBD_NEXT_PTR_OFFSET).
  { destruct s as [c m]. cbn [fst snd] in *. destruct k as [src| |].
    - rewrite call_put. cbn [fst snd]. destruct Hq as (Hqs & Hqp & Hql).
      apply put_keeps_next; assumption.
    - rewrite call_commit. cbn [fst snd].
      pose proof (commit_puts_effect c m) as Hc.
      destruct (XDmaChannel_CommitPuts c m) as [[st c'] m']. cbn [fst snd].
      destruct Hc as [(_ & ->)|(_ & _ & _ & [(_ & ->)|(_ & ->)])];
        try reflexivity.
      apply clear_stop_keeps_word; [exact Hq | discriminate].
    - rewrite call_get. cbn [fst snd]. unfold XDmaChannel_GetDescriptor.
      destruct (TotalDescriptorCount c =? 0); [reflexivity|].
      destruct (XDmaChannel_IsSgListEmpty c); reflexivity. }
  split; [exact Hn|]. apply next_in_list_shape; assumption.
Qed.

(** X2.  ActivePacketCount is never lowered and Committed never reset.  A
    commit and a get leave ActivePacketCount as it is, and so does a put
    that fails; a put that succeeds adds one exactly when the control word
    it has written (the caller's with the stop bit set) has the
    last-in-packet bit.  A put and a get leave Committed as it is, and a
    commit can only set it. *)
Theorem packet_count_and_committed_only_grow (c : XDmaChannel) (m : Mem)
  (src : Z) :
  let put := XDmaChannel_PutDescriptor c m src in
  let commit := XDmaChannel_CommitPuts c m in
  let get := XDmaChannel_GetDescriptor c m in
  (fst (fst put) = XST_SUCCESS ->
     ActivePacketCount (snd (fst put)) =
     if bits_set (Z.lor (load m src XBD_CONTROL_OFFSET)
                    XDC_DMACR_SG_DISABLE_MASK) XDC_CONTROL_LAST_BD_MASK
     then wrap32 (ActivePacketCount c + 1) else ActivePacketCount c) /\
  (fst (fst put) <> XST_SUCCESS ->
     ActivePacketCount (snd (fst put)) = ActivePacketCount c) /\
  ActivePacketCount (snd (fst commit)) = ActivePacketCount c /\
  ActivePacketCount (snd (fst get)) = ActivePacketCount c /\
  Committed (snd (fst put)) = Committed c /\
  Committed (snd (fst get)) = Committed c /\
  (Committed c = true -> Committed (snd (fst commit)) = true) /\
  (fst (fst commit) = XST_SUCCESS -> Committed (snd (fst commit)) = true).
Proof.
  cbv zeta. split; [|split; [|split; [|split; [|split; [|split; [|split]]]]]].
  - intros E. apply (put_status c m src) in E. destruct E as (H1 & H2 & H3).
    rewrite put_success by assumption. cbv zeta. cbn [fst snd ActivePacketCount].
    unfold XBufDescriptor_IsLastControl.
    rewrite copy_control, prepare_control.
    reflexivity.
  - intros E. rewrite put_failure by assumption. reflexivity.
  - pose proof (commit_puts_effect c m) as Hc.
    destruct (XDmaChannel_CommitPuts c m) as [[st c'] m']. cbn [fst snd].
    destruct Hc as [(-> & _)|(_ & _ & -> & _)]; reflexivity.
  - unfold XDmaChannel_GetDescriptor.
    destruct (TotalDescriptorCount c =? 0); [reflexivity|].
    destruct (XDmaChannel_IsSgListEmpty c); reflexivity.
  - destruct (put_cases c m src) as [(_ & H1 & H2 & H3)|(_ & E)].
    + rewrite put_success by assumption. reflexivity.
    + rewrite E. reflexivity.
  - unfold XDmaChannel_GetDescriptor.
    destruct (TotalDescriptorCount c =? 0); [reflexivity|].
    destruct (XDmaChannel_IsSgListEmpty c); reflexivity.
  - intros Ht. pose proof (commit_puts_effect c m) as Hc.
    destruct (XDmaChannel_CommitPuts c m) as [[st c'] m']. cbn [fst snd].
    destruct Hc as [(-> & _)|(_ & _ & -> & _)]; [exact Ht | reflexivity].
  - intros E. unfold XDmaChannel_CommitPuts in *.
    destruct ((CommitPtr c =? 0) || XDmaChannel_IsSgListEmpty c);
      [discriminate | reflexivity].
Qed.

(** X3.  What a put writes.  A put changes no word of memory other than:
    the nine copied words of the descriptor at PutPtr; the control, status
    and device status words of the caller's descriptor; and, when the tail
    test holds, the control word of the descriptor at LastPtr.  Every word
    that shares no byte with any of these is as before, wherever the
    caller's descriptor lies. *)
Theorem put_descriptor_writes_only (c : XDmaChannel) (m : Mem) (src : Z)
  (a : Z) :
  (forall f, In f copied_words -> words_apart a (word_at (PutPtr c) f)) ->
  words_apart a (word_at src XBD_CONTROL_OFFSET) ->
  words_apart a (word_at src XBD_STATUS_OFFSET) ->
  words_apart a (word_at src XBD_DEVICE_STATUS_OFFSET) ->
  (put_opens_tail c = true ->
   words_apart a (word_at (LastPtr c) XBD_CONTROL_OFFSET)) ->
  snd (XDmaChannel_PutDescriptor c m src) a = m a.
Proof.
  intros Hp H1 H2 H3 Hl.
  destruct (put_status c m src) as (_ & _ & _ & Hst).
  destruct (XStatus_eq_dec (fst (fst (XDmaChannel_PutDescriptor c m src)))
              XST_SUCCESS) as [E|E].
  - apply Hst in E. destruct E as (HN & HA & HL).
    rewrite put_success by assumption. cbv zeta. cbn [snd].
    destruct (put_opens_tail c).
    + rewrite clear_stop_frame by (apply words_apart_neq, Hl; reflexivity).
      rewrite copy_frame by exact Hp. apply prepare_frame; assumption.
    + rewrite copy_frame by exact Hp. apply prepare_frame; assumption.
  - rewrite put_failure by assumption. reflexivity.
Qed.

(** X4.  What a successful put leaves in the descriptor at PutPtr and in
    the caller's descriptor, when the caller's descriptor does not partly
    overlap the one at PutPtr and, if the tail test holds, the descriptor
    at LastPtr partly overlaps neither.  The source, destination, length,
    id, flags and requested length words of the descriptor at PutPtr are
    the caller's, its status word is the busy mask and its device status
    is 0; unless the tail test holds with LastPtr on that very descriptor,
    its control word is the caller's with the stop bit set.  The caller's
    own descriptor is changed too: its status word is the busy mask and
    its device status 0. *)
Theorem put_descriptor_written_slot (c : XDmaChannel) (m : Mem) (src : Z)
  (c' : XDmaChannel) (m' : Mem) :
  XDmaChannel_PutDescriptor c m src = (XST_SUCCESS, c', m') ->
  separate src (PutPtr c) ->
  (put_opens_tail c = true -> separate (LastPtr c) (PutPtr c)) ->
  (put_opens_tail c = true -> separate (LastPtr c) src) ->
  (forall f, In f [XBD_SOURCE_OFFSET; XBD_DESTINATION_OFFSET;
                   XBD_LENGTH_OFFSET; XBD_ID_OFFSET; XBD_FLAGS_OFFSET;
                   XBD_RQSTED_LENGTH_OFFSET] ->
     load m' (PutPtr c) f = load m src f) /\
  load m' (PutPtr c) XBD_STATUS_OFFSET = XDC_DMASR_BUSY_MASK /\
  load m' (PutPtr c) XBD_DEVICE_STATUS_OFFSET = 0 /\
  (put_opens_tail c = false \/ LastPtr c <> PutPtr c ->
     load m' (PutPtr c) XBD_CONTROL_OFFSET
     = Z.lor (load m src XBD_CONTROL_OFFSET) XDC_DMACR_SG_DISABLE_MASK) /\
  load m' src XBD_STATUS_OFFSET = XDC_DMASR_BUSY_MASK /\
  load m' src XBD_DEVICE_STATUS_OFFSET = 0.
Proof.
  intros E Hsp Hlp Hls. destruct (put_inv _ _ _ _ _ E) as (H1 & H2 & H3).
  rewrite put_success in E by assumption. cbv zeta in E.
  injection E as Ec Em. clear Ec.
  assert (Hput : forall f, f <> XBD_CONTROL_OFFSET ->
            load m' (PutPtr c) f
            = load (CopyBufferDescriptor (prepare_descriptor m src) src
                      (PutPtr c)) (PutPtr c) f).
  { intros f Hf. subst m'.
    destruct (put_opens_tail c); [|reflexivity].
    apply clear_stop_keeps_word; [|exact Hf].
    apply separate_sym, Hlp. reflexivity. }
  assert (Hcaller : forall f, f <> XBD_CONTROL_OFFSET ->
            load m' src f
            = load (CopyBufferDescriptor (prepare_descriptor m src) src
                      (PutPtr c)) src f).
  { intros f Hf. subst m'.
    destruct (put_opens_tail c); [|reflexivity].
    apply clear_stop_keeps_word; [|exact Hf].
    apply separate_sym, Hls. reflexivity. }
  assert (Hsrc : forall f, f <> XBD_NEXT_PTR_OFFSET ->
            load (CopyBufferDescriptor (prepare_descriptor m src) src
                    (PutPtr c)) src f
            = load (prepare_descriptor m src) src f).
  { intros f Hf. destruct Hsp as [Hsp|Hsp].
    - rewrite Hsp at 2. rewrite <- Hsp at 1.
      rewrite <- Hsp. apply copy_transfers; [apply separate_refl | exact Hf].
    - apply copy_other_bd. exact Hsp. }
  split; [|split; [|split; [|split; [|split]]]].
  - intros f Hf. rewrite Hput.
    + rewrite copy_transfers.
      * apply prepare_keeps_word; [apply separate_refl | ..];
          cbn in Hf; intuition (subst; discriminate).
      * exact Hsp.
      * cbn in Hf; intuition (subst; discriminate).
    + cbn in Hf; intuition (subst; discriminate).
  - rewrite Hput by discriminate.
    rewrite copy_transfers by (assumption || discriminate).
    apply prepare_status.
  - rewrite Hput by discriminate.
    rewrite copy_transfers by (assumption || discriminate).
    apply prepare_device_status.
  - intros Ho. subst m'.
    assert (Hc : load (CopyBufferDescriptor (prepare_descriptor m src) src
                         (PutPtr c)) (PutPtr c) XBD_CONTROL_OFFSET
                 = Z.lor (load m src XBD_CONTROL_OFFSET)
                     XDC_DMACR_SG_DISABLE_MASK).
    { rewrite copy_control. apply prepare_control. }
    destruct (put_opens_tail c) eqn:Hp; [|exact Hc].
    destruct Ho as [Ho|Ho]; [discriminate|].
    rewrite clear_stop_other_bd; [exact Hc|].
    apply apart_sym, separate_neq; [apply Hlp; reflexivity | exact Ho].
  - rewrite Hcaller by discriminate. rewrite Hsrc by discriminate.
    apply prepare_status.
  - rewrite Hcaller by discriminate. rewrite Hsrc by discriminate.
    apply prepare_device_status.
Qed.

(** X5.  A commit right after a commit that succeeded has nothing to
    commit: it returns NothingToCommit and changes nothing. *)
Theorem commit_after_commit (c : XDmaChannel) (m : Mem)
  (c' : XDmaChannel) (m' : Mem) :
  XDmaChannel_CommitPuts c m = (XST_SUCCESS, c', m') ->
  XDmaChannel_CommitPuts c' m' = (XST_DMA_SG_NOTHING_TO_COMMIT, c', m').
Proof.
  intros E. unfold XDmaChannel_CommitPuts in E.
  destruct ((CommitPtr c =? 0) || XDmaChannel_IsSgListEmpty c);
    [discriminate|].
  cbv zeta in E. injection E as <- <-. reflexivity.
Qed.

End ListProperties.

(** * The active descriptors *)

Section ActiveProperties.

Context {H : XDmaHeaders}.

(** The skeleton of the list and the places of the cursors are kept by
    every call whose descriptor fits the list, whatever the masks are. *)
Lemma ring_cursors_put (c : XDmaChannel) (m : Mem) (src : Z)
  (c' : XDmaChannel) (m' : Mem) :
  ring_ok c m -> cursors_ok c -> source_ok c src ->
  XDmaChannel_PutDescriptor c m src = (XST_SUCCESS, c', m') ->
  ring_ok c' m' /\ cursors_ok c'.
Proof.
  intros Hring Hcur Hsrc E.
  pose proof Hring as (HS & HV & HN & Hnext).
  pose proof (fun k => put_keeps_slot_next c m src k HS HN Hcur Hsrc)
    as Hkeep.
  rewrite E in Hkeep. cbn [snd] in Hkeep.
  destruct (put_inv _ _ _ _ _ E) as (H1 & H2 & H3).
  rewrite put_success in E by assumption. cbv zeta in E.
  injection E as Ec Em.
  destruct (cursors_are_slots c HN Hcur)
    as ((j & Hj & HL) & (j' & Hj' & HP') & HCs).
  split.
  - apply (ring_ok_transfer c c' m m' Hring); subst c'; try reflexivity.
    exact Hkeep.
  - unfold cursors_ok. subst c'.
    cbn [fst snd LastPtr PutPtr CommitPtr VirtPtr TotalDescriptorCount].
    split.
    + exists j'. split; [exact Hj'|]. split; [exact HP'|]. left.
      rewrite <- (Hnext j' Hj'), <- HP'.
      unfold next_in_list, XBufDescriptor_GetNextPtr, P_TO_V.
      cbn [VirtPtr PhyPtr]. rewrite Em.
      assert (Hkeep' : load m' (PutPtr c) XBD_NEXT_PTR_OFFSET
                       = load m (PutPtr c) XBD_NEXT_PTR_OFFSET)
        by (rewrite HP'; apply Hkeep; exact Hj').
      rewrite Hkeep'. reflexivity.
    + destruct (Z.eqb_spec (CommitPtr c) 0).
      * right. exists j. split; [exact Hj | exact HL].
      * exact HCs.
Qed.

Lemma ring_cursors_call (k : Call) (s : XDmaChannel * Mem) :
  ring_ok (fst s) (snd s) -> cursors_ok (fst s) -> call_ok (fst s) k ->
  ring_ok (fst (snd (call k s))) (snd (snd (call k s))) /\
  cursors_ok (fst (snd (call k s))).
Proof.
  destruct s as [c m]. cbn [fst snd]. intros Hring Hcur Hok.
  destruct k as [src| |].
  - rewrite call_put. cbn [fst snd].
    destruct (put_cases c m src) as [(Es & _)|(_ & E)].
    + apply (ring_cursors_put c m src); try assumption.
      rewrite <- Es.
      destruct (XDmaChannel_PutDescriptor c m src) as [[st c'] m'].
      reflexivity.
    + rewrite E. cbn [fst snd]. split; assumption.
  - rewrite call_commit. cbn [fst snd].
    pose proof (commit_puts_effect c m) as Hc.
    destruct (XDmaChannel_CommitPuts c m) as [[st c'] m'].
    cbn [fst snd]. destruct Hc as [(-> & ->)|(Hc0 & Ha & -> & Hm)];
      [split; assumption|].
    pose proof Hring as (HS & HV & HN & _).
    destruct (cursors_are_slots c HN Hcur) as (_ & _ & HCs).
    destruct HCs as [HCs|(kc & Hkc & HCs)]; [contradiction|].
    split.
    + apply (ring_ok_transfer c _ m m' Hring); try reflexivity.
      intros k Hk. destruct Hm as [(_ & ->)|(_ & ->)]; [|reflexivity].
      apply clear_stop_keeps_word; [|discriminate].
      rewrite HCs. apply slots_separate, HS.
    + destruct Hcur as ((j0 & Hj0 & HL0 & HP) & HC). split.
      * exists j0. cbn. split; [exact Hj0|]. split; [exact HL0|].
        destruct HP as [HP|(HP & HP0)]; [left; exact HP | contradiction].
      * left. reflexivity.
  - rewrite call_get. cbn [fst snd]. unfold XDmaChannel_GetDescriptor.
    destruct (TotalDescriptorCount c =? 0); [split; assumption|].
    destruct (XDmaChannel_IsSgListEmpty c); [split; assumption|].
    cbn [fst snd]. split.
    + apply (ring_ok_transfer c _ m m Hring); reflexivity.
    + exact Hcur.
Qed.

Lemma mod_add_one (a n : Z) : 0 < n -> (a mod n + 1) mod n = (a + 1) mod n.
Proof. intros Hn. apply Zplus_mod_idemp_l. Qed.

Lemma mod_shift_neq (g a i n : Z) :
  0 <= i < a -> a < n -> (g + a) mod n <> (g + i) mod n.
Proof.
  intros Hi Ha E.
  assert (E' : ((g + a) - (g + i)) mod n = 0).
  { rewrite Zminus_mod, E, Z.sub_diag. apply Z.mod_0_l. lia. }
  replace (g + a - (g + i)) with (a - i) in E' by lia.
  rewrite Z.mod_small in E' by lia. lia.
Qed.

Lemma wrap32_small (z : Z) : 0 <= z < 2 ^ 32 -> wrap32 z = z.
Proof. intros Hz. apply Z.mod_small. exact Hz. Qed.

(** The count of active descriptors stays within the size of the list
    whatever the calls are given: a put adds one only below the size and a
    get takes one only above 0. *)
Lemma count_call (k : Call) (s : XDmaChannel * Mem) :
  0 <= ActiveDescriptorCount (fst s) <= TotalDescriptorCount (fst s) ->
  TotalDescriptorCount (fst s) < 2 ^ 32 ->
  0 <= ActiveDescriptorCount (fst (snd (call k s)))
    <= TotalDescriptorCount (fst s).
Proof.
  destruct s as [c m]. cbn [fst snd]. intros HA HN.
  destruct k as [src| |].
  - rewrite call_put. cbn [fst snd].
    destruct (put_cases c m src) as [(_ & H1 & H2 & H3)|(_ & E)].
    + rewrite put_success by assumption. cbv zeta.
      cbn [fst snd ActiveDescriptorCount].
      rewrite wrap32_small by lia. lia.
    + rewrite E. cbn [fst snd]. exact HA.
  - rewrite call_commit. cbn [fst snd].
    pose proof (commit_puts_effect c m) as Hc.
    destruct (XDmaChannel_CommitPuts c m) as [[st c'] m']. cbn [fst snd].
    destruct Hc as [(-> & _)|(_ & _ & -> & _)]; exact HA.
  - rewrite call_get. cbn [fst snd]. unfold XDmaChannel_GetDescriptor.
    destruct (Z.eqb_spec (TotalDescriptorCount c) 0); [exact HA|].
    unfold XDmaChannel_IsSgListEmpty.
    destruct (Z.eqb_spec (ActiveDescriptorCount c) 0); [exact HA|].
    cbn [fst snd]. unfold set_ActiveDescriptorCount, set_GetPtr.
    cbn [ActiveDescriptorCount]. rewrite wrap32_small by lia. lia.
Qed.

Lemma count_reachable (s0 s : XDmaChannel * Mem) (b : bool) :
  0 <= ActiveDescriptorCount (fst s0) <= TotalDescriptorCount (fst s0) ->
  TotalDescriptorCount (fst s0) < 2 ^ 32 ->
  reachable s0 b s ->
  0 <= ActiveDescriptorCount (fst s) <= TotalDescriptorCount (fst s0).
Proof.
  intros HA HN Hreach. induction Hreach as [|b s k Hr IH].
  - exact HA.
  - destruct (fields_reachable s0 s b Hr) as (HT & _).
    rewrite <- HT. apply count_call; rewrite HT; assumption.
Qed.

Lemma active_ok_call (k : Call) (s : XDmaChannel * Mem) :
  ring_ok (fst s) (snd s) -> cursors_ok (fst s) -> call_ok (fst s) k ->
  active_ok (fst s) ->
  active_ok (fst (snd (call k s))).
Proof.
  destruct s as [c m]. cbn [fst snd].
  intros Hring Hcur Hok
    (HA & HN32 & (g & Hg & HG & HP) & (j & Hj & HL)).
  pose proof Hring as (HS & HV & HN & Hnext).
  destruct k as [src| |].
  - rewrite call_put. cbn [fst snd].
    destruct (put_cases c m src) as [(_ & H1 & H2 & H3)|(_ & E)].
    + pose proof (fun k => put_keeps_slot_next c m src k HS HN Hcur Hok)
        as Hkeep.
      rewrite put_success in * by assumption. cbv zeta in *.
      cbn [fst snd] in *. unfold active_ok.
      cbn [ActiveDescriptorCount TotalDescriptorCount GetPtr PutPtr LastPtr
           VirtPtr].
      rewrite wrap32_small by lia.
      split; [lia|]. split; [exact HN32|]. split.
      * exists g. split; [exact Hg|]. split; [exact HG|].
        assert (Hm : 0 <= (g + ActiveDescriptorCount c)
                            mod TotalDescriptorCount c
                     < TotalDescriptorCount c)
          by (apply Z.mod_pos_bound; lia).
        pose proof (Hkeep _ Hm) as Hkeep'. rewrite <- HP in Hkeep'.
        erewrite next_in_list_shape;
          [|reflexivity|reflexivity|exact Hkeep'].
        rewrite HP, Hnext by exact Hm.
        rewrite mod_add_one by lia. f_equal. f_equal. lia.
      * exists ((g + ActiveDescriptorCount c) mod TotalDescriptorCount c).
        split; [apply Z.mod_pos_bound; lia | exact HP].
    + rewrite E. cbn [fst snd]. unfold active_ok. eauto 10.
  - rewrite call_commit. cbn [fst snd].
    pose proof (commit_puts_effect c m) as Hc.
    destruct (XDmaChannel_CommitPuts c m) as [[st c'] m']. cbn [fst snd].
    destruct Hc as [(-> & _)|(_ & _ & -> & _)];
      unfold active_ok; cbn; eauto 10.
  - rewrite call_get. cbn [fst snd]. unfold XDmaChannel_GetDescriptor.
    destruct (Z.eqb_spec (TotalDescriptorCount c) 0);
      [unfold active_ok; cbn; eauto 10|].
    unfold XDmaChannel_IsSgListEmpty.
    destruct (Z.eqb_spec (ActiveDescriptorCount c) 0);
      [unfold active_ok; cbn; eauto 10|].
    cbn [fst snd]. unfold active_ok.
    unfold set_ActiveDescriptorCount, set_GetPtr.
    cbn [ActiveDescriptorCount TotalDescriptorCount GetPtr PutPtr LastPtr
         VirtPtr].
    rewrite wrap32_small by lia.
    split; [lia|]. split; [exact HN32|]. split.
    + exists ((g + 1) mod TotalDescriptorCount c).
      split; [apply Z.mod_pos_bound; lia|]. split.
      * rewrite HG. apply Hnext. exact Hg.
      * rewrite HP. f_equal. rewrite Zplus_mod_idemp_l. f_equal. lia.
    + exists j. split; assumption.
Qed.

Lemma active_created (c0 : XDmaChannel) (m0 : Mem) (M B P : Z)
  (fuel : nat) (c : XDmaChannel) (m : Mem) :
  region_ok M B P ->
  XDmaChannel_CreateSgList fuel c0 m0 M B P = Some (XST_SUCCESS, c, m) ->
  c = created_channel c0 M B P /\ ring_ok c m /\ cursors_ok c /\
  active_ok c.
Proof.
  intros Hreg E.
  pose proof (list_inv_created _ _ _ _ _ _ _ _ Hreg E)
    as (Hring & Hcur & _).
  destruct (create_success_inv _ _ _ _ _ _ _ _ Hreg E) as (HT & E').
  destruct (create_on_region c0 m0 M B P
              (Z.to_nat (B / sizeof_XBufDescriptor) + fuel) Hreg HT)
    as (m1 & E1 & _); [lia|].
  rewrite E1 in E'. injection E' as Ec Em.
  pose proof (region_count M B P Hreg) as (HN1 & HN2 & _).
  pose proof Hreg as (HS & _ & HO & _).
  split; [symmetry; exact Ec|]. split; [exact Hring|].
  split; [exact Hcur|].
  subst c. unfold active_ok, created_channel. cbn.
  split; [lia|]. split; [nia|]. split.
  - exists (B / sizeof_XBufDescriptor - 1). split; [lia|].
    split; [reflexivity|]. rewrite Z.add_0_r, Z.mod_small by lia.
    reflexivity.
  - exists (B / sizeof_XBufDescriptor - 1). split; [lia | reflexivity].
Qed.

Lemma active_reachable (s0 s : XDmaChannel * Mem) (b : bool) :
  ring_ok (fst s0) (snd s0) -> cursors_ok (fst s0) -> active_ok (fst s0) ->
  reachable_ok s0 b s ->
  ring_ok (fst s) (snd s) /\ cursors_ok (fst s) /\ active_ok (fst s) /\
  VirtPtr (fst s) = VirtPtr (fst s0) /\
  TotalDescriptorCount (fst s) = TotalDescriptorCount (fst s0).
Proof.
  intros Hr Hc Ha Hreach. induction Hreach as [|b s k Hreach IH Hok].
  - auto.
  - destruct IH as (IH1 & IH2 & IH3 & IH4 & IH5).
    destruct (call_fields k s) as (HT & HV & _).
    assert (Hok' : call_ok (fst s) k)
      by (apply (call_ok_fields (fst s0)); assumption).
    destruct (ring_cursors_call k s IH1 IH2 Hok') as (R1 & R2).
    split; [exact R1|]. split; [exact R2|].
    split; [apply active_ok_call; assumption|].
    split; congruence.
Qed.

(** X6.  Counts and cursors of a list in use.  Take a list created on a
    proper region and a sequence of put, commit and get calls in which
    every put is given a descriptor that is one of the list or shares no
    byte with any of it.  In every state these calls lead to,
    ActiveDescriptorCount lies between 0 and TotalDescriptorCount, GetPtr
    is a descriptor of the list and PutPtr is the descriptor
    ActiveDescriptorCount places after GetPtr, going round; so while the
    list is not full PutPtr, where the next put writes, is none of the
    active descriptors. *)
Theorem active_count_and_cursors (c0 : XDmaChannel) (m0 : Mem)
  (MemoryPtr ByteCount PhysPtr : Z) (fuel : nat)
  (c : XDmaChannel) (m : Mem) (b : bool) (s : XDmaChannel * Mem) :
  region_ok MemoryPtr ByteCount PhysPtr ->
  XDmaChannel_CreateSgList fuel c0 m0 MemoryPtr ByteCount PhysPtr
  = Some (XST_SUCCESS, c, m) ->
  reachable_ok (c, m) b s ->
  let N := ByteCount / sizeof_XBufDescriptor in
  let A := ActiveDescriptorCount (fst s) in
  TotalDescriptorCount (fst s) = N /\
  0 <= A <= N /\
  exists g, 0 <= g < N /\
    GetPtr (fst s) = slot MemoryPtr g /\
    PutPtr (fst s) = slot MemoryPtr ((g + A) mod N) /\
    (A < N -> forall i, 0 <= i < A ->
       PutPtr (fst s) <> slot MemoryPtr ((g + i) mod N)).
Proof.
  intros Hreg E Hreach N A.
  destruct (active_created _ _ _ _ _ _ _ _ Hreg E) as (Ec & Hr & Hcu & Ha).
  destruct (active_reachable (c, m) s b Hr Hcu Ha Hreach)
    as (Hr' & _ & Ha' & HV & HT).
  cbn [fst snd] in HV, HT. rewrite Ec in HV, HT. cbn in HV, HT.
  destruct Ha' as (HA & _ & (g & Hg & HG & HP) & _).
  rewrite HV, HT in *. fold N in Hg, HG, HP, HA |- *. fold A in HP, HA.
  split; [reflexivity|]. split; [exact HA|].
  exists g. split; [exact Hg|]. split; [exact HG|]. split; [exact HP|].
  intros HAN i Hi Eq. rewrite HP in Eq.
  pose proof Hreg as (HS & _).
  unfold slot in Eq.
  assert (Em : (g + A) mod N = (g + i) mod N) by nia.
  revert Em. apply mod_shift_neq; lia.
Qed.

Lemma window_shape (c c' : XDmaChannel) (g : Z) (n : nat) :
  VirtPtr c' = VirtPtr c ->
  TotalDescriptorCount c' = TotalDescriptorCount c ->
  window c' g n = window c g n.
Proof. intros EV ET. unfold window. rewrite EV, ET. reflexivity. Qed.

Lemma window_snoc (c : XDmaChannel) (g : Z) (n : nat) :
  window c g (S n)
  = window c g n
    ++ [slot (VirtPtr c) ((g + Z.of_nat n) mod TotalDescriptorCount c)].
Proof. unfold window. rewrite seq_S, map_app. reflexivity. Qed.

Lemma window_cons (c : XDmaChannel) (g : Z) (n : nat) :
  0 <= g < TotalDescriptorCount c ->
  window c g (S n)
  = slot (VirtPtr c) g
    :: window c ((g + 1) mod TotalDescriptorCount c) n.
Proof.
  intros Hg. unfold window. cbn [seq map].
  rewrite Z.add_0_r, Z.mod_small by exact Hg. f_equal.
  rewrite <- seq_shift, map_map. apply map_ext. intros i.
  f_equal. rewrite Zplus_mod_idemp_l. f_equal. lia.
Qed.

Lemma window_length (c : XDmaChannel) (g : Z) (n : nat) :
  length (window c g n) = n.
Proof. unfold window. rewrite length_map, length_seq. reflexivity. Qed.

(** The journal of the calls keeps the descriptors written equal to the
    descriptors handed out followed by the active ones. *)
Lemma journal_fifo (ks : list Call) :
  forall (s : XDmaChannel * Mem) (puts gets : list Z) (g : Z),
  ring_ok (fst s) (snd s) -> cursors_ok (fst s) -> active_ok (fst s) ->
  Forall (call_ok (fst s)) ks ->
  0 <= g < TotalDescriptorCount (fst s) ->
  GetPtr (fst s) = slot (VirtPtr (fst s)) g ->
  puts = gets ++ window (fst s) g (Z.to_nat (ActiveDescriptorCount (fst s))) ->
  let s' := calls ks s in
  exists g', 0 <= g' < TotalDescriptorCount (fst s') /\
    GetPtr (fst s') = slot (VirtPtr (fst s')) g' /\
    fst (journal ks s puts gets)
    = snd (journal ks s puts gets)
      ++ window (fst s') g' (Z.to_nat (ActiveDescriptorCount (fst s'))).
Proof.
  induction ks as [|k ks IH]; intros s puts gets g Hr Hcu Ha Hoks Hg HG Hp.
  - cbn. exists g. auto.
  - pose proof (Forall_inv Hoks) as Hok.
    pose proof (Forall_inv_tail Hoks) as Hoks'.
    destruct (ring_cursors_call k s Hr Hcu Hok) as (Hr' & Hcu').
    pose proof (active_ok_call k s Hr Hcu Hok Ha) as Ha'.
    destruct (call_fields k s) as (HT & HV & _).
    assert (Hoks1 : Forall (call_ok (fst (snd (call k s)))) ks).
    { revert Hoks'. apply Forall_impl. intros k'.
      apply call_ok_fields; assumption. }
    cbn [calls fold_left journal].
    change (fold_left (fun s k => snd (call k s)) ks (snd (call k s)))
      with (calls ks (snd (call k s))).
    pose proof Hr as (HS & HVpos & HN & Hnext).
    pose proof Ha as (HA & HN32 & (g0 & Hg0 & HG0 & HP0) & _).
    assert (g0 = g).
    { rewrite HG in HG0. apply (ring_slot_inj (fst s)) in HG0; [|exact HS].
      congruence. }
    subst g0. clear Hoks Hok Hoks'. destruct s as [c m]. cbn [fst snd] in *.
    destruct k as [src| |].
    + unfold put_succeeds. rewrite call_put in *. cbn [fst snd] in *.
      destruct (put_cases c m src) as [(Es & H1 & H2 & H3)|(Ef & E)].
      * rewrite Es.
        destruct (XStatus_eq_dec XST_SUCCESS XST_SUCCESS); [|congruence].
        apply (IH _ _ _ g); cbn [fst snd]; try assumption.
        -- rewrite HT. exact Hg.
        -- rewrite HV. rewrite put_success by assumption. cbv zeta.
           cbn [fst snd GetPtr]. exact HG.
        -- rewrite (window_shape c _ g _ HV HT).
           rewrite put_success by assumption. cbv zeta.
           cbn [fst snd ActiveDescriptorCount].
           rewrite wrap32_small by lia.
           replace (Z.to_nat (ActiveDescriptorCount c + 1))
             with (S (Z.to_nat (ActiveDescriptorCount c))) by lia.
           rewrite window_snoc, Z2Nat.id by lia.
           rewrite Hp, HP0, app_assoc. reflexivity.
      * destruct (XStatus_eq_dec _ XST_SUCCESS); [contradiction|].
        apply (IH _ _ _ g); cbn [fst snd]; try assumption.
        -- rewrite HT. exact Hg.
        -- rewrite E. cbn [fst snd]. exact HG.
        -- rewrite E. cbn [fst snd]. exact Hp.
    + rewrite call_commit in *. cbn [fst snd] in *.
      pose proof (commit_puts_effect c m) as Hc.
      destruct (XDmaChannel_CommitPuts c m) as [[st c'] m'].
      cbn [fst snd] in *.
      apply (IH _ _ _ g); cbn [fst snd]; try assumption.
      * rewrite HT. exact Hg.
      * destruct Hc as [(-> & _)|(_ & _ & -> & _)]; exact HG.
      * rewrite (window_shape c c' g _ HV HT).
        destruct Hc as [(-> & _)|(_ & _ & -> & _)]; exact Hp.
    + rewrite call_get in *. cbn [fst snd] in *.
      unfold XDmaChannel_GetDescriptor in *.
      destruct (Z.eqb_spec (TotalDescriptorCount c) 0).
      { cbn [fst snd] in *. apply (IH _ _ _ g); cbn [fst snd]; assumption. }
      unfold XDmaChannel_IsSgListEmpty in *.
      destruct (Z.eqb_spec (ActiveDescriptorCount c) 0).
      { cbn [fst snd] in *. apply (IH _ _ _ g); cbn [fst snd]; assumption. }
      cbn [fst snd] in *.
      apply (IH _ _ _ ((g + 1) mod TotalDescriptorCount c));
        cbn [fst snd]; try assumption.
      * rewrite HT. apply Z.mod_pos_bound. lia.
      * rewrite HV. unfold set_ActiveDescriptorCount, set_GetPtr.
        cbn [GetPtr]. rewrite HG. apply Hnext. exact Hg.
      * rewrite (window_shape c _ _ _ HV HT).
        unfold set_ActiveDescriptorCount, set_GetPtr.
        cbn [ActiveDescriptorCount].
        rewrite wrap32_small by lia.
        rewrite Hp, <- app_assoc. f_equal.
        replace (Z.to_nat (ActiveDescriptorCount c))
          with (S (Z.to_nat (ActiveDescriptorCount c - 1))) by lia.
        rewrite window_cons by exact Hg. rewrite HG. reflexivity.
Qed.

(** X7.  Get hands descriptors out in the order put wrote them.  Take a
    list created on a proper region and any sequence of put, commit and
    get calls on it in which every put is given a descriptor that is one
    of the list or shares no byte with any of it.  The descriptors the
    successful puts wrote, in order, are the descriptors the successful
    gets handed out, in order, followed by the active descriptors from
    GetPtr on; so the k-th descriptor handed out is the k-th written, and
    ActiveDescriptorCount is the number of successful puts less the number
    of successful gets. *)
Theorem get_follows_put_order (c0 : XDmaChannel) (m0 : Mem)
  (MemoryPtr ByteCount PhysPtr : Z) (fuel : nat)
  (c : XDmaChannel) (m : Mem) (ks : list Call) :
  region_ok MemoryPtr ByteCount PhysPtr ->
  XDmaChannel_CreateSgList fuel c0 m0 MemoryPtr ByteCount PhysPtr
  = Some (XST_SUCCESS, c, m) ->
  Forall (call_ok c) ks ->
  let puts := fst (journal ks (c, m) [] []) in
  let gets := snd (journal ks (c, m) [] []) in
  let c' := fst (calls ks (c, m)) in
  exists rest,
    puts = gets ++ rest /\
    Z.of_nat (length puts) - Z.of_nat (length gets)
    = ActiveDescriptorCount c' /\
    exists g, GetPtr c' = slot MemoryPtr g /\
      rest = window c' g (Z.to_nat (ActiveDescriptorCount c')).
Proof.
  intros Hreg E Hoks puts gets c'.
  destruct (active_created _ _ _ _ _ _ _ _ Hreg E) as (Ec & Hr & Hcu & Ha).
  pose proof (region_count _ _ _ Hreg) as (HN1 & _).
  destruct (journal_fifo ks (c, m) [] []
              (ByteCount / sizeof_XBufDescriptor - 1) Hr Hcu Ha Hoks)
    as (g' & Hg' & HG' & Hj).
  - cbn [fst]. rewrite Ec. cbn. lia.
  - cbn [fst]. rewrite Ec. reflexivity.
  - cbn [fst]. rewrite Ec. reflexivity.
  - assert (Hreach : reachable_ok (c, m) (puts_succeeded false ks (c, m))
                       (calls ks (c, m)))
      by (apply reachable_ok_calls; [exact Hoks | constructor]).
    destruct (active_reachable (c, m) _ _ Hr Hcu Ha Hreach)
      as (_ & _ & Ha' & HV & _).
    assert (HVc : VirtPtr c = MemoryPtr) by (rewrite Ec; reflexivity).
    cbn [fst] in HV. rewrite HVc in HV.
    fold c' in HV, Hj, HG', Ha'. fold puts gets in Hj.
    exists (window c' g' (Z.to_nat (ActiveDescriptorCount c'))).
    split; [exact Hj|]. split.
    + rewrite Hj, length_app, window_length.
      destruct Ha' as (HA & _). lia.
    + exists g'. split; [rewrite <- HV; exact HG' | reflexivity].
Qed.

(** X8.  A commit that follows a successful put succeeds.  Take a state
    that put, commit and get calls lead to from a list created on a
    proper region, and a put that succeeds there.  The put adds one to
    ActiveDescriptorCount.  When LastPtr was not NULL before the put,
    CommitPtr is not NULL after it and the commit called next returns
    Success.  LastPtr is not NULL in every state reached by calls whose
    puts were each given a descriptor that is one of the list or shares
    no byte with any of it. *)
Theorem commit_after_put_succeeds (c0 : XDmaChannel) (m0 : Mem)
  (MemoryPtr ByteCount PhysPtr : Z) (fuel : nat)
  (c : XDmaChannel) (m : Mem) (b : bool) (s : XDmaChannel * Mem)
  (src : Z) :
  region_ok MemoryPtr ByteCount PhysPtr ->
  XDmaChannel_CreateSgList fuel c0 m0 MemoryPtr ByteCount PhysPtr
  = Some (XST_SUCCESS, c, m) ->
  reachable (c, m) b s ->
  fst (call (CallPut src) s) = XST_SUCCESS ->
  let s1 := snd (call (CallPut src) s) in
  ActiveDescriptorCount (fst s1) = ActiveDescriptorCount (fst s) + 1 /\
  (LastPtr (fst s) <> 0 ->
     CommitPtr (fst s1) <> 0 /\ fst (call CallCommit s1) = XST_SUCCESS) /\
  (reachable_ok (c, m) b s -> LastPtr (fst s) <> 0).
Proof.
  intros Hreg E Hreach Es s1.
  destruct (active_created _ _ _ _ _ _ _ _ Hreg E) as (Ec & Hr & Hcu & Ha).
  pose proof Ha as (HA0 & HN32 & _).
  pose proof (count_reachable (c, m) s b HA0 HN32 Hreach) as HA.
  destruct (fields_reachable (c, m) s b Hreach) as (HT & _).
  cbn [fst] in HA.
  assert (Hlast : reachable_ok (c, m) b s -> LastPtr (fst s) <> 0).
  { intros Hok.
    destruct (active_reachable (c, m) s b Hr Hcu Ha Hok)
      as ((HS & HVpos & HN & _) & _ & (_ & _ & _ & (j & Hj & HL)) & _).
    rewrite HL. unfold slot. nia. }
  destruct s as [cs ms]. cbn [fst snd] in *.
  subst s1. rewrite call_put in *. cbn [fst snd] in *.
  apply (put_status cs ms src) in Es. destruct Es as (H1 & H2 & H3).
  rewrite put_success by assumption. cbv zeta. cbn [fst snd].
  cbn [CommitPtr ActiveDescriptorCount].
  rewrite wrap32_small by lia.
  split; [reflexivity|]. split; [|exact Hlast].
  intros HL0.
  assert (Hc : (if CommitPtr cs =? 0 then LastPtr cs else CommitPtr cs) <> 0).
  { destruct (Z.eqb_spec (CommitPtr cs) 0); assumption. }
  split; [exact Hc|].
  rewrite call_commit. cbn [fst snd].
  unfold XDmaChannel_CommitPuts, XDmaChannel_IsSgListEmpty.
  cbn [CommitPtr ActiveDescriptorCount].
  destruct (Z.eqb_spec (if CommitPtr cs =? 0 then LastPtr cs
                        else CommitPtr cs) 0); [contradiction|].
  destruct (Z.eqb_spec (ActiveDescriptorCount cs + 1) 0); [lia|].
  reflexivity.
Qed.

End ActiveProperties.

(** * Addresses and creation *)

Section CreationProperties.

Context {H : XDmaHeaders}.

Lemma translate_back (a b v : Z) :
  wrap32 (a + wrap32 (wrap32 (b + wrap32 (v - a)) - b)) = wrap32 v.
Proof.
  unfold wrap32.
  rewrite Zplus_mod_idemp_r.
  replace (a + ((b + (v - a) mod 2 ^ 32) mod 2 ^ 32 - b))
    with ((b + (v - a) mod 2 ^ 32) mod 2 ^ 32 + (a - b)) by lia.
  rewrite Zplus_mod_idemp_l.
  replace (b + (v - a) mod 2 ^ 32 + (a - b))
    with ((v - a) mod 2 ^ 32 + a) by lia.
  rewrite Zplus_mod_idemp_l. f_equal. lia.
Qed.

(** X9.  The two address translations undo each other wherever neither
    meets NULL.  For a 32-bit virtual address whose translation is not
    NULL, translating back gives the address again, and the same for a
    physical address; NULL translates to NULL both ways, so an address
    other than NULL whose translation is NULL does not come back. *)
Theorem address_translation_round_trip (c : XDmaChannel) (v p : Z) :
  is_u32 v -> is_u32 p ->
  (V_TO_P c v <> 0 -> P_TO_V c (V_TO_P c v) = v) /\
  (P_TO_V c p <> 0 -> V_TO_P c (P_TO_V c p) = p) /\
  P_TO_V c 0 = 0 /\ V_TO_P c 0 = 0 /\
  (v <> 0 -> V_TO_P c v = 0 -> P_TO_V c (V_TO_P c v) <> v) /\
  (p <> 0 -> P_TO_V c p = 0 -> V_TO_P c (P_TO_V c p) <> p).
Proof.
  intros Hv Hp. split; [|split; [|split; [|split; [|split]]]].
  - intros Hne. unfold P_TO_V. destruct (Z.eqb_spec (V_TO_P c v) 0);
      [contradiction|].
    unfold V_TO_P in *. destruct (Z.eqb_spec v 0); [contradiction|].
    rewrite translate_back. apply wrap32_small. exact Hv.
  - intros Hne. unfold V_TO_P. destruct (Z.eqb_spec (P_TO_V c p) 0);
      [contradiction|].
    unfold P_TO_V in *. destruct (Z.eqb_spec p 0); [contradiction|].
    rewrite translate_back. apply wrap32_small. exact Hp.
  - reflexivity.
  - reflexivity.
  - intros Hne E. rewrite E. cbn. congruence.
  - intros Hne E. rewrite E. cbn. congruence.
Qed.

(** X10.  What creation writes.  On a proper region and a channel without
    a list, creation gives every word but the next pointer of each of the
    floor(ByteCount / sizeof(BD)) descriptors the value the initializer
    stores, leaves every word of memory that shares no byte with a word
    of these descriptors as it was, and keeps RegBaseAddress and IsReady
    of the channel. *)
Theorem create_initializes_only_the_region (c0 : XDmaChannel) (m0 : Mem)
  (MemoryPtr ByteCount PhysPtr : Z) (fuel : nat) :
  region_ok MemoryPtr ByteCount PhysPtr ->
  TotalDescriptorCount c0 = 0 ->
  (Z.to_nat (ByteCount / sizeof_XBufDescriptor) <= fuel)%nat ->
  let N := ByteCount / sizeof_XBufDescriptor in
  exists c m,
    XDmaChannel_CreateSgList fuel c0 m0 MemoryPtr ByteCount PhysPtr
    = Some (XST_SUCCESS, c, m) /\
    RegBaseAddress c = RegBaseAddress c0 /\ IsReady c = IsReady c0 /\
    (forall k f, 0 <= k < N -> f <> XBD_NEXT_PTR_OFFSET ->
       load m (slot MemoryPtr k) f = XBD_INITIAL_WORD f) /\
    (forall a,
       (forall k f, 0 <= k < N ->
          words_apart a (word_at (slot MemoryPtr k) f)) ->
       m a = m0 a).
Proof.
  intros Hreg HT Hfuel N.
  destruct (create_on_region c0 m0 MemoryPtr ByteCount PhysPtr fuel
              Hreg HT Hfuel) as (m & E & _ & _ & _ & Hinit & Hframe).
  exists (created_channel c0 MemoryPtr ByteCount PhysPtr), m.
  split; [exact E|]. split; [reflexivity|]. split; [reflexivity|].
  split; [exact Hinit|].
  intros a Ha. apply Hframe. intros k f Hk.
  apply words_apart_neq, Ha, Hk.
Qed.

(** X11.  A list is created once.  After a creation on a proper region has
    succeeded, in every state the list calls lead to a further creation
    returns ListExists and changes nothing, whatever region it is given,
    and neither put nor get nor start returns NoList. *)
Theorem created_list_stays (c0 : XDmaChannel) (m0 : Mem)
  (MemoryPtr ByteCount PhysPtr : Z) (fuel : nat)
  (c : XDmaChannel) (m : Mem) (b : bool) (s : XDmaChannel * Mem) :
  region_ok MemoryPtr ByteCount PhysPtr ->
  XDmaChannel_CreateSgList fuel c0 m0 MemoryPtr ByteCount PhysPtr
  = Some (XST_SUCCESS, c, m) ->
  reachable (c, m) b s ->
  (forall fuel' M' B' P',
     XDmaChannel_CreateSgList fuel' (fst s) (snd s) M' B' P'
     = Some (XST_DMA_SG_LIST_EXISTS, fst s, snd s)) /\
  (forall src, fst (call (CallPut src) s) <> XST_DMA_SG_NO_LIST) /\
  fst (call CallGet s) <> XST_DMA_SG_NO_LIST /\
  (forall hw t,
     fst (fst (fst (XDmaChannel_SgStart hw (fst s) (snd s) t)))
     <> XST_DMA_SG_NO_LIST).
Proof.
  intros Hreg E Hreach.
  destruct (active_created _ _ _ _ _ _ _ _ Hreg E)
    as (Ec & (_ & _ & HN & _) & _).
  destruct (fields_reachable (c, m) s b Hreach) as (HT & _).
  cbn [fst] in HT. rewrite <- HT in HN.
  destruct s as [cs ms]. cbn [fst snd] in *.
  assert (Hz : (TotalDescriptorCount cs =? 0) = false)
    by (apply Z.eqb_neq; lia).
  split; [|split; [|split]].
  - intros fuel' M' B' P'. unfold XDmaChannel_CreateSgList.
    rewrite Hz. reflexivity.
  - intros src. rewrite call_put. cbn [fst snd].
    intros En. apply (put_status cs ms src) in En. lia.
  - rewrite call_get. cbn [fst snd]. unfold XDmaChannel_GetDescriptor.
    rewrite Hz. destruct (XDmaChannel_IsSgListEmpty cs); discriminate.
  - intros hw t. unfold XDmaChannel_SgStart. rewrite Hz.
    destruct (XDmaChannel_IsSgListEmpty cs); [discriminate|].
    destruct (XIo_In32 hw t _) as [r t1].
    destruct (bits_set r _); [discriminate|].
    destruct (P_TO_V_In32 hw cs t1 _) as [L t2].
    destruct (L =? 0); [discriminate|].
    destruct (Z.land _ _ =? 0); [discriminate|].
    destruct (P_TO_V cs _ =? CommitPtr cs); discriminate.
Qed.

(** X12.  The list just created is empty.  Right after a creation on a
    proper region, get returns ListEmpty and commit NothingToCommit, both
    changing nothing, and start returns ListEmpty without touching a
    register.  A first put succeeds unless the flags word the initializer
    stores has the locked bit, in which case it returns BdLocked. *)
Theorem fresh_list_is_empty (c0 : XDmaChannel) (m0 : Mem)
  (MemoryPtr ByteCount PhysPtr : Z) (fuel : nat)
  (c : XDmaChannel) (m : Mem) :
  region_ok MemoryPtr ByteCount PhysPtr ->
  XDmaChannel_CreateSgList fuel c0 m0 MemoryPtr ByteCount PhysPtr
  = Some (XST_SUCCESS, c, m) ->
  XDmaChannel_IsSgListEmpty c = true /\
  XDmaChannel_GetDescriptor c m = (XST_DMA_SG_LIST_EMPTY, None, c, m) /\
  XDmaChannel_CommitPuts c m = (XST_DMA_SG_NOTHING_TO_COMMIT, c, m) /\
  (forall hw t,
     XDmaChannel_SgStart hw c m t = (XST_DMA_SG_LIST_EMPTY, c, m, t)) /\
  (forall src,
     fst (fst (XDmaChannel_PutDescriptor c m src)) =
     if bits_set (XBD_INITIAL_WORD XBD_FLAGS_OFFSET) XBD_FLAGS_LOCKED_MASK
     then XST_DMA_SG_BD_LOCKED else XST_SUCCESS).
Proof.
  intros Hreg E.
  destruct (create_success_inv _ _ _ _ _ _ _ _ Hreg E) as (HT & E').
  destruct (create_on_region c0 m0 MemoryPtr ByteCount PhysPtr
              (Z.to_nat (ByteCount / sizeof_XBufDescriptor) + fuel) Hreg HT)
    as (m1 & E1 & _ & _ & _ & Hinit & _); [lia|].
  rewrite E1 in E'. injection E' as Ec Em.
  pose proof (region_count _ _ _ Hreg) as (HN1 & _).
  assert (Hz : (TotalDescriptorCount c =? 0) = false).
  { subst c. cbn. apply Z.eqb_neq. lia. }
  assert (Ha : ActiveDescriptorCount c = 0) by (subst c; reflexivity).
  assert (Hc : CommitPtr c = 0) by (subst c; reflexivity).
  split; [|split; [|split; [|split]]].
  - unfold XDmaChannel_IsSgListEmpty. rewrite Ha. reflexivity.
  - unfold XDmaChannel_GetDescriptor, XDmaChannel_IsSgListEmpty.
    rewrite Hz, Ha. reflexivity.
  - unfold XDmaChannel_CommitPuts. rewrite Hc. reflexivity.
  - intros hw t. unfold XDmaChannel_SgStart, XDmaChannel_IsSgListEmpty.
    rewrite Hz, Ha. reflexivity.
  - intros src. unfold XDmaChannel_PutDescriptor. rewrite Hz, Ha.
    assert (Hn : (0 =? TotalDescriptorCount c) = false).
    { rewrite Z.eqb_sym. exact Hz. }
    rewrite Hn. unfold XBufDescriptor_IsLocked.
    assert (Hf : load m (PutPtr c) XBD_FLAGS_OFFSET
                 = XBD_INITIAL_WORD XBD_FLAGS_OFFSET).
    { subst c m. cbn [PutPtr created_channel]. apply Hinit;
        [lia | discriminate]. }
    rewrite Hf.
    destruct (bits_set (XBD_INITIAL_WORD XBD_FLAGS_OFFSET)
                XBD_FLAGS_LOCKED_MASK); reflexivity.
Qed.

End CreationProperties.


(** * Registers *)

Lemma last_written_app (a : Z) (t u : Trace) :
  last_written a (t ++ u)
  = match last_written a u with
    | Some v => Some v
    | None => last_written a t
    end.
Proof.
  induction t as [|e t IH]; cbn [app last_written].
  - destruct (last_written a u); reflexivity.
  - rewrite IH. destruct (last_written a u); reflexivity.
Qed.

Lemma last_written_read (a b v : Z) (t : Trace) :
  last_written a (t ++ [IoIn b v]) = last_written a t.
Proof. rewrite last_written_app. reflexivity. Qed.

Lemma last_written_write (a v : Z) (t : Trace) :
  last_written a (t ++ [IoOut a v]) = Some v.
Proof. rewrite last_written_app. cbn. rewrite Z.eqb_refl. reflexivity. Qed.

Lemma last_written_write_other (a b v : Z) (t : Trace) :
  b <> a -> last_written a (t ++ [IoOut b v]) = last_written a t.
Proof.
  intros Hb. rewrite last_written_app. cbn.
  destruct (Z.eqb_spec b a); [contradiction | reflexivity].
Qed.

Lemma writes_to_app (a : Z) (t u : Trace) :
  writes_to a (t ++ u) = writes_to a t + writes_to a u.
Proof.
  induction t as [|[b v|b v] t IH]; cbn [app writes_to]; lia.
Qed.

Lemma register_file_reads_back (a : Z) : reads_back register_file a.
Proof. intros t v E. unfold register_file. rewrite E. reflexivity. Qed.

Section RegisterProperties.

Context {H : XDmaHeaders} {K : XDmaCoalescingHeaders}.

Variable hw : Hardware.

(** X13.  The threshold and the wait bound come back as they were set.  On
    registers that read back the value last written, the threshold read
    right after setting an 8-bit threshold is that threshold and the wait
    bound read right after setting one (below 1024, as the function
    asserts) is that wait bound; setting the threshold always returns
    Success, and whatever the register holds the threshold read is its low
    eight bits, below 256. *)
Theorem threshold_and_wait_bound_round_trip (c : XDmaChannel) (t : Trace)
  (Threshold WaitBound : Z) :
  reads_back hw (reg c XDC_PCT_REG_OFFSET) ->
  reads_back hw (reg c XDC_PWB_REG_OFFSET) ->
  0 <= Threshold < 2 ^ 8 ->
  0 <= WaitBound < 1024 ->
  fst (XDmaChannel_SetPktThreshold c t Threshold) = XST_SUCCESS /\
  fst (XDmaChannel_GetPktThreshold hw c
         (snd (XDmaChannel_SetPktThreshold c t Threshold))) = Threshold /\
  fst (XDmaChannel_GetPktWaitBound hw c
         (XDmaChannel_SetPktWaitBound c t WaitBound)) = WaitBound /\
  (forall t',
     fst (XDmaChannel_GetPktThreshold hw c t')
     = hw t' (reg c XDC_PCT_REG_OFFSET) mod 2 ^ 8 /\
     0 <= fst (XDmaChannel_GetPktThreshold hw c t') < 2 ^ 8).
Proof.
  intros Hpct Hpwb Hth _. split; [reflexivity|]. split; [|split].
  - unfold XDmaChannel_GetPktThreshold, XDmaChannel_SetPktThreshold,
      XIo_In32, XIo_Out32. cbn [fst snd].
    rewrite (Hpct _ Threshold) by apply last_written_write.
    apply Z.mod_small. exact Hth.
  - unfold XDmaChannel_GetPktWaitBound, XDmaChannel_SetPktWaitBound,
      XIo_In32, XIo_Out32. cbn [fst].
    apply Hpwb. apply last_written_write.
  - intros t'. unfold XDmaChannel_GetPktThreshold, XIo_In32. cbn [fst].
    split; [reflexivity|]. apply Z.mod_pos_bound. lia.
Qed.

Lemma decrement_step (c : XDmaChannel) (t : Trace) (n0 : Z) :
  counts_down hw (reg c XDC_UPC_REG_OFFSET) n0 ->
  writes_to (reg c XDC_UPC_REG_OFFSET) t <= n0 ->
  writes_to (reg c XDC_UPC_REG_OFFSET) (XDmaChannel_DecrementPktCount hw c t)
  = Z.min n0 (writes_to (reg c XDC_UPC_REG_OFFSET) t + 1).
Proof.
  intros Hc Hw. unfold XDmaChannel_DecrementPktCount, XIo_In32, XIo_Out32.
  cbv zeta. rewrite (Hc t Hw).
  destruct (Z.ltb_spec 0 (n0 - writes_to (reg c XDC_UPC_REG_OFFSET) t)).
  - rewrite !writes_to_app. cbn [writes_to]. rewrite Z.eqb_refl. lia.
  - rewrite writes_to_app. cbn [writes_to]. lia.
Qed.

Lemma decrement_times_writes (c : XDmaChannel) (n0 : Z) (k : nat) :
  counts_down hw (reg c XDC_UPC_REG_OFFSET) n0 ->
  forall t,
  writes_to (reg c XDC_UPC_REG_OFFSET) t <= n0 ->
  writes_to (reg c XDC_UPC_REG_OFFSET) (decrement_times hw k c t)
  = Z.min n0 (writes_to (reg c XDC_UPC_REG_OFFSET) t + Z.of_nat k).
Proof.
  intros Hc. induction k as [|k IH]; intros t Hw.
  - cbn [decrement_times]. lia.
  - cbn [decrement_times]. pose proof (decrement_step c t n0 Hc Hw) as Hs.
    rewrite IH by lia. rewrite Hs. lia.
Qed.

(** X14.  The packet count is never driven below zero.  On a count
    register that starts at n0 and that every write lowers by one, k calls
    of DecrementPktCount make min(n0, k) writes in all, each of the value
    1 and only while the count read is not zero, and the count read
    afterwards is max(0, n0 - k): a call on a count of 0 makes no write. *)
Theorem decrement_pkt_count_stops_at_zero (c : XDmaChannel) (n0 : Z)
  (k : nat) :
  counts_down hw (reg c XDC_UPC_REG_OFFSET) n0 ->
  0 <= n0 ->
  let a := reg c XDC_UPC_REG_OFFSET in
  writes_to a (decrement_times hw k c []) = Z.min n0 (Z.of_nat k) /\
  fst (XDmaChannel_GetPktCount hw c (decrement_times hw k c []))
  = Z.max 0 (n0 - Z.of_nat k) /\
  (forall t,
     XDmaChannel_DecrementPktCount hw c t
     = t ++ IoIn a (hw t a) :: (if 0 <? hw t a then [IoOut a 1] else [])).
Proof.
  intros Hc Hn a.
  pose proof (decrement_times_writes c n0 k Hc [] ltac:(cbn; lia)) as Hw.
  cbn [writes_to] in Hw. rewrite Z.add_0_l in Hw.
  split; [exact Hw|]. split.
  - unfold XDmaChannel_GetPktCount, XIo_In32. cbn [fst].
    rewrite Hc by (rewrite Hw; lia). rewrite Hw. lia.
  - intros t. unfold XDmaChannel_DecrementPktCount, XIo_In32, XIo_Out32.
    cbv zeta. fold a. destruct (0 <? hw t a).
    + rewrite <- app_assoc. reflexivity.
    + reflexivity.
Qed.

Lemma wait_sg_idle_last_written (a : Z) (fuel : nat) (c : XDmaChannel) :
  forall t t', wait_sg_idle hw fuel c t = Some t' ->
  last_written a t' = last_written a t.
Proof.
  induction fuel as [|fuel IH]; intros t t' E; [discriminate|].
  cbn [wait_sg_idle] in E. unfold XIo_In32 in E. cbv zeta in E.
  destruct (bits_set _ _).
  - rewrite (IH _ _ E). apply last_written_read.
  - injection E as <-. apply last_written_read.
Qed.

Lemma p_to_v_in32_last_written (a : Z) (c : XDmaChannel) (t : Trace)
  (b : Z) :
  last_written a (snd (P_TO_V_In32 hw c t b)) = last_written a t.
Proof.
  unfold P_TO_V_In32, XIo_In32. cbv zeta.
  destruct (hw t b =? 0); cbn [snd];
    rewrite ?last_written_read; reflexivity.
Qed.

(** X15.  A stop right after a stop that succeeded finds the engine
    stopped.  On a software control register that reads back the value
    last written, once a stop has returned Success the next stop reads the
    value the first one wrote, whose enable bit is clear, returns
    IsStopped and writes nothing. *)
Theorem stop_after_stop (c : XDmaChannel) (m : Mem) (t : Trace)
  (fuel : nat) (out : option Z) (c' : XDmaChannel) (m' : Mem) (t' : Trace) :
  reads_back hw (reg c XDC_SWCR_REG_OFFSET) ->
  XDmaChannel_SgStop hw fuel c m t = Some (XST_SUCCESS, out, c', m', t') ->
  let a := reg c XDC_SWCR_REG_OFFSET in
  let written := Z.land (hw t a) (not32 XDC_SWCR_SG_ENABLE_MASK) in
  last_written a t' = Some written /\
  forall fuel',
    XDmaChannel_SgStop hw fuel' c' m' t'
    = Some (XST_DMA_SG_IS_STOPPED, None, c', m', t' ++ [IoIn a written]).
Proof.
  intros Hrb E a written.
  unfold XDmaChannel_SgStop in E. unfold XIo_In32 at 1 in E.
  cbv zeta in E. fold a in E.
  destruct (Z.land (hw t a) XDC_SWCR_SG_ENABLE_MASK =? 0); [discriminate|].
  unfold XIo_Out32 in E.
  destruct (wait_sg_idle hw fuel c _) as [t3|] eqn:Ew; [|discriminate].
  pose proof (p_to_v_in32_last_written a c t3 (reg c XDC_BDA_REG_OFFSET))
    as Hl.
  destruct (P_TO_V_In32 hw c t3 _) as [bd t4]. cbn [snd] in Hl.
  injection E as _ <- <- <-.
  assert (Hw : last_written a t4 = Some written).
  { rewrite Hl, (wait_sg_idle_last_written a _ _ _ _ Ew).
    apply last_written_write. }
  split; [exact Hw|].
  intros fuel'. unfold XDmaChannel_SgStop, XIo_In32. cbv zeta.
  rewrite (Hrb _ _ Hw). unfold written at 1.
  rewrite land_not32_mask. reflexivity.
Qed.

Lemma start_success_trace (c : XDmaChannel) (m : Mem) (t : Trace)
  (c' : XDmaChannel) (m' : Mem) (t' : Trace) :
  XDmaChannel_SgStart hw c m t = (XST_SUCCESS, c', m', t') ->
  c' = c /\ m' = m /\ exists t0, t' = enable_sg hw c t0.
Proof.
  unfold XDmaChannel_SgStart.
  destruct (TotalDescriptorCount c =? 0); [discriminate|].
  destruct (XDmaChannel_IsSgListEmpty c); [discriminate|].
  destruct (XIo_In32 hw t _) as [r t1].
  destruct (bits_set r _); [discriminate|].
  destruct (P_TO_V_In32 hw c t1 _) as [L t2].
  destruct (L =? 0).
  - intros E. injection E as <- <- <-. eauto.
  - destruct (Z.land _ _ =? 0); [discriminate|].
    destruct (P_TO_V c _ =? CommitPtr c); [discriminate|].
    intros E. injection E as <- <- <-. eauto.
Qed.

(** X16.  A stop after a start that succeeded does not find the engine
    stopped.  On a software control register that reads back the value
    last written and that is not at the address of the control register,
    a successful start leaves the enable bit set in it, so the next stop
    clears it and waits for the engine: whenever it returns, it returns
    Success, and it does return, after a single read of the status
    register, when that register does not show scatter gather busy. *)
Theorem stop_after_start (c : XDmaChannel) (m : Mem) (t : Trace)
  (c' : XDmaChannel) (m' : Mem) (t' : Trace) :
  reads_back hw (reg c XDC_SWCR_REG_OFFSET) ->
  reg c XDC_DMAC_REG_OFFSET <> reg c XDC_SWCR_REG_OFFSET ->
  XDmaChannel_SgStart hw c m t = (XST_SUCCESS, c', m', t') ->
  Z.testbit (hw t' (reg c XDC_SWCR_REG_OFFSET)) 31 = true /\
  (forall fuel r,
     XDmaChannel_SgStop hw fuel c' m' t' = Some r ->
     fst (fst (fst (fst r))) = XST_SUCCESS) /\
  ((forall t0, bits_set (hw t0 (reg c XDC_DMAS_REG_OFFSET))
                 XDC_DMASR_SG_BUSY_MASK = false) ->
   forall fuel, exists r,
     XDmaChannel_SgStop hw (S fuel) c' m' t' = Some r /\
     fst (fst (fst (fst r))) = XST_SUCCESS).
Proof.
  intros Hrb Hne E.
  destruct (start_success_trace _ _ _ _ _ _ E) as (-> & -> & t0 & ->).
  set (a := reg c XDC_SWCR_REG_OFFSET) in *.
  assert (Hw : last_written a (enable_sg hw c t0)
               = Some (Z.lor (hw t0 a) XDC_SWCR_SG_ENABLE_MASK)).
  { unfold enable_sg, XIo_In32, XIo_Out32. cbv zeta. fold a.
    rewrite last_written_write_other by exact Hne.
    rewrite last_written_read. apply last_written_write. }
  assert (Hbit : Z.testbit (hw (enable_sg hw c t0) a) 31 = true).
  { rewrite (Hrb _ _ Hw). rewrite Z.lor_spec.
    change XDC_SWCR_SG_ENABLE_MASK with (2 ^ 31).
    rewrite Z.pow2_bits_true by lia. apply orb_true_r. }
  split; [exact Hbit|].
  assert (Hon : (Z.land (hw (enable_sg hw c t0) a)
                   XDC_SWCR_SG_ENABLE_MASK =? 0) = false).
  { apply Z.eqb_neq. intros E0. apply enable_bit_test in E0. congruence. }
  split.
  - intros fuel r. unfold XDmaChannel_SgStop, XIo_In32 at 1. cbv zeta.
    fold a. rewrite Hon.
    destruct (wait_sg_idle hw fuel c _); [|discriminate].
    destruct (P_TO_V_In32 hw c _ _). intros Er. injection Er as <-.
    reflexivity.
  - intros Hidle fuel. unfold XDmaChannel_SgStop, XIo_In32 at 1. cbv zeta.
    fold a. rewrite Hon.
    cbn [wait_sg_idle]. unfold XIo_In32 at 1. rewrite Hidle.
    destruct (P_TO_V_In32 hw c _ _). eexists. split; reflexivity.
Qed.

End RegisterProperties.

(** * A run of puts and its commit *)

Section RunProperties.

Context {H : XDmaHeaders}.

Lemma mod_apart (x y n : Z) : 0 < x - y < n -> x mod n <> y mod n.
Proof.
  intros Hd E.
  assert (E' : (x - y) mod n = 0).
  { rewrite Zminus_mod, E, Z.sub_diag. apply Z.mod_0_l. lia. }
  rewrite Z.mod_small in E' by lia. lia.
Qed.

Lemma slot_mod_ne (V x y n : Z) :
  0 < sizeof_XBufDescriptor -> 0 < x - y < n ->
  slot V (x mod n) <> slot V (y mod n).
Proof.
  intros HS Hd E. apply (mod_apart x y n Hd). unfold slot in E. nia.
Qed.

Lemma slot_mod_apart (V x y n : Z) :
  0 < sizeof_XBufDescriptor -> 0 < x - y < n ->
  apart (slot V (x mod n)) (slot V (y mod n)).
Proof.
  intros HS Hd. apply slots_apart; [exact HS|]. apply mod_apart. exact Hd.
Qed.

Lemma copy_prepare_other (m : Mem) (src p q : Z) (f : XBD_Offset) :
  apart q p -> apart q src ->
  load (CopyBufferDescriptor (prepare_descriptor m src) src p) q f
  = load m q f.
Proof.
  intros Hp Hs. rewrite copy_other_bd by exact Hp.
  apply prepare_other_bd. exact Hs.
Qed.

(** A descriptor that shares no byte with the list fits it. *)
Lemma outside_source_ok (c : XDmaChannel) (p : Z) :
  outside_list c p -> source_ok c p.
Proof. intros Ho k Hk. right. apply Ho. exact Hk. Qed.

(** Once a put has succeeded PutPtr is the descriptor after LastPtr. *)
Lemma put_after_last (s0 s : XDmaChannel * Mem) (b : bool) :
  ring_ok (fst s0) (snd s0) -> cursors_ok (fst s0) -> active_ok (fst s0) ->
  reachable_ok s0 b s ->
  b = true ->
  exists l, 0 <= l < TotalDescriptorCount (fst s) /\
    LastPtr (fst s) = slot (VirtPtr (fst s)) l /\
    PutPtr (fst s)
    = slot (VirtPtr (fst s)) ((l + 1) mod TotalDescriptorCount (fst s)).
Proof.
  intros Hr0 Hc0 Ha0 Hreach. induction Hreach as [|b s k Hreach IH Hok].
  - discriminate.
  - destruct (active_reachable s0 s b Hr0 Hc0 Ha0 Hreach)
      as (Hr & Hcu & Ha & HV0 & HT0).
    assert (Hok' : call_ok (fst s) k)
      by (apply (call_ok_fields (fst s0)); assumption).
    clear Hok HV0 HT0.
    destruct s as [c m]. cbn [fst snd] in *.
    pose proof Hr as (HS & HV & HN & Hnext).
    pose proof Ha as (HA & HN32 & (g & Hg & HG & HP) & _).
    destruct k as [src| |].
    + unfold put_succeeds. rewrite call_put. cbn [fst snd].
      destruct (put_cases c m src) as [(Es & H1 & H2 & H3)|(Es & E)].
      * intros _.
        pose proof (fun k => put_keeps_slot_next c m src k HS HN Hcu Hok')
          as Hkeep.
        rewrite put_success in * by assumption. cbv zeta in *.
        cbn [fst snd] in *.
        cbn [TotalDescriptorCount LastPtr PutPtr VirtPtr].
        assert (Hm : 0 <= (g + ActiveDescriptorCount c)
                            mod TotalDescriptorCount c
                     < TotalDescriptorCount c)
          by (apply Z.mod_pos_bound; lia).
        exists ((g + ActiveDescriptorCount c) mod TotalDescriptorCount c).
        split; [exact Hm|]. split; [exact HP|].
        pose proof (Hkeep _ Hm) as Hkeep'. rewrite <- HP in Hkeep'.
        erewrite next_in_list_shape;
          [|reflexivity|reflexivity|exact Hkeep'].
        rewrite HP. apply Hnext. exact Hm.
      * destruct (XStatus_eq_dec _ _) as [Es'|_]; [contradiction|].
        rewrite orb_false_r. rewrite E. cbn [fst snd]. exact IH.
    + cbn [put_succeeds]. rewrite orb_false_r. rewrite call_commit.
      cbn [fst snd]. pose proof (commit_puts_effect c m) as Hc.
      destruct (XDmaChannel_CommitPuts c m) as [[st c'] m']. cbn [fst snd].
      destruct Hc as [(-> & _)|(_ & _ & -> & _)]; [exact IH|].
      cbn. exact IH.
    + cbn [put_succeeds]. rewrite orb_false_r. rewrite call_get.
      cbn [fst snd]. unfold XDmaChannel_GetDescriptor.
      destruct (TotalDescriptorCount c =? 0); [exact IH|].
      destruct (XDmaChannel_IsSgListEmpty c); [exact IH|].
      cbn. exact IH.
Qed.

(** The put that opens a run. *)
Lemma run_first (c : XDmaChannel) (m : Mem) (src l : Z)
  (c' : XDmaChannel) (m' : Mem) :
  XDC_DMACR_SG_DISABLE_MASK <> 0 ->
  ring_ok c m -> cursors_ok c -> active_ok c ->
  source_ok c src ->
  0 <= l < TotalDescriptorCount c ->
  LastPtr c = slot (VirtPtr c) l ->
  PutPtr c = slot (VirtPtr c) ((l + 1) mod TotalDescriptorCount c) ->
  CommitPtr c = 0 ->
  XDmaChannel_PutDescriptor c m src = (XST_SUCCESS, c', m') ->
  run_staged l 1 (c', m').
Proof.
  intros Hk Hr Hcu Ha Hsrc Hl HL HP HC E.
  pose proof Hr as (HS & HV & HN & Hnext).
  pose proof Ha as (HA & HN32 & _).
  assert (Hm : 0 <= (l + 1) mod TotalDescriptorCount c
               < TotalDescriptorCount c)
    by (apply Z.mod_pos_bound; lia).
  pose proof (put_keeps_slot_next c m src _ HS HN Hcu Hsrc Hm) as Hkeep.
  rewrite <- HP in Hkeep.
  rewrite E in Hkeep. cbn [snd] in Hkeep.
  destruct (put_inv _ _ _ _ _ E) as (H1 & H2 & H3).
  rewrite put_success in E by assumption. cbv zeta in E.
  assert (Ho : put_opens_tail c = false).
  { unfold put_opens_tail. rewrite HC. cbn. apply andb_false_r. }
  rewrite Ho, HC in E. cbn [Z.eqb] in E. injection E as Ec Em.
  unfold run_staged. cbn [fst snd]. rewrite <- Ec.
  cbn [TotalDescriptorCount ActiveDescriptorCount CommitPtr LastPtr PutPtr
       VirtPtr].
  rewrite wrap32_small by lia.
  split; [lia|]. split; [lia|]. split; [exact HL|]. split; [exact HP|].
  split; [|split].
  - rewrite Em.
    rewrite (next_in_list_shape c c m m' (PutPtr c) eq_refl eq_refl Hkeep).
    rewrite HP, Hnext by exact Hm.
    rewrite mod_add_one by lia. reflexivity.
  - rewrite <- Em. apply copy_prepare_sets_stop. exact Hk.
  - intros i Hi. lia.
Qed.

(** A further put of a run. *)
Lemma run_next (c : XDmaChannel) (m : Mem) (src l j : Z)
  (c' : XDmaChannel) (m' : Mem) :
  ring_ok c m -> cursors_ok c -> active_ok c ->
  0 <= l < TotalDescriptorCount c ->
  run_staged l j (c, m) ->
  outside_list c src ->
  XDmaChannel_PutDescriptor c m src = (XST_SUCCESS, c', m') ->
  run_staged l (j + 1) (c', m').
Proof.
  intros Hr Hcu Ha Hl (Hj & HjA & HC & HL & HP & Hstop & Hclear) Hout E.
  cbn [fst snd] in *.
  pose proof Hr as (HS & HV & HN & Hnext).
  pose proof Ha as (HA & HN32 & _).
  pose proof (bits_set_nonzero _ _ Hstop) as Hk.
  assert (Hm : 0 <= (l + j + 1) mod TotalDescriptorCount c
               < TotalDescriptorCount c)
    by (apply Z.mod_pos_bound; lia).
  pose proof (put_keeps_slot_next c m src _ HS HN Hcu
                (outside_source_ok c src Hout) Hm) as Hkeep.
  rewrite <- HP in Hkeep.
  rewrite E in Hkeep. cbn [snd] in Hkeep.
  destruct (put_inv _ _ _ _ _ E) as (H1 & H2 & H3).
  assert (HjN : j < TotalDescriptorCount c) by lia.
  assert (Hcl : CommitPtr c <> LastPtr c).
  { rewrite HC, HL. rewrite <- (Z.mod_small l (TotalDescriptorCount c)) at 1
      by lia.
    intros E'. symmetry in E'. revert E'. apply slot_mod_ne; [exact HS|lia]. }
  assert (Hc0 : CommitPtr c <> 0).
  { rewrite HC. unfold slot. nia. }
  assert (Ho : put_opens_tail c = true)
    by (apply put_opens_tail_true; split; assumption).
  assert (Hlp : apart (PutPtr c) (LastPtr c)).
  { rewrite HP, HL. apply slot_mod_apart; [exact HS|lia]. }
  rewrite put_success in E by assumption. cbv zeta in E.
  rewrite Ho in E. apply Z.eqb_neq in Hc0. rewrite Hc0 in E.
  injection E as Ec Em.
  set (m1 := CopyBufferDescriptor (prepare_descriptor m src) src (PutPtr c))
    in *.
  unfold run_staged. cbn [fst snd]. rewrite <- Ec.
  cbn [TotalDescriptorCount ActiveDescriptorCount CommitPtr LastPtr PutPtr
       VirtPtr].
  rewrite wrap32_small by lia.
  split; [lia|]. split; [lia|]. split; [exact HC|].
  split; [rewrite HP; f_equal; f_equal; lia|].
  split; [|split].
  - rewrite Em.
    rewrite (next_in_list_shape c c m m' (PutPtr c) eq_refl eq_refl Hkeep).
    rewrite HP, Hnext by exact Hm.
    rewrite mod_add_one by lia. f_equal. f_equal. lia.
  - rewrite <- Em. unfold stop_bit.
    rewrite clear_stop_other_bd by exact Hlp.
    apply copy_prepare_sets_stop. exact Hk.
  - intros i Hi. rewrite <- Em.
    destruct (Z.eq_dec i j) as [->|Hij].
    + rewrite <- HL. apply clear_stop_clears.
    + unfold stop_bit. rewrite clear_stop_other_bd.
      * unfold m1. rewrite copy_prepare_other.
        -- apply Hclear. lia.
        -- rewrite HP. apply apart_sym, slot_mod_apart; [exact HS|lia].
        -- apply apart_sym, Hout. apply Z.mod_pos_bound. lia.
      * rewrite HL. apply apart_sym, slot_mod_apart; [exact HS|lia].
Qed.

Lemma outside_list_call (k : Call) (s : XDmaChannel * Mem) (p : Z) :
  outside_list (fst s) p -> outside_list (fst (snd (call k s))) p.
Proof.
  destruct (call_fields k s) as (HT & HV & _).
  unfold outside_list. rewrite HT, HV. auto.
Qed.

(** The puts of a run after the first. *)
Lemma run_puts (l : Z) (srcs : list Z) :
  forall (s : XDmaChannel * Mem) (j : Z),
  ring_ok (fst s) (snd s) -> cursors_ok (fst s) -> active_ok (fst s) ->
  0 <= l < TotalDescriptorCount (fst s) ->
  run_staged l j s ->
  Forall (outside_list (fst s)) srcs ->
  Forall (eq XST_SUCCESS) (statuses (map CallPut srcs) s) ->
  let s' := calls (map CallPut srcs) s in
  ring_ok (fst s') (snd s') /\
  TotalDescriptorCount (fst s') = TotalDescriptorCount (fst s) /\
  VirtPtr (fst s') = VirtPtr (fst s) /\
  run_staged l (j + Z.of_nat (length srcs)) s'.
Proof.
  induction srcs as [|src srcs IH]; intros s j Hr Hcu Ha Hl Hrun Hout Hst.
  - cbn. rewrite Z.add_0_r. auto.
  - cbn [map statuses] in Hst.
    pose proof (Forall_inv Hst) as Es.
    pose proof (Forall_inv_tail Hst) as Hst'.
    pose proof (Forall_inv Hout) as Ho.
    pose proof (Forall_inv_tail Hout) as Hout'.
    destruct (call_fields (CallPut src) s) as (HT & HV & _).
    assert (Hok : call_ok (fst s) (CallPut src))
      by (apply outside_source_ok; exact Ho).
    destruct (ring_cursors_call (CallPut src) s Hr Hcu Hok) as (Hr1 & Hcu1).
    pose proof (active_ok_call (CallPut src) s Hr Hcu Hok Ha) as Ha1.
    set (s1 := snd (call (CallPut src) s)) in *.
    assert (Hrun1 : run_staged l (j + 1) s1).
    { destruct s as [c m]. unfold s1. rewrite call_put. cbn [fst snd].
      apply (run_next c m src l j); try assumption.
      rewrite call_put in Es. cbn [fst snd] in Es.
      apply put_result. symmetry. exact Es. }
    destruct (IH s1 (j + 1)) as (Hr' & HT' & HV' & Hrun').
    + exact Hr1.
    + exact Hcu1.
    + exact Ha1.
    + rewrite HT. exact Hl.
    + exact Hrun1.
    + eapply Forall_impl; [|exact Hout'].
      intros p. apply outside_list_call.
    + exact Hst'.
    + cbv zeta.
      change (calls (map CallPut (src :: srcs)) s)
        with (calls (map CallPut srcs) s1).
      cbn [length].
      split; [exact Hr'|].
      split; [congruence|]. split; [congruence|].
      replace (j + Z.of_nat (S (length srcs)))
        with (j + 1 + Z.of_nat (length srcs)) by lia.
      exact Hrun'.
Qed.

(** The commit of a staged run. *)
Lemma run_commit (c : XDmaChannel) (m : Mem) (l j : Z) :
  ring_ok c m -> 0 <= l < TotalDescriptorCount c ->
  run_staged l j (c, m) ->
  let r := XDmaChannel_CommitPuts c m in
  fst (fst r) = XST_SUCCESS /\
  LastPtr (snd (fst r)) = LastPtr c /\
  stop_bit (snd r) (LastPtr c) = true /\
  forall i, 0 <= i < j -> i <> 0 \/ j < TotalDescriptorCount c ->
    stop_bit (snd r) (slot (VirtPtr c) ((l + i) mod TotalDescriptorCount c))
    = false.
Proof.
  intros (HS & HV & HN & _) Hl (Hj & HjA & HC & HL & HP & Hstop & Hclear).
  cbn [fst snd] in *. cbv zeta.
  assert (Hc0 : (CommitPtr c =? 0) = false).
  { apply Z.eqb_neq. rewrite HC. unfold slot. nia. }
  assert (Ha0 : XDmaChannel_IsSgListEmpty c = false).
  { unfold XDmaChannel_IsSgListEmpty. apply Z.eqb_neq. lia. }
  unfold XDmaChannel_CommitPuts. rewrite Hc0, Ha0. cbn [orb]. cbv zeta.
  cbn [fst snd]. split; [reflexivity|]. split; [reflexivity|].
  destruct (Z.eqb_spec (CommitPtr c) (LastPtr c)) as [Ecl|Ecl]; cbn [negb].
  - assert (EjN : j = TotalDescriptorCount c).
    { destruct (Z.eq_dec j (TotalDescriptorCount c)) as [E|E]; [exact E|].
      exfalso. rewrite HC, HL in Ecl.
      rewrite <- (Z.mod_small l (TotalDescriptorCount c)) in Ecl at 1 by lia.
      symmetry in Ecl. revert Ecl. apply slot_mod_ne; [exact HS|lia]. }
    split; [exact Hstop|].
    intros i Hi [Hi0|HjN]; [|lia]. apply Hclear. lia.
  - assert (Hap : apart (LastPtr c) (CommitPtr c)).
    { revert Ecl. rewrite HC, HL. intros Ecl.
      apply slot_ne_apart; [exact HS | congruence]. }
    split.
    + unfold stop_bit. rewrite clear_stop_other_bd by exact Hap.
      exact Hstop.
    + intros i Hi Hor.
      assert (HjN : j < TotalDescriptorCount c).
      { destruct (Z.eq_dec j (TotalDescriptorCount c)) as [E|E]; [|lia].
        exfalso. apply Ecl. rewrite HC, HL. f_equal.
        rewrite E, Z.add_mod, Z.mod_same, Z.add_0_r, Z.mod_mod,
          Z.mod_small by lia.
        reflexivity. }
      destruct (Z.eq_dec i 0) as [->|Hi0].
      * rewrite Z.add_0_r, Z.mod_small by lia. rewrite <- HC.
        apply clear_stop_clears.
      * unfold stop_bit. rewrite clear_stop_other_bd.
        -- apply Hclear. lia.
        -- rewrite HC.
           rewrite <- (Z.mod_small l (TotalDescriptorCount c)) at 2 by lia.
           apply slot_mod_apart; [exact HS|lia].
Qed.

(** X17.  A committed run stops the engine at its last descriptor only.
    Take a list created on a proper region, with a stop-bit mask that is
    not zero, and a state that put, commit and get calls lead to, each put
    given a descriptor that is one of the list or shares no byte with any
    of it, in which a put has succeeded and nothing is staged (CommitPtr
    is NULL).  After n >= 1 puts that all succeed, from descriptors of the
    caller's that share no byte with a descriptor of the list, and a
    commit: the commit returns Success, LastPtr is n places after the old
    LastPtr and has its stop bit set, and the old LastPtr and the
    descriptors of the run before the last all have their stop bit clear
    (the old LastPtr being left out when the run fills the whole list and
    so ends on it). *)
Theorem committed_run_stops_at_its_tail (c0 : XDmaChannel) (m0 : Mem)
  (MemoryPtr ByteCount PhysPtr : Z) (fuel : nat)
  (c : XDmaChannel) (m : Mem) (s : XDmaChannel * Mem) (srcs : list Z) :
  XDC_DMACR_SG_DISABLE_MASK <> 0 ->
  region_ok MemoryPtr ByteCount PhysPtr ->
  XDmaChannel_CreateSgList fuel c0 m0 MemoryPtr ByteCount PhysPtr
  = Some (XST_SUCCESS, c, m) ->
  reachable_ok (c, m) true s ->
  CommitPtr (fst s) = 0 ->
  srcs <> [] ->
  Forall (outside_list (fst s)) srcs ->
  Forall (eq XST_SUCCESS) (statuses (map CallPut srcs) s) ->
  let N := ByteCount / sizeof_XBufDescriptor in
  let n := Z.of_nat (length srcs) in
  let s1 := calls (map CallPut srcs) s in
  let s2 := snd (call CallCommit s1) in
  exists l, 0 <= l < N /\
    LastPtr (fst s) = slot MemoryPtr l /\
    n <= N /\
    fst (call CallCommit s1) = XST_SUCCESS /\
    LastPtr (fst s2) = slot MemoryPtr ((l + n) mod N) /\
    stop_bit (snd s2) (LastPtr (fst s2)) = true /\
    forall i, 0 <= i < n -> i <> 0 \/ n < N ->
      stop_bit (snd s2) (slot MemoryPtr ((l + i) mod N)) = false.
Proof.
  intros Hk Hreg E Hreach HC Hne Hout Hst N n s1 s2.
  destruct (active_created _ _ _ _ _ _ _ _ Hreg E)
    as (Ec & Hr0 & Hcu0 & Ha0).
  destruct (active_reachable (c, m) s true Hr0 Hcu0 Ha0 Hreach)
    as (Hr & Hcu & Ha & HV & HT).
  destruct (put_after_last (c, m) s true Hr0 Hcu0 Ha0 Hreach eq_refl)
    as (l & Hl & HL & HP).
  cbn [fst snd] in HV, HT. rewrite Ec in HV, HT. cbn in HV, HT.
  fold N in HT. rewrite HV, HT in *.
  destruct srcs as [|src srcs]; [contradiction|].
  cbn [map statuses] in Hst.
  pose proof (Forall_inv Hst) as Es.
  pose proof (Forall_inv_tail Hst) as Hst'.
  pose proof (Forall_inv Hout) as Ho.
  pose proof (Forall_inv_tail Hout) as Hout'.
  destruct (call_fields (CallPut src) s) as (HT1 & HV1 & _).
  assert (Hok : call_ok (fst s) (CallPut src))
    by (apply outside_source_ok; exact Ho).
  destruct (ring_cursors_call (CallPut src) s Hr Hcu Hok) as (Hr1 & Hcu1).
  pose proof (active_ok_call (CallPut src) s Hr Hcu Hok Ha) as Ha1.
  set (sa := snd (call (CallPut src) s)) in *.
  assert (Hrun1 : run_staged l 1 sa).
  { destruct s as [cs ms]. unfold sa. rewrite call_put. cbn [fst snd] in *.
    apply (run_first cs ms src l); try assumption.
    - rewrite HT. exact Hl.
    - rewrite HV. exact HL.
    - rewrite HV, HT. exact HP.
    - apply put_result. rewrite call_put in Es. cbn [fst snd] in Es.
      symmetry. exact Es. }
  destruct (run_puts l srcs sa 1) as (Hr' & HT' & HV' & Hrun').
  - exact Hr1.
  - exact Hcu1.
  - exact Ha1.
  - rewrite HT1, HT. exact Hl.
  - exact Hrun1.
  - eapply Forall_impl; [|exact Hout'].
    intros p. apply outside_list_call.
  - exact Hst'.
  - assert (Es1 : s1 = calls (map CallPut srcs) sa) by reflexivity.
    rewrite <- Es1 in *. clear Es1.
    assert (En : n = 1 + Z.of_nat (length srcs)) by (unfold n; cbn [length]; lia).
    rewrite <- En in Hrun'.
    assert (HTs : TotalDescriptorCount (fst s1) = N) by congruence.
    assert (HVs : VirtPtr (fst s1) = MemoryPtr) by congruence.
    pose proof Hrun' as (Hn & _ & _ & HL1 & _).
    rewrite HTs in HL1, Hn. rewrite HVs in HL1.
    destruct (run_commit (fst s1) (snd s1) l n Hr')
      as (Eok & EL & Hs & Hcl).
    + rewrite HTs. exact Hl.
    + exact Hrun'.
    + exists l. unfold s2. rewrite call_commit. cbn [fst snd].
      rewrite HTs, HVs in Hcl. rewrite EL.
      split; [exact Hl|]. split; [exact HL|]. split; [lia|].
      split; [exact Eok|]. split; [exact HL1|].
      split; [exact Hs | exact Hcl].
Qed.

End RunProperties.

(** * Start while a run is staged *)

Section StartProperties.

Context {H : XDmaHeaders}.

Variable hw : Hardware.

(** X18.  Start tests the descriptor CommitPtr is on, which is the one
    before the staged run.  Take a list of two descriptors or more created
    on a proper region, a busy mask that is not zero, and a state that
    put, commit and get calls lead to in which a put has succeeded and
    nothing is staged; every put, and the one that follows, is given a
    descriptor that is one of the list or shares no byte with any of it.
    After one more put that succeeds, CommitPtr is the old LastPtr and the
    descriptor just written is staged behind it: a commit would succeed.
    If the engine is idle and its BDA register holds the physical address
    of the old LastPtr, start finds the descriptor just written next,
    busy and other than CommitPtr, and returns Success although no commit
    has been made. *)
Theorem start_passes_staged_descriptor (c0 : XDmaChannel) (m0 : Mem)
  (MemoryPtr ByteCount PhysPtr : Z) (fuel : nat)
  (c : XDmaChannel) (m : Mem) (s : XDmaChannel * Mem) (src : Z)
  (t : Trace) :
  XDC_DMASR_BUSY_MASK <> 0 ->
  region_ok MemoryPtr ByteCount PhysPtr ->
  XDmaChannel_CreateSgList fuel c0 m0 MemoryPtr ByteCount PhysPtr
  = Some (XST_SUCCESS, c, m) ->
  2 <= ByteCount / sizeof_XBufDescriptor ->
  reachable_ok (c, m) true s ->
  CommitPtr (fst s) = 0 ->
  source_ok (fst s) src ->
  fst (call (CallPut src) s) = XST_SUCCESS ->
  bits_set (hw t (reg (fst s) XDC_DMAS_REG_OFFSET)) XDC_DMASR_SG_BUSY_MASK
  = false ->
  (forall t', hw t' (reg (fst s) XDC_BDA_REG_OFFSET)
              = V_TO_P (fst s) (LastPtr (fst s))) ->
  let s1 := snd (call (CallPut src) s) in
  CommitPtr (fst s1) = LastPtr (fst s) /\
  LastPtr (fst s1) = PutPtr (fst s) /\
  LastPtr (fst s1) <> CommitPtr (fst s1) /\
  fst (call CallCommit s1) = XST_SUCCESS /\
  fst (fst (fst (XDmaChannel_SgStart hw (fst s1) (snd s1) t))) = XST_SUCCESS.
Proof.
  intros Hk Hreg E HN2 Hreach HC Hsrc Es Hidle Hbda s1.
  destruct (active_created _ _ _ _ _ _ _ _ Hreg E)
    as (Ec & Hr0 & Hcu0 & Ha0).
  destruct (active_reachable (c, m) s true Hr0 Hcu0 Ha0 Hreach)
    as (Hr & Hcu & Ha & HV & HT).
  destruct (put_after_last (c, m) s true Hr0 Hcu0 Ha0 Hreach eq_refl)
    as (l & Hl & HL & HP).
  destruct (fields_reachable (c, m) s true
              (reachable_ok_reachable _ _ _ Hreach)) as (_ & _ & HPh & _).
  cbn [fst snd] in HV, HT, HPh. rewrite Ec in HV, HT, HPh.
  cbn in HV, HT, HPh.
  set (N := ByteCount / sizeof_XBufDescriptor) in *.
  rewrite HV, HT in *.
  pose proof (slot_bounds _ _ _ Hreg l Hl) as (Hpos & _).
  pose proof Hreg as (HS & _).
  destruct s as [cs ms]. cbn [fst snd] in *.
  pose proof Ha as (HA & HN32 & _).
  unfold s1. rewrite call_put in *. cbn [fst snd] in *.
  assert (HN1 : 1 <= TotalDescriptorCount cs) by lia.
  assert (HTl : 0 <= l < TotalDescriptorCount cs) by lia.
  pose proof (put_keeps_slot_next cs ms src l HS HN1 Hcu Hsrc HTl) as Hkeep.
  rewrite HV, <- HL in Hkeep.
  assert (Hsp : separate src (PutPtr cs)).
  { rewrite HP, <- HV. apply Hsrc. rewrite HT. apply Z.mod_pos_bound. lia. }
  destruct (put_status cs ms src) as (_ & _ & _ & Hs).
  apply Hs in Es. destruct Es as (H1 & H2 & H3).
  rewrite put_success in * by assumption. cbv zeta in *.
  assert (Ho : put_opens_tail cs = false).
  { unfold put_opens_tail. rewrite HC. cbn. apply andb_false_r. }
  rewrite Ho, HC in *. cbn [Z.eqb fst snd] in *.
  set (m1 := CopyBufferDescriptor (prepare_descriptor ms src) src (PutPtr cs))
    in *.
  assert (Hne : PutPtr cs <> LastPtr cs).
  { rewrite HP, HL. rewrite <- (Z.mod_small l N) at 2 by lia.
    apply slot_mod_ne; [exact HS|lia]. }
  cbn [CommitPtr LastPtr].
  split; [reflexivity|]. split; [reflexivity|]. split; [exact Hne|].
  split.
  - rewrite call_commit. cbn [fst snd]. unfold XDmaChannel_CommitPuts.
    cbn [CommitPtr]. unfold XDmaChannel_IsSgListEmpty.
    cbn [ActiveDescriptorCount]. rewrite wrap32_small by lia.
    destruct (Z.eqb_spec (LastPtr cs) 0) as [E0|_]; [lia|].
    destruct (Z.eqb_spec (ActiveDescriptorCount cs + 1) 0) as [E0|_]; [lia|].
    reflexivity.
  - match goal with
    | |- context [XDmaChannel_SgStart hw ?x _ _] => set (c1 := x)
    end.
    assert (Eph : V_TO_P cs (LastPtr cs) = PhysPtr + l * sizeof_XBufDescriptor).
    { rewrite HL. apply (v_to_p_slot _ _ _ Hreg); assumption. }
    assert (Hph : PhysPtr + l * sizeof_XBufDescriptor <> 0).
    { destruct Hreg as (_ & _ & _ & _ & _ & HPp & _). nia. }
    assert (EL : P_TO_V_In32 hw c1
                   (snd (XIo_In32 hw t (reg c1 XDC_DMAS_REG_OFFSET)))
                   (reg c1 XDC_BDA_REG_OFFSET)
                 = (LastPtr cs,
                    snd (P_TO_V_In32 hw c1
                           (snd (XIo_In32 hw t (reg c1 XDC_DMAS_REG_OFFSET)))
                           (reg c1 XDC_BDA_REG_OFFSET)))).
    { destruct (p_to_v_in32 hw c1
                  (snd (XIo_In32 hw t (reg c1 XDC_DMAS_REG_OFFSET)))
                  (reg c1 XDC_BDA_REG_OFFSET)) as (_ & E2 & E3).
      change (reg c1 XDC_BDA_REG_OFFSET) with (reg cs XDC_BDA_REG_OFFSET)
        in *.
      rewrite !Hbda in E2, E3. rewrite Eph in E2, E3.
      rewrite (E2 Hph). cbn [fst snd].
      rewrite (E3 Hph eq_refl), HL.
      rewrite (p_to_v_slot _ _ _ Hreg c1 l HV HPh Hl). reflexivity. }
    unfold XDmaChannel_SgStart.
    change (TotalDescriptorCount c1) with (TotalDescriptorCount cs).
    destruct (Z.eqb_spec (TotalDescriptorCount cs) 0) as [E0|_];
      [contradiction|].
    unfold XDmaChannel_IsSgListEmpty.
    change (ActiveDescriptorCount c1)
      with (wrap32 (ActiveDescriptorCount cs + 1)).
    rewrite wrap32_small by lia.
    destruct (Z.eqb_spec (ActiveDescriptorCount cs + 1) 0) as [E0|_]; [lia|].
    destruct (XIo_In32 hw t (reg c1 XDC_DMAS_REG_OFFSET)) as [r t1] eqn:Er.
    assert (Er' : r = hw t (reg cs XDC_DMAS_REG_OFFSET)).
    { unfold XIo_In32 in Er. cbv zeta in Er. injection Er as <- _.
      reflexivity. }
    rewrite Er', Hidle. cbn [snd] in EL. rewrite EL.
    destruct (Z.eqb_spec (LastPtr cs) 0) as [E0|_]; [lia|].
    assert (En : P_TO_V c1 (XBufDescriptor_GetNextPtr m1 (LastPtr cs))
                 = PutPtr cs).
    { change (P_TO_V c1 (XBufDescriptor_GetNextPtr m1 (LastPtr cs)))
        with (next_in_list c1 m1 (LastPtr cs)).
      rewrite (next_in_list_shape cs c1 ms m1 (LastPtr cs) eq_refl eq_refl
                 Hkeep).
      destruct Hr as (_ & _ & _ & Hnext).
      rewrite HL, HP. rewrite HV, HT in Hnext. apply Hnext. exact Hl. }
    rewrite En.
    assert (Est : XBufDescriptor_GetStatus m1 (PutPtr cs)
                  = XDC_DMASR_BUSY_MASK).
    { unfold XBufDescriptor_GetStatus, m1.
      rewrite copy_transfers by (exact Hsp || discriminate).
      apply prepare_status. }
    rewrite Est, Z.land_diag.
    destruct (Z.eqb_spec XDC_DMASR_BUSY_MASK 0) as [E0|_]; [contradiction|].
    change (CommitPtr c1) with (LastPtr cs).
    destruct (Z.eqb_spec (PutPtr cs) (LastPtr cs)) as [E0|_];
      [contradiction|].
    reflexivity.
Qed.

End StartProperties.

(** * The sample list *)

Section SampleProperties.

Local Existing Instance sample_headers.
Local Existing Instance sample_coalescing_headers.

Ltac by_computation :=
  vm_compute; repeat split; try reflexivity; try discriminate.

(** A descriptor that ends before the sample region begins fits the sample
    list. *)
Lemma below_sample_source_ok (p : Z) :
  p + 40 <= 0x1000 -> source_ok (fst sample_ring) p.
Proof.
  intros Hp k Hk. right. left.
  change (TotalDescriptorCount (fst sample_ring)) with 4 in Hk.
  change (VirtPtr (fst sample_ring)) with 0x1000.
  unfold slot. change sizeof_XBufDescriptor with 40. lia.
Qed.

(** Calls on the sample list whose descriptors all end before the sample
    region begins. *)
Ltac calls_fit :=
  repeat first
    [ apply Forall_nil
    | apply Forall_cons;
      [first [exact I | apply below_sample_source_ok; lia]|] ].

(** C1, as stated, fails in the state creation returns: the list of the
    sample is reachable (by no call at all) and the descriptor at LastPtr
    has its stop bit clear. *)
Lemma fresh_list_tail_stop_bit_clear :
  sample_created = Some (XST_SUCCESS, fst sample_ring, snd sample_ring) /\
  reachable sample_ring false sample_ring /\
  stop_bit (snd sample_ring) (LastPtr (fst sample_ring)) = false /\
  ~ stop_bits_kept sample_ring.
Proof.
  split; [apply created_result; vm_compute; reflexivity|].
  split; [constructor|].
  assert (Hs : stop_bit (snd sample_ring) (LastPtr (fst sample_ring)) = false)
    by (vm_compute; reflexivity).
  split; [exact Hs|].
  intros (Hk & _). rewrite Hs in Hk. discriminate.
Qed.

(** C1 (amended) on the sample: after two puts, a commit and a get. *)
Lemma stop_bits_kept_on_sample :
  stop_bits_kept
    (calls [CallPut 0x100; CallPut 0x200; CallCommit; CallGet]
       (fst sample_ring, snd sample_ring)).
Proof.
  assert (E : puts_succeeded false
                [CallPut 0x100; CallPut 0x200; CallCommit; CallGet]
                (fst sample_ring, snd sample_ring) = true)
    by (vm_compute; reflexivity).
  assert (Hr : reachable_ok (fst sample_ring, snd sample_ring)
                 (puts_succeeded false
                    [CallPut 0x100; CallPut 0x200; CallCommit; CallGet]
                    (fst sample_ring, snd sample_ring))
                 (calls [CallPut 0x100; CallPut 0x200; CallCommit; CallGet]
                    (fst sample_ring, snd sample_ring))).
  { apply reachable_ok_calls; [|constructor].
    calls_fit. }
  assert (Hk : XDC_DMACR_SG_DISABLE_MASK <> 0) by by_computation.
  assert (Hreg : region_ok 0x1000 160 0x8000) by by_computation.
  assert (Hc : XDmaChannel_CreateSgList 4 new_channel zero_mem 0x1000 160
                 0x8000
               = Some (XST_SUCCESS, fst sample_ring, snd sample_ring))
    by (apply (created_result sample_created); vm_compute; reflexivity).
  pose proof (stop_bits_kept_once_put new_channel zero_mem 0x1000 160 0x8000 4
                (fst sample_ring) (snd sample_ring) _ _ Hk Hreg Hc Hr) as W.
  rewrite E in W. exact W.
Defined.



(** C4, as stated, fails on the first put after creation: CommitPtr was
    NULL, the put succeeds, and CommitPtr ends on the descriptor just
    written (the old PutPtr, now LastPtr), at [0x1078]. *)
Lemma first_put_commits_written_slot :
  let c := fst sample_ring in
  let m := snd sample_ring in
  let c' := snd (fst (XDmaChannel_PutDescriptor c m 0x100)) in
  fst (fst (XDmaChannel_PutDescriptor c m 0x100)) = XST_SUCCESS /\
  CommitPtr c = 0 /\
  PutPtr c = 0x1078 /\
  CommitPtr c' = 0x1078 /\
  CommitPtr c' = LastPtr c'.
Proof. by_computation. Qed.

(** C4 (amended) on the sample: the second put. *)
Lemma put_descriptor_cursors_on_sample :
  let c := fst sample_after_put in
  let m := snd sample_after_put in
  let c' := snd (fst (XDmaChannel_PutDescriptor c m 0x200)) in
  let m' := snd (XDmaChannel_PutDescriptor c m 0x200) in
  ActiveDescriptorCount c' = ActiveDescriptorCount c + 1 /\
  LastPtr c' = PutPtr c /\
  PutPtr c' = next_in_list c m' (PutPtr c) /\
  (separate 0x200 (PutPtr c) -> separate (LastPtr c) (PutPtr c) ->
   PutPtr c' = next_in_list c m (PutPtr c)) /\
  (CommitPtr c = 0 -> CommitPtr c' = LastPtr c) /\
  (CommitPtr c <> 0 -> CommitPtr c' = CommitPtr c) /\
  (CommitPtr c = 0 -> LastPtr c <> PutPtr c -> CommitPtr c' <> LastPtr c') /\
  (CommitPtr c = 0 -> LastPtr c = PutPtr c -> CommitPtr c' = LastPtr c').
Proof.
  cbv zeta.
  apply (put_descriptor_cursors (fst sample_after_put) (snd sample_after_put)
           0x200 _
           (snd (XDmaChannel_PutDescriptor (fst sample_after_put)
                   (snd sample_after_put) 0x200))).
  - apply put_result. vm_compute. reflexivity.
  - by_computation.
  - by_computation.
Defined.

(** C6, as stated, fails on the sample: creation succeeds with four
    descriptors and the cursors are on the last one carved, at [0x1078],
    not on the first, at [0x1000]. *)
Lemma created_cursors_on_last_slot :
  created_status sample_created = Some XST_SUCCESS /\
  TotalDescriptorCount (fst sample_ring) = 4 /\
  PutPtr (fst sample_ring) = 0x1078 /\
  GetPtr (fst sample_ring) = 0x1078 /\
  LastPtr (fst sample_ring) = 0x1078 /\
  PutPtr (fst sample_ring) <> 0x1000.
Proof. by_computation. Qed.

(** C6 (amended) on the sample region. *)
Lemma create_sg_list_result_on_sample :
  exists c m,
    sample_created = Some (XST_SUCCESS, c, m) /\
    TotalDescriptorCount c = 4 /\
    PutPtr c = 0x1078 /\ GetPtr c = 0x1078 /\ LastPtr c = 0x1078 /\
    CommitPtr c = 0 /\
    (forall k, 0 <= k < 4 ->
       next_in_list c m (slot 0x1000 k) = slot 0x1000 ((k + 1) mod 4)).
Proof.
  destruct (create_sg_list_result new_channel zero_mem 0x1000 160 0x8000 4)
    as (_ & Hc).
  - by_computation.
  - vm_compute. lia.
  - destruct (Hc eq_refl)
      as (c & m & E & HN & HP & HG & HL & HC & _ & _ & _ & _ & _ & _ & _ & Hn).
    exists c, m.
    split; [exact E|]. split; [exact HN|]. split; [exact HP|].
    split; [exact HG|]. split; [exact HL|]. split; [exact HC|]. exact Hn.
Defined.


(** C10 on the sample: the descriptor handed out after one put is still
    busy, and get hands it out all the same. *)
Lemma get_descriptor_hands_out_busy :
  busy_bit (snd sample_after_put) (GetPtr (fst sample_after_put)) = true /\
  XDmaChannel_GetDescriptor (fst sample_after_put) (snd sample_after_put) =
    (XST_SUCCESS, Some (GetPtr (fst sample_after_put)),
     set_ActiveDescriptorCount
       (ActiveDescriptorCount (fst sample_after_put) - 1)
       (set_GetPtr
          (next_in_list (fst sample_after_put) (snd sample_after_put)
             (GetPtr (fst sample_after_put)))
          (fst sample_after_put)),
     snd sample_after_put).
Proof.
  split; [vm_compute; reflexivity|].
  apply (get_descriptor_no_ownership_check (fst sample_after_put)
           (snd sample_after_put)); by_computation.
Defined.

(** Stop on the sample engine: two busy reads, a third that shows the
    engine idle, and the descriptor of BDA handed back; with fuel for two
    reads only, no result. *)
Example sg_stop_on_sample_engine :
  option_map (fun r => let '(st, out, _, _, t) := r in (st, out, t))
    (XDmaChannel_SgStop sample_engine 3 (fst sample_ring) (snd sample_ring) [])
  = Some (XST_SUCCESS, Some 0x1028,
          [IoIn 0x4000001C 0x80000001; IoOut 0x4000001C 1;
           IoIn 0x40000014 0x08000000; IoIn 0x40000014 0x08000000;
           IoIn 0x40000014 0; IoIn 0x40000018 0x8028;
           IoIn 0x40000018 0x8028])
  /\ option_map (fun r => let '(st, out, _, _, t) := r in (st, out, t))
       (XDmaChannel_SgStop sample_engine 2 (fst sample_ring)
          (snd sample_ring) [])
     = None.
Proof. split; vm_compute; reflexivity. Qed.

(** Start before and after the commit of the first run (scenario S5),
    with BDA on the descriptor before the head of the run, and start with
    BDA still NULL. *)
Example sg_start_waits_for_commit :
  let engine (bda : Z) : Hardware :=
    fun _ address =>
      if address =? reg new_channel XDC_BDA_REG_OFFSET then bda else 0 in
  let s2 := calls [CallPut 0x100; CallPut 0x200] sample_ring in
  let s3 := calls [CallCommit] s2 in
  let outcome (r : XStatus * XDmaChannel * Mem * Trace) :=
    (fst (fst (fst r)), snd r) in
  fst (outcome (XDmaChannel_SgStart (engine 0x8050) (fst s2) (snd s2) []))
  = XST_DMA_SG_BD_NOT_COMMITTED /\
  fst (outcome (XDmaChannel_SgStart (engine 0x8050) (fst s3) (snd s3) []))
  = XST_SUCCESS /\
  outcome (XDmaChannel_SgStart (engine 0) (fst s3) (snd s3) [])
  = (XST_SUCCESS,
     [IoIn 0x40000014 0; IoIn 0x40000018 0; IoOut 0x40000018 0x8078;
      IoIn 0x4000001C 0; IoOut 0x4000001C 0x80000000;
      IoIn 0x40000004 0; IoOut 0x40000004 0]).
Proof. by_computation. Qed.

(** *** Descriptors that start inside a descriptor of the list *)

(** After two puts and a commit, a put given the address four bytes into
    the descriptor at LastPtr succeeds and leaves that descriptor, which
    is then the one at CommitPtr, with its stop bit clear: the status word
    of the caller's descriptor is the next pointer of LastPtr, and its
    device status word the control word of LastPtr. *)
Example put_inside_tail_clears_stop_bit :
  let s := calls [CallPut 0x100; CallPut 0x200; CallCommit] sample_ring in
  let s' := snd (call (CallPut (LastPtr (fst s) + 4)) s) in
  LastPtr (fst s) = 0x1000 /\
  stop_bit (snd s) (LastPtr (fst s)) = true /\
  fst (call (CallPut (LastPtr (fst s) + 4)) s) = XST_SUCCESS /\
  CommitPtr (fst s') = 0x1000 /\
  load (snd s') 0x1000 XBD_CONTROL_OFFSET = 0 /\
  stop_bit (snd s') (CommitPtr (fst s')) = false.
Proof. vm_compute. repeat split; reflexivity. Qed.

(** After one put, a put given the address four bytes into the descriptor
    at PutPtr overwrites the next pointer of that descriptor before it is
    followed, and PutPtr leaves the list. *)
Example put_inside_put_slot_derails_put_ptr :
  let s := calls [CallPut 0x100] sample_ring in
  let s' := snd (call (CallPut (PutPtr (fst s) + 4)) s) in
  PutPtr (fst s) = 0x1000 /\
  next_in_list (fst s) (snd s) (PutPtr (fst s)) = 0x1028 /\
  fst (call (CallPut (PutPtr (fst s) + 4)) s) = XST_SUCCESS /\
  PutPtr (fst s') = P_TO_V (fst s) XDC_DMASR_BUSY_MASK /\
  PutPtr (fst s') <> 0x1028.
Proof. vm_compute. repeat split; try reflexivity; discriminate. Qed.

(** On the fresh list, a put given the address four bytes before the
    descriptor at PutPtr leaves a status word in the descriptor written
    that is not the busy mask. *)
Example put_before_put_slot_spoils_status :
  let c := fst sample_ring in
  let m := snd sample_ring in
  let r := XDmaChannel_PutDescriptor c m (PutPtr c - 4) in
  fst (fst r) = XST_SUCCESS /\
  load (snd r) (PutPtr c) XBD_STATUS_OFFSET <> XDC_DMASR_BUSY_MASK.
Proof. vm_compute. split; [reflexivity | discriminate]. Qed.

(** *** The further properties on the sample *)

(** X3 on the sample: after a put, a commit and a put the tail test
    holds; the next put, from the descriptor at 0x300 into the descriptor
    at 0x1028, leaves the first word of the descriptor at 0x1050 as it
    was. *)
Lemma put_descriptor_writes_only_on_sample :
  let s := calls [CallPut 0x100; CallCommit; CallPut 0x200]
             (fst sample_ring, snd sample_ring) in
  snd (XDmaChannel_PutDescriptor (fst s) (snd s) 0x300) 0x1050
  = snd s 0x1050.
Proof.
  cbv zeta.
  apply (put_descriptor_writes_only
           (fst (calls [CallPut 0x100; CallCommit; CallPut 0x200]
                   (fst sample_ring, snd sample_ring)))
           (snd (calls [CallPut 0x100; CallCommit; CallPut 0x200]
                   (fst sample_ring, snd sample_ring)))
           0x300 0x1050).
  - intros f _. right. destruct f; vm_compute; discriminate.
  - right. vm_compute. discriminate.
  - right. vm_compute. discriminate.
  - right. vm_compute. discriminate.
  - intros _. right. vm_compute. discriminate.
Defined.

(** X4 on the sample: the put after a put, a commit and a put, for which
    the tail test holds. *)
Lemma put_descriptor_written_slot_on_sample :
  let s := calls [CallPut 0x100; CallCommit; CallPut 0x200]
             (fst sample_ring, snd sample_ring) in
  let c := fst s in
  let m := snd s in
  let m' := snd (XDmaChannel_PutDescriptor c m 0x300) in
  put_opens_tail c = true /\
  load m' (PutPtr c) XBD_STATUS_OFFSET = XDC_DMASR_BUSY_MASK /\
  load m' (PutPtr c) XBD_DEVICE_STATUS_OFFSET = 0 /\
  load m' (PutPtr c) XBD_CONTROL_OFFSET
  = Z.lor (load m 0x300 XBD_CONTROL_OFFSET) XDC_DMACR_SG_DISABLE_MASK /\
  load m' 0x300 XBD_STATUS_OFFSET = XDC_DMASR_BUSY_MASK.
Proof.
  cbv zeta.
  set (s := calls [CallPut 0x100; CallCommit; CallPut 0x200]
              (fst sample_ring, snd sample_ring)).
  destruct (put_descriptor_written_slot (fst s) (snd s) 0x300
              (snd (fst (XDmaChannel_PutDescriptor (fst s) (snd s) 0x300)))
              (snd (XDmaChannel_PutDescriptor (fst s) (snd s) 0x300)))
    as (_ & Hs & Hd & Hctl & Hc & _).
  - apply put_result. vm_compute. reflexivity.
  - right. left. vm_compute. discriminate.
  - intros _. right. left. vm_compute. discriminate.
  - intros _. right. right. vm_compute. discriminate.
  - split; [vm_compute; reflexivity|].
    split; [exact Hs|]. split; [exact Hd|]. split; [|exact Hc].
    apply Hctl. right. vm_compute. discriminate.
Defined.

(** X5 on the sample: a put and two commits. *)
Lemma commit_after_commit_on_sample :
  let c := fst sample_after_put in
  let m := snd sample_after_put in
  let c' := snd (fst (XDmaChannel_CommitPuts c m)) in
  let m' := snd (XDmaChannel_CommitPuts c m) in
  XDmaChannel_CommitPuts c' m' = (XST_DMA_SG_NOTHING_TO_COMMIT, c', m').
Proof.
  cbv zeta.
  apply (commit_after_commit (fst sample_after_put) (snd sample_after_put)).
  apply commit_result. vm_compute. reflexivity.
Defined.

(** X6 on the sample: after two puts and a get. *)
Lemma active_count_and_cursors_on_sample :
  let s := calls [CallPut 0x100; CallPut 0x200; CallGet]
             (fst sample_ring, snd sample_ring) in
  TotalDescriptorCount (fst s) = 160 / sizeof_XBufDescriptor /\
  0 <= ActiveDescriptorCount (fst s) <= 160 / sizeof_XBufDescriptor /\
  exists g, 0 <= g < 160 / sizeof_XBufDescriptor /\
    GetPtr (fst s) = slot 0x1000 g /\
    PutPtr (fst s)
    = slot 0x1000 ((g + ActiveDescriptorCount (fst s)) mod (160 / sizeof_XBufDescriptor)) /\
    (ActiveDescriptorCount (fst s) < 160 / sizeof_XBufDescriptor ->
     forall i, 0 <= i < ActiveDescriptorCount (fst s) ->
       PutPtr (fst s) <> slot 0x1000 ((g + i) mod (160 / sizeof_XBufDescriptor))).
Proof.
  cbv zeta.
  apply (active_count_and_cursors new_channel zero_mem 0x1000 160 0x8000 4
           (fst sample_ring) (snd sample_ring)
           (puts_succeeded false [CallPut 0x100; CallPut 0x200; CallGet]
              (fst sample_ring, snd sample_ring))).
  - by_computation.
  - apply (created_result sample_created). vm_compute. reflexivity.
  - apply reachable_ok_calls; [calls_fit | constructor].
Defined.

(** X7 on the sample: three puts with a get after the second. *)
Lemma get_follows_put_order_on_sample :
  let ks := [CallPut 0x100; CallPut 0x200; CallGet; CallPut 0x300] in
  let s0 := (fst sample_ring, snd sample_ring) in
  exists rest,
    fst (journal ks s0 [] []) = snd (journal ks s0 [] []) ++ rest /\
    Z.of_nat (length (fst (journal ks s0 [] [])))
    - Z.of_nat (length (snd (journal ks s0 [] [])))
    = ActiveDescriptorCount (fst (calls ks s0)) /\
    exists g, GetPtr (fst (calls ks s0)) = slot 0x1000 g /\
      rest = window (fst (calls ks s0)) g
               (Z.to_nat (ActiveDescriptorCount (fst (calls ks s0)))).
Proof.
  cbv zeta.
  apply (get_follows_put_order new_channel zero_mem 0x1000 160 0x8000 4
           (fst sample_ring) (snd sample_ring)).
  - by_computation.
  - apply (created_result sample_created). vm_compute. reflexivity.
  - calls_fit.
Defined.

(** The journal of the sample calls, evaluated. *)
Example journal_on_sample :
  journal [CallPut 0x100; CallPut 0x200; CallGet; CallPut 0x300; CallGet]
    sample_ring [] []
  = ([0x1078; 0x1000; 0x1028], [0x1078; 0x1000]).
Proof. vm_compute. reflexivity. Qed.

(** X8 on the sample: a second put, then a commit. *)
Lemma commit_after_put_succeeds_on_sample :
  let s := calls [CallPut 0x100] (fst sample_ring, snd sample_ring) in
  let s1 := snd (call (CallPut 0x200) s) in
  ActiveDescriptorCount (fst s1) = ActiveDescriptorCount (fst s) + 1 /\
  (LastPtr (fst s) <> 0 ->
     CommitPtr (fst s1) <> 0 /\ fst (call CallCommit s1) = XST_SUCCESS) /\
  (reachable_ok (fst sample_ring, snd sample_ring)
     (puts_succeeded false [CallPut 0x100]
        (fst sample_ring, snd sample_ring)) s ->
   LastPtr (fst s) <> 0).
Proof.
  cbv zeta.
  apply (commit_after_put_succeeds new_channel zero_mem 0x1000 160 0x8000 4
           (fst sample_ring) (snd sample_ring)
           (puts_succeeded false [CallPut 0x100]
              (fst sample_ring, snd sample_ring))).
  - by_computation.
  - apply (created_result sample_created). vm_compute. reflexivity.
  - apply reachable_calls. constructor.
  - vm_compute. reflexivity.
Defined.

(** X9 on the sample channel: the second descriptor. *)
Lemma address_translation_round_trip_on_sample :
  let c := fst sample_ring in
  (V_TO_P c 0x1028 <> 0 -> P_TO_V c (V_TO_P c 0x1028) = 0x1028) /\
  (P_TO_V c 0x8028 <> 0 -> V_TO_P c (P_TO_V c 0x8028) = 0x8028) /\
  P_TO_V c 0 = 0 /\ V_TO_P c 0 = 0 /\
  (0x1028 <> 0 -> V_TO_P c 0x1028 = 0 ->
   P_TO_V c (V_TO_P c 0x1028) <> 0x1028) /\
  (0x8028 <> 0 -> P_TO_V c 0x8028 = 0 ->
   V_TO_P c (P_TO_V c 0x8028) <> 0x8028).
Proof.
  cbv zeta.
  apply (address_translation_round_trip (fst sample_ring) 0x1028 0x8028);
    by_computation.
Defined.

(** X10 on the sample region. *)
Lemma create_initializes_only_the_region_on_sample :
  exists c m,
    sample_created = Some (XST_SUCCESS, c, m) /\
    RegBaseAddress c = RegBaseAddress new_channel /\
    IsReady c = IsReady new_channel /\
    (forall k f, 0 <= k < 160 / sizeof_XBufDescriptor -> f <> XBD_NEXT_PTR_OFFSET ->
       load m (slot 0x1000 k) f = XBD_INITIAL_WORD f) /\
    (forall a,
       (forall k f, 0 <= k < 160 / sizeof_XBufDescriptor ->
          words_apart a (word_at (slot 0x1000 k) f)) ->
       m a = zero_mem a).
Proof.
  apply (create_initializes_only_the_region new_channel zero_mem
           0x1000 160 0x8000 4).
  - by_computation.
  - reflexivity.
  - vm_compute. lia.
Defined.

(** X11 on the sample: after a put. *)
Lemma created_list_stays_on_sample :
  let s := calls [CallPut 0x100] (fst sample_ring, snd sample_ring) in
  (forall fuel' M' B' P',
     XDmaChannel_CreateSgList fuel' (fst s) (snd s) M' B' P'
     = Some (XST_DMA_SG_LIST_EXISTS, fst s, snd s)) /\
  (forall src, fst (call (CallPut src) s) <> XST_DMA_SG_NO_LIST) /\
  fst (call CallGet s) <> XST_DMA_SG_NO_LIST /\
  (forall hw t,
     fst (fst (fst (XDmaChannel_SgStart hw (fst s) (snd s) t)))
     <> XST_DMA_SG_NO_LIST).
Proof.
  cbv zeta.
  apply (created_list_stays new_channel zero_mem 0x1000 160 0x8000 4
           (fst sample_ring) (snd sample_ring)
           (puts_succeeded false [CallPut 0x100]
              (fst sample_ring, snd sample_ring))).
  - by_computation.
  - apply (created_result sample_created). vm_compute. reflexivity.
  - apply reachable_calls. constructor.
Defined.

(** X12 on the sample list. *)
Lemma fresh_list_is_empty_on_sample :
  let c := fst sample_ring in
  let m := snd sample_ring in
  XDmaChannel_IsSgListEmpty c = true /\
  XDmaChannel_GetDescriptor c m = (XST_DMA_SG_LIST_EMPTY, None, c, m) /\
  XDmaChannel_CommitPuts c m = (XST_DMA_SG_NOTHING_TO_COMMIT, c, m) /\
  (forall hw t,
     XDmaChannel_SgStart hw c m t = (XST_DMA_SG_LIST_EMPTY, c, m, t)) /\
  (forall src,
     fst (fst (XDmaChannel_PutDescriptor c m src)) =
     if bits_set (XBD_INITIAL_WORD XBD_FLAGS_OFFSET) XBD_FLAGS_LOCKED_MASK
     then XST_DMA_SG_BD_LOCKED else XST_SUCCESS).
Proof.
  cbv zeta.
  apply (fresh_list_is_empty new_channel zero_mem 0x1000 160 0x8000 4).
  - by_computation.
  - apply (created_result sample_created). vm_compute. reflexivity.
Defined.

(** X13 on the register file: threshold 7 and wait bound 500. *)
Lemma threshold_and_wait_bound_round_trip_on_sample :
  fst (XDmaChannel_SetPktThreshold new_channel [] 7) = XST_SUCCESS /\
  fst (XDmaChannel_GetPktThreshold register_file new_channel
         (snd (XDmaChannel_SetPktThreshold new_channel [] 7))) = 7 /\
  fst (XDmaChannel_GetPktWaitBound register_file new_channel
         (XDmaChannel_SetPktWaitBound new_channel [] 500)) = 500 /\
  (forall t',
     fst (XDmaChannel_GetPktThreshold register_file new_channel t')
     = register_file t' (reg new_channel XDC_PCT_REG_OFFSET) mod 2 ^ 8 /\
     0 <= fst (XDmaChannel_GetPktThreshold register_file new_channel t')
       < 2 ^ 8).
Proof.
  apply (threshold_and_wait_bound_round_trip register_file new_channel []
           7 500).
  - apply register_file_reads_back.
  - apply register_file_reads_back.
  - lia.
  - lia.
Defined.

(** X14 on the countdown engine: five calls on a count of three. *)
Lemma decrement_pkt_count_stops_at_zero_on_sample :
  let a := reg new_channel XDC_UPC_REG_OFFSET in
  writes_to a (decrement_times countdown_engine 5 new_channel [])
  = Z.min 3 (Z.of_nat 5) /\
  fst (XDmaChannel_GetPktCount countdown_engine new_channel
         (decrement_times countdown_engine 5 new_channel []))
  = Z.max 0 (3 - Z.of_nat 5) /\
  (forall t,
     XDmaChannel_DecrementPktCount countdown_engine new_channel t
     = t ++ IoIn a (countdown_engine t a)
            :: (if 0 <? countdown_engine t a then [IoOut a 1] else [])).
Proof.
  apply (decrement_pkt_count_stops_at_zero countdown_engine new_channel 3 5).
  - intros t _. reflexivity.
  - lia.
Defined.

(** X15 on the register file, with scatter gather enabled beforehand. *)
Lemma stop_after_stop_on_sample :
  let a := reg new_channel XDC_SWCR_REG_OFFSET in
  let t := [IoOut a 0x80000001] in
  let t' := t ++ [IoIn a 0x80000001; IoOut a 1;
                  IoIn (reg new_channel XDC_DMAS_REG_OFFSET) 0;
                  IoIn (reg new_channel XDC_BDA_REG_OFFSET) 0] in
  let written := Z.land (register_file t a) (not32 XDC_SWCR_SG_ENABLE_MASK) in
  last_written a t' = Some written /\
  forall fuel',
    XDmaChannel_SgStop register_file fuel' new_channel zero_mem t'
    = Some (XST_DMA_SG_IS_STOPPED, None, new_channel, zero_mem,
            t' ++ [IoIn a written]).
Proof.
  cbv zeta.
  apply (stop_after_stop register_file new_channel zero_mem
           [IoOut (reg new_channel XDC_SWCR_REG_OFFSET) 0x80000001]
           1 (Some 0) new_channel zero_mem).
  - apply register_file_reads_back.
  - vm_compute. reflexivity.
Defined.

(** X16 on the register file: start on a list with one active
    descriptor, then stop. *)
Lemma stop_after_start_on_sample :
  let t' := snd (XDmaChannel_SgStart register_file one_active_channel
                   zero_mem []) in
  Z.testbit (register_file t' (reg one_active_channel XDC_SWCR_REG_OFFSET))
    31 = true /\
  (forall fuel r,
     XDmaChannel_SgStop register_file fuel one_active_channel zero_mem t'
     = Some r ->
     fst (fst (fst (fst r))) = XST_SUCCESS) /\
  ((forall t0, bits_set (register_file t0
                           (reg one_active_channel XDC_DMAS_REG_OFFSET))
                 XDC_DMASR_SG_BUSY_MASK = false) ->
   forall fuel, exists r,
     XDmaChannel_SgStop register_file (S fuel) one_active_channel zero_mem t'
     = Some r /\
     fst (fst (fst (fst r))) = XST_SUCCESS).
Proof.
  cbv zeta.
  apply (stop_after_start register_file one_active_channel zero_mem []).
  - apply register_file_reads_back.
  - vm_compute. discriminate.
  - vm_compute. reflexivity.
Defined.

(** X17 on the sample: after a put and its commit, a run of two puts and
    its commit. *)
Lemma committed_run_stops_at_its_tail_on_sample :
  let s := calls [CallPut 0x100; CallCommit]
             (fst sample_ring, snd sample_ring) in
  let N := 160 / sizeof_XBufDescriptor in
  let n := Z.of_nat (length [0x200; 0x300]) in
  let s1 := calls (map CallPut [0x200; 0x300]) s in
  let s2 := snd (call CallCommit s1) in
  exists l, 0 <= l < N /\
    LastPtr (fst s) = slot 0x1000 l /\
    n <= N /\
    fst (call CallCommit s1) = XST_SUCCESS /\
    LastPtr (fst s2) = slot 0x1000 ((l + n) mod N) /\
    stop_bit (snd s2) (LastPtr (fst s2)) = true /\
    forall i, 0 <= i < n -> i <> 0 \/ n < N ->
      stop_bit (snd s2) (slot 0x1000 ((l + i) mod N)) = false.
Proof.
  cbv zeta.
  assert (ET : TotalDescriptorCount
                 (fst (calls [CallPut 0x100; CallCommit]
                         (fst sample_ring, snd sample_ring))) = 4)
    by (vm_compute; reflexivity).
  assert (EV : VirtPtr
                 (fst (calls [CallPut 0x100; CallCommit]
                         (fst sample_ring, snd sample_ring))) = 0x1000)
    by (vm_compute; reflexivity).
  apply (committed_run_stops_at_its_tail new_channel zero_mem
           0x1000 160 0x8000 4 (fst sample_ring) (snd sample_ring)).
  - by_computation.
  - by_computation.
  - apply (created_result sample_created). vm_compute. reflexivity.
  - assert (E : puts_succeeded false [CallPut 0x100; CallCommit]
                  (fst sample_ring, snd sample_ring) = true)
      by (vm_compute; reflexivity).
    rewrite <- E. apply reachable_ok_calls; [calls_fit | constructor].
  - vm_compute. reflexivity.
  - discriminate.
  - apply Forall_cons; [|apply Forall_cons; [|apply Forall_nil]];
      intros k Hk; rewrite ET in Hk; rewrite EV; left;
      unfold slot; change sizeof_XBufDescriptor with 40; lia.
  - vm_compute. repeat constructor.
Defined.

(** The stop bits of the four descriptors of the sample after the put, the
    commit, the run of two puts and its commit: only the descriptor the
    run ends on stops the engine. *)
Example stop_bits_after_committed_run :
  let s := calls [CallPut 0x100; CallCommit; CallPut 0x200; CallPut 0x300;
                  CallCommit] sample_ring in
  LastPtr (fst s) = 0x1028 /\
  map (stop_bit (snd s)) [0x1078; 0x1000; 0x1028; 0x1050]
  = [false; false; true; false].
Proof. vm_compute. split; reflexivity. Qed.

(** X18 on the sample: after a put and its commit the engine has stopped
    on the last descriptor of the region; a put, then start. *)
Lemma start_passes_staged_descriptor_on_sample :
  let s := calls [CallPut 0x100; CallCommit]
             (fst sample_ring, snd sample_ring) in
  let s1 := snd (call (CallPut 0x200) s) in
  CommitPtr (fst s1) = LastPtr (fst s) /\
  LastPtr (fst s1) = PutPtr (fst s) /\
  LastPtr (fst s1) <> CommitPtr (fst s1) /\
  fst (call CallCommit s1) = XST_SUCCESS /\
  fst (fst (fst (XDmaChannel_SgStart (idle_engine 0x8078)
                   (fst s1) (snd s1) [])))
  = XST_SUCCESS.
Proof.
  cbv zeta.
  apply (start_passes_staged_descriptor (idle_engine 0x8078)
           new_channel zero_mem 0x1000 160 0x8000 4
           (fst sample_ring) (snd sample_ring)).
  - by_computation.
  - by_computation.
  - apply (created_result sample_created). vm_compute. reflexivity.
  - by_computation.
  - assert (E : puts_succeeded false [CallPut 0x100; CallCommit]
                  (fst sample_ring, snd sample_ring) = true)
      by (vm_compute; reflexivity).
    rewrite <- E. apply reachable_ok_calls; [calls_fit | constructor].
  - vm_compute. reflexivity.
  - apply (source_ok_fields (fst sample_ring));
      [vm_compute; reflexivity | vm_compute; reflexivity |].
    apply below_sample_source_ok. lia.
  - vm_compute. reflexivity.
  - vm_compute. reflexivity.
  - intros t'. vm_compute. reflexivity.
Defined.

End SampleProperties.
